(** * network_report.py: a shallow embedding and its verified properties

    The program reads a JSON inventory of network devices grouped by site,
    computes a handful of aggregates and renders a fixed-width text report.

    Layout of this development:
    - [result]: the outcome of running a piece of Python: a value, a raised
      exception, or [Unmodelled] where the embedding does not determine
      what the interpreter does (text conversion of containers, non-ASCII
      integer literals, [dict()] over a sequence of pairs);
    - [value]: parsed JSON (numbers are integers; text is a string of UTF-8
      bytes, its length counted in code points);
    - the builtins the program calls on such values ([int], [str],
      [format], [dict], [sorted], iteration, [dict.get], true division),
      with the limit of 4300 digits that CPython puts on the conversion
      between an [int] and decimal text;
    - [pct], [load_devices], [format_line] and the body of [main], line by
      line;
    - [Heap]: [load_devices] once more over a store of mutable objects, to
      state what the loader leaves untouched;
    - the properties. *)

From Stdlib Require Import ZArith List String Ascii Bool Lia.
From Stdlib Require Import Sorting.Sorted Sorting.Permutation.
From Stdlib Require Import Numbers.DecimalString.
From Stdlib Require Import Floats.SpecFloat.
From stdpp Require Import base option gmap.

Set Warnings "-register-all".

Local Open Scope string_scope.
Local Open Scope list_scope.
Local Open Scope Z_scope.

(** ** Outcomes *)

Inductive exn :=
| TypeError | ValueError | AttributeError | KeyError
| OverflowError | ZeroDivisionError.

Inductive result (A : Type) : Type :=
| Ok (a : A)
| Raise (e : exn)
| Unmodelled.
Arguments Ok {A} a.
Arguments Raise {A} e.
Arguments Unmodelled {A}.

#[global] Instance result_ret : MRet result := fun A a => Ok a.
#[global] Instance result_bind : MBind result := fun A B f m =>
  match m with
  | Ok a => f a
  | Raise e => Raise e
  | Unmodelled => Unmodelled
  end.
#[global] Instance result_fmap : FMap result := fun A B f m =>
  match m with
  | Ok a => Ok (f a)
  | Raise e => Raise e
  | Unmodelled => Unmodelled
  end.

(** A [for] loop that threads an accumulator and stops at the first
    exception. *)
Fixpoint foldM {A B : Type} (f : A -> B -> result A) (a : A) (l : list B)
  : result A :=
  match l with
  | [] => Ok a
  | b :: l' => a' ← f a b; foldM f a' l'
  end.

(** A comprehension [[x for x in l if p(x)]] whose test may raise. *)
Fixpoint filterM {A : Type} (p : A -> result bool) (l : list A)
  : result (list A) :=
  match l with
  | [] => Ok []
  | x :: l' => b ← p x; r ← filterM p l'; Ok (if b : bool then x :: r else r)
  end.

(** A comprehension [[f(x) for x in l]] whose body may raise. *)
Fixpoint traverse {A B : Type} (f : A -> result B) (l : list A)
  : result (list B) :=
  match l with
  | [] => Ok []
  | x :: l' => y ← f x; r ← traverse f l'; Ok (y :: r)
  end.

(** ** JSON values *)

Inductive value :=
| VNone
| VBool (b : bool)
| VInt (z : Z)
| VStr (s : string)
| VList (xs : list value)
| VDict (kvs : list (string * value)).

(** A [dict] with string keys, in insertion order; a key is read through
    its first binding. *)
Definition dict := list (string * value).

Fixpoint lookup_key {V : Type} (d : list (string * V)) (k : string)
  : option V :=
  match d with
  | [] => None
  | (k', v) :: d' => if String.eqb k' k then Some v else lookup_key d' k
  end.

(** [d[k] = v]: an existing key keeps its place, a new one goes last. *)
Fixpoint setitem {V : Type} (d : list (string * V)) (k : string) (v : V)
  : list (string * V) :=
  match d with
  | [] => [(k, v)]
  | (k', v') :: d' =>
      if String.eqb k' k then (k', v) :: d' else (k', v') :: setitem d' k v
  end.

(** [d.get(k, default)] on a dict. *)
Definition get (d : dict) (k : string) (default : value) : value :=
  match lookup_key d k with
  | Some v => v
  | None => default
  end.

(** [d[k]] on a dict. *)
Definition getitem (d : dict) (k : string) : result value :=
  match lookup_key d k with
  | Some v => Ok v
  | None => Raise KeyError
  end.

(** [x.get(k, default)] on an arbitrary value: only a dict has the
    method. *)
Definition py_get (x : value) (k : string) (default : value) : result value :=
  match x with
  | VDict d => Ok (get d k default)
  | _ => Raise AttributeError
  end.

(** ** Text *)

(** A byte that continues a UTF-8 sequence (10xxxxxx). *)
Definition is_continuation (c : ascii) : bool :=
  let n := N_of_ascii c in ((128 <=? n) && (n <? 192))%N.

(** [len(s)]: the number of code points. *)
Fixpoint ulen (s : string) : Z :=
  match s with
  | EmptyString => 0
  | String c s' => (if is_continuation c then 0 else 1) + ulen s'
  end.

Definition is_ascii_text (s : string) : bool :=
  forallb (fun c => (N_of_ascii c <? 128)%N) (list_ascii_of_string s).

(** The code points of a string, each as a one-character string. *)
Fixpoint chars_aux (cur : string) (s : string) : list string :=
  match s with
  | EmptyString => match cur with EmptyString => [] | _ => [cur] end
  | String c s' =>
      if is_continuation c then chars_aux (cur ++ String c EmptyString) s'
      else match cur with
           | EmptyString => chars_aux (String c EmptyString) s'
           | _ => cur :: chars_aux (String c EmptyString) s'
           end
  end.
Definition chars (s : string) : list string := chars_aux EmptyString s.

Fixpoint repeat_string (c : string) (n : nat) : string :=
  match n with
  | O => EmptyString
  | S n' => c ++ repeat_string c n'
  end.

Definition spaces (n : Z) : string := repeat_string " " (Z.to_nat n).

Definition ljust (s : string) (w : Z) : string := s ++ spaces (w - ulen s).
Definition rjust (s : string) (w : Z) : string := spaces (w - ulen s) ++ s.
(** The [^] alignment of a format specification: the odd space goes to the
    right. *)
Definition center (s : string) (w : Z) : string :=
  let pad := Z.max 0 (w - ulen s) in
  let l := pad / 2 in
  spaces l ++ s ++ spaces (pad - l).

Fixpoint join (sep : string) (l : list string) : string :=
  match l with
  | [] => EmptyString
  | [s] => s
  | s :: l' => s ++ sep ++ join sep l'
  end.

Definition string_of_Z (z : Z) : string := NilZero.string_of_int (Z.to_int z).

(** ** Builtins on values *)

(** [bool(v)], as [if v] and [v or w] test it. *)
Definition truthy (v : value) : bool :=
  match v with
  | VNone => false
  | VBool b => b
  | VInt z => negb (z =? 0)
  | VStr s => negb (String.eqb s EmptyString)
  | VList xs => match xs with [] => false | _ => true end
  | VDict d => match d with [] => false | _ => true end
  end.

(** [a or b]. *)
Definition py_or (a b : value) : value := if truthy a then a else b.

(** The keys of a dict, each once, in insertion order. *)
Fixpoint keys {V : Type} (d : list (string * V)) : list string :=
  match d with
  | [] => []
  | (k, _) :: d' =>
      k :: List.filter (fun k' => negb (String.eqb k' k)) (keys d')
  end.

(** [for x in v]: a list gives its elements, a string its characters, a
    dict its keys; nothing else is iterable. *)
Definition py_iter (v : value) : result (list value) :=
  match v with
  | VList xs => Ok xs
  | VStr s => Ok (map VStr (chars s))
  | VDict d => Ok (map VStr (keys d))
  | VNone | VBool _ | VInt _ => Raise TypeError
  end.

(** [dict(v)]: a shallow copy of a dict.  A string is a sequence of
    one-character strings, none of which is a key-value pair. *)
Definition py_dict (v : value) : result dict :=
  match v with
  | VDict d => Ok d
  | VNone | VBool _ | VInt _ => Raise TypeError
  | VStr s => if String.eqb s EmptyString then Ok [] else Raise ValueError
  | VList [] => Ok []
  | VList ((VNone | VBool _ | VInt _) :: _) => Raise TypeError
  | VList _ => Unmodelled
  end.

(** *** The limit on the decimal text of an [int]

    CPython converts between an [int] and decimal text of at most 4300
    digits: [str], [format] and an f-string raise [ValueError] on an [int]
    of more digits, and [int] raises it on a literal of more digit
    characters (leading zeros count; the sign, blanks and underscores do
    not). *)
Definition MAX_STR_DIGITS : Z := 4300.

(** [10 ^ 4300], the least number of 4301 digits. *)
Definition int_limit : Z := Eval vm_compute in 10 ^ MAX_STR_DIGITS.

Definition in_range (z : Z) : bool := Z.abs z <? int_limit.

(** [str(z)] for an [int]. *)
Definition int_str (z : Z) : result string :=
  if in_range z then Ok (string_of_Z z) else Raise ValueError.

(** *** [int()] *)

Definition is_space (c : ascii) : bool :=
  let n := N_of_ascii c in (((9 <=? n) && (n <=? 13)) || (n =? 32))%N.

Definition digit_of (c : ascii) : option Z :=
  let n := N_of_ascii c in
  if ((48 <=? n) && (n <=? 57))%N then Some (Z.of_N n - 48) else None.

Fixpoint lstrip (l : list ascii) : list ascii :=
  match l with
  | c :: l' => if is_space c then lstrip l' else l
  | [] => []
  end.

Definition strip (l : list ascii) : list ascii :=
  rev (lstrip (rev (lstrip l))).

(** Decimal digits, with single underscores between digits. *)
Fixpoint parse_digits (acc : Z) (l : list ascii) : option Z :=
  match l with
  | [] => Some acc
  | c :: l' =>
      match digit_of c with
      | Some d => parse_digits (10 * acc + d) l'
      | None =>
          if Ascii.eqb c "_" then
            match l' with
            | c' :: _ =>
                match digit_of c' with
                | Some _ => parse_digits acc l'
                | None => None
                end
            | [] => None
            end
          else None
      end
  end.

(** The digit characters of a literal. *)
Definition count_digits (s : string) : Z :=
  Z.of_nat (length (List.filter (fun c => match digit_of c with
                                          | Some _ => true
                                          | None => false
                                          end)
                                (list_ascii_of_string s))).

(** The literal grammar of [int(s)] in base 10: optional blanks, an
    optional sign, digits. *)
Definition parse_int (s : string) : option Z :=
  let l := strip (list_ascii_of_string s) in
  let '(neg, l) :=
    match l with
    | c :: l' =>
        if Ascii.eqb c "-" then (true, l')
        else if Ascii.eqb c "+" then (false, l')
        else (false, l)
    | [] => (false, l)
    end in
  match l with
  | c :: _ =>
      match digit_of c with
      | Some _ =>
          (fun z : Z => if neg : bool then - z else z) <$> parse_digits 0 l
      | None => None
      end
  | [] => None
  end.

Definition py_int (v : value) : result Z :=
  match v with
  | VInt z => Ok z
  | VBool b => Ok (Z.b2z b)
  | VStr s =>
      if is_ascii_text s then
        match parse_int s with
        | Some z =>
            if count_digits s <=? MAX_STR_DIGITS then Ok z
            else Raise ValueError
        | None => Raise ValueError
        end
      else Unmodelled
  | VNone | VList _ | VDict _ => Raise TypeError
  end.

(** *** [str()] and [format()] *)

Definition py_str (v : value) : result string :=
  match v with
  | VNone => Ok "None"
  | VBool b => Ok (if b then "True" else "False")
  | VInt z => int_str z
  | VStr s => Ok s
  | VList _ | VDict _ => Unmodelled
  end.

Inductive align := AlignDefault | AlignLeft | AlignRight.

(** [format(z, spec)] for an [int] and a specification that is an
    optional alignment and a width: numbers go right by default. *)
Definition py_format_int (z : Z) (a : align) (w : Z) : result string :=
  s ← int_str z;
  Ok (match a with AlignLeft => ljust s w | _ => rjust s w end).

(** [format(v, spec)] for such a specification: text goes left and
    numbers right by default, a bool is formatted as the integer it is,
    and [None] and containers accept no specification. *)
Definition py_format (v : value) (a : align) (w : Z) : result string :=
  match v with
  | VStr s =>
      Ok (match a with AlignRight => rjust s w | _ => ljust s w end)
  | VInt z => py_format_int z a w
  | VBool b => py_format_int (Z.b2z b) a w
  | VNone | VList _ | VDict _ => Raise TypeError
  end.

(** [format(n, spec)] for a number of devices: a [len], or a counter that
    is incremented once or twice for a device of a list, is far below the
    limit on the digits, and its text is [string_of_Z n] whatever the
    length of the list. *)
Definition fmt_int (z : Z) (a : align) (w : Z) : string :=
  let s := string_of_Z z in
  match a with AlignLeft => ljust s w | _ => rjust s w end.

(** *** Hashing, key equality and ordering *)

Definition num (v : value) : Z :=
  match v with
  | VInt z => z
  | VBool b => Z.b2z b
  | _ => 0
  end.

(** [hash(v)] raises on the mutable containers. *)
Definition py_hash (v : value) : result unit :=
  match v with
  | VList _ | VDict _ => Raise TypeError
  | _ => Ok tt
  end.

(** Equality of dict keys: [True == 1] and [False == 0]. *)
Definition key_eqb (a b : value) : bool :=
  match a, b with
  | VNone, VNone => true
  | VStr s, VStr t => String.eqb s t
  | (VBool _ | VInt _), (VBool _ | VInt _) => num a =? num b
  | _, _ => false
  end.

(** A dict keyed by hashable values, in insertion order. *)
Definition kdict (A : Type) := list (value * A).

Fixpoint kget {A : Type} (m : kdict A) (k : value) : option A :=
  match m with
  | [] => None
  | (k', a) :: m' => if key_eqb k' k then Some a else kget m' k
  end.

Fixpoint kset {A : Type} (m : kdict A) (k : value) (a : A) : kdict A :=
  match m with
  | [] => [(k, a)]
  | (k', a') :: m' =>
      if key_eqb k' k then (k', a) :: m' else (k', a') :: kset m' k a
  end.

(** [a < b]: numbers with numbers, text with text (by code point, which
    is the byte order of UTF-8). *)
Definition py_lt (a b : value) : result bool :=
  match a, b with
  | (VBool _ | VInt _), (VBool _ | VInt _) => Ok (num a <? num b)
  | VStr s, VStr t => Ok (String.ltb s t)
  | VList _, VList _ => Unmodelled
  | _, _ => Raise TypeError
  end.

(** [sorted(l)] on values: the comparisons may raise. *)
Fixpoint py_insert (x : value) (l : list value) : result (list value) :=
  match l with
  | [] => Ok [x]
  | y :: l' =>
      b ← py_lt y x;
      if b : bool then r ← py_insert x l'; Ok (y :: r) else Ok (x :: y :: l')
  end.

Fixpoint py_sorted (l : list value) : result (list value) :=
  match l with
  | [] => Ok []
  | x :: l' => r ← py_sorted l'; py_insert x r
  end.

(** [sorted(l, key=...)] on keys whose comparison cannot raise: a stable
    sort that only asks [<].  With [reverse=True] the list is reversed,
    sorted and reversed again, which keeps equal keys in encounter order. *)
Section StableSort.
Context {A K : Type} (ltb : K -> K -> bool) (key : A -> K).

Fixpoint insert_by (x : A) (l : list A) : list A :=
  match l with
  | [] => [x]
  | y :: l' =>
      if ltb (key y) (key x) then y :: insert_by x l' else x :: y :: l'
  end.

Definition sorted_by (l : list A) : list A := fold_right insert_by [] l.

Definition sorted_by_reverse (l : list A) : list A :=
  rev (sorted_by (rev l)).

End StableSort.

(** ** Floats

    A [float] is an IEEE 754 binary64 number, as the Standard Library
    specifies it ([spec_float], 53 bits of precision). *)

Definition prec : Z := 53.
Definition emax : Z := 1024.

Definition float := spec_float.

(** The literal of an integral constant: exact, in canonical form. *)
Definition float_of_literal (z : Z) : float :=
  binary_normalize prec emax z 0 false.

(** [a / b] on two [int]s: the quotient, correctly rounded.  A zero
    divisor and a quotient beyond the largest float raise. *)
Definition truediv (a b : Z) : result float :=
  let neg (z : Z) : bool := z <? 0 in
  match a, b with
  | _, Z0 => Raise ZeroDivisionError
  | Z0, _ => Ok (S754_zero (neg b))
  | _, _ =>
      match SFdiv prec emax
              (S754_finite (neg a) (Z.to_pos (Z.abs a)) 0)
              (S754_finite (neg b) (Z.to_pos (Z.abs b)) 0) with
      | S754_infinity _ => Raise OverflowError
      | q => Ok q
      end
  end.

Definition fmul : float -> float -> float := SFmul prec emax.
Definition flt : float -> float -> bool := SFltb.

(** [format(x, ".<digits>f")]: the decimal expansion of the exact binary
    value, rounded half to even. *)
Definition round_half_even (n d : Z) : Z :=
  let q := n / d in
  let r := n mod d in
  match 2 * r ?= d with
  | Lt => q
  | Gt => q + 1
  | Eq => if Z.even q then q else q + 1
  end.

Definition fmt_fixed (digits : nat) (x : float) : string :=
  let scale := 10 ^ Z.of_nat digits in
  let body (s : bool) (n : Z) : string :=
    let whole := string_of_Z (n / scale) in
    let frac := string_of_Z (n mod scale) in
    ((if s then "-" else "") ++ whole ++
     match digits with
     | O => ""
     | _ => "." ++ repeat_string "0" (digits - Z.to_nat (ulen frac))%nat ++ frac
     end)%string in
  match x with
  | S754_nan => "nan"
  | S754_infinity s => if s then "-inf" else "inf"
  | S754_zero s => body s 0
  | S754_finite s m e =>
      body s (if 0 <=? e
              then Zpos m * scale * 2 ^ e
              else round_half_even (Zpos m * scale) (2 ^ (- e)))
  end.

(** ** The program *)

Definition LOW_UPTIME_DAYS : Z := 30.
Definition HIGH_PORT_UTIL_PCT : float := float_of_literal 80.
#[global] Arguments HIGH_PORT_UTIL_PCT : simpl never.
#[global] Arguments float_of_literal : simpl never.

(** [pct], lines 8-9. *)
Definition pct (used total : Z) : result float :=
  if total =? 0 then Ok (S754_zero false)
  else q ← truediv used total; Ok (fmul q (float_of_literal 100)).

(** [load_devices], lines 11-23: every device of every location, copied
    and annotated with the site, city and contact of its location. *)
Definition load_devices (data : value) : result (list dict) :=
  locations ← py_get data "locations" (VList []);
  locations ← py_iter locations;
  foldM (fun all_devices loc =>
    site ← py_get loc "site" VNone;
    city ← py_get loc "city" VNone;
    contact ← py_get loc "contact" VNone;
    devices ← py_get loc "devices" (VList []);
    devices ← py_iter devices;
    foldM (fun all_devices dev =>
      dev ← py_dict dev;
      let dev := setitem dev "_site" site in
      let dev := setitem dev "_city" city in
      let dev := setitem dev "_contact" contact in
      Ok (all_devices ++ [dev]))
      all_devices devices)
    [] locations.

(** [format_line], lines 25-26. *)
Definition format_line (cols : list value) (widths : list Z) : result string :=
  cells ← traverse (fun '(c, w) => s ← py_str c; Ok (ljust s w))
                    (combine cols widths);
  Ok (join "  " cells).

(** *** The aggregates of [main], lines 41-86 *)

(** [v == s] for a string literal [s]. *)
Definition eq_str (v : value) (s : string) : bool :=
  match v with
  | VStr t => String.eqb t s
  | _ => false
  end.

Definition is_dict (v : value) : bool :=
  match v with
  | VDict _ => true
  | _ => false
  end.

(** Lines 41-42: [[d for d in devices if d.get("status") == s]]. *)
Definition with_status (s : string) (devices : list dict) : list dict :=
  List.filter (fun d => eq_str (get d "status" VNone) s) devices.

Definition offline := with_status "offline".
Definition warning := with_status "warning".

Definition uptime_days (d : dict) : result Z :=
  py_int (get d "uptime_days" (VInt 0)).

(** Line 43. *)
Definition low_uptime (devices : list dict) : result (list dict) :=
  filterM (fun d => n ← uptime_days d; Ok (n <? LOW_UPTIME_DAYS)) devices.

Definition kgetitem {A : Type} (m : kdict A) (k : value) : result A :=
  match kget m k with
  | Some a => Ok a
  | None => Raise KeyError
  end.

(** Lines 46-49. *)
Definition by_type (devices : list dict) : result (kdict Z) :=
  foldM (fun by_type d =>
    let t := get d "type" (VStr "unknown") in
    _ ← py_hash t;
    Ok (kset by_type t (default 0 (kget by_type t) + 1)))
    [] devices.

(** Lines 52-55. *)
Definition vlan_set (devices : list dict) : result (gset Z) :=
  foldM (fun vlan_set d =>
    vlans ← py_iter (py_or (get d "vlans" (VList [])) (VList []));
    foldM (fun vlan_set v => n ← py_int v; Ok ({[n]} ∪ vlan_set))
      vlan_set vlans)
    (∅ : gset Z) devices.

(** Line 58. *)
Definition switch_devices (devices : list dict) : list dict :=
  List.filter (fun d => eq_str (get d "type" VNone) "switch"
                        && is_dict (get d "ports" VNone)) devices.

(** [int(d["ports"].get(key, 0))]. *)
Definition port_count (key : string) (d : dict) : result Z :=
  ports ← getitem d "ports";
  n ← py_get ports key (VInt 0);
  py_int n.

(** [sum(l)]. *)
Definition py_sum (l : list Z) : Z := fold_left Z.add l 0.

(** Lines 59-60. *)
Definition total_of (key : string) (sw : list dict) : result Z :=
  py_sum <$> traverse (port_count key) sw.

(** Lines 64-69.  Each site owns a dict of counters, created with four
    keys and open to any further status. *)
Definition new_site_counts : kdict Z :=
  [(VStr "total", 0); (VStr "online", 0); (VStr "offline", 0);
   (VStr "warning", 0)].

Definition setdefault {A : Type} (m : kdict A) (k : value) (a : A) : kdict A :=
  match kget m k with
  | Some _ => m
  | None => kset m k a
  end.

Definition site_stats (devices : list dict) : result (kdict (kdict Z)) :=
  foldM (fun site_stats d =>
    site ← getitem d "_site";
    _ ← py_hash site;
    let site_stats := setdefault site_stats site new_site_counts in
    counts ← kgetitem site_stats site;
    total ← kgetitem counts (VStr "total");
    let counts := kset counts (VStr "total") (total + 1) in
    let status := get d "status" (VStr "online") in
    _ ← py_hash status;
    let counts := kset counts status (default 0 (kget counts status) + 1) in
    Ok (kset site_stats site counts))
    [] devices.

(** Lines 72-78: per site, the record [{"switches", "used", "total"}]. *)
Record port_stat := { n_switches : Z; n_used : Z; n_total : Z }.

Definition site_port (sw : list dict) : result (kdict port_stat) :=
  foldM (fun site_port d =>
    site ← getitem d "_site";
    _ ← py_hash site;
    let site_port :=
      setdefault site_port site
        {| n_switches := 0; n_used := 0; n_total := 0 |} in
    v ← kgetitem site_port site;
    let v := {| n_switches := v.(n_switches) + 1; n_used := v.(n_used);
                n_total := v.(n_total) |} in
    u ← port_count "used" d;
    let v := {| n_switches := v.(n_switches); n_used := v.(n_used) + u;
                n_total := v.(n_total) |} in
    t ← port_count "total" d;
    let v := {| n_switches := v.(n_switches); n_used := v.(n_used);
                n_total := v.(n_total) + t |} in
    Ok (kset site_port site v))
    [] sw.

(** Lines 80-86. *)
Definition high_port_switches (sw : list dict)
  : result (list (dict * float)) :=
  foldM (fun high d =>
    u ← port_count "used" d;
    t ← port_count "total" d;
    p ← pct u t;
    Ok (if flt HIGH_PORT_UTIL_PCT p then high ++ [(d, p)] else high))
    [] sw.

(** *** The report, lines 89-189 *)

(** [c * n] for a one-character string. *)
Definition rule (c : string) (n : nat) : string := repeat_string c n.

(** ['NÄTVERKSRAPPORT - ' + company]: text only concatenates with text. *)
Definition py_concat (s : string) (v : value) : result string :=
  match v with
  | VStr t => Ok (s ++ t)%string
  | _ => Raise TypeError
  end.

Definition device_widths : list Z := [16; 15; 13; 18; 10].

(** [add_device_list], lines 105-123. *)
Definition add_device_list (title : string) (devs : list dict)
  : result (list string) :=
  match devs with
  | [] => Ok [title; rule "-" 80; "Inga."; ""]
  | _ =>
      header ← format_line
        (map VStr ["Hostname"; "IP"; "Typ"; "Site"; "Uptime"]) device_widths;
      underline ← format_line
        (map VStr [rule "-" 16; rule "-" 15; rule "-" 13; rule "-" 18;
                   rule "-" 10]) device_widths;
      rows ← traverse (fun d =>
        site ← getitem d "_site";
        up ← uptime_days d;
        up ← int_str up;
        format_line
          [get d "hostname" (VStr ""); get d "ip_address" (VStr "");
           get d "type" (VStr ""); site;
           VStr (up ++ " d")] device_widths) devs;
      Ok ([title; rule "-" 80; header; underline] ++ rows ++ [""])
  end.

(** Lines 129-137. *)
Definition low_uptime_section (low : list dict) : result (list string) :=
  body ←
    match low with
    | [] => Ok ["Inga."]
    | _ =>
        ks ← traverse uptime_days low;
        let low_uptime_sorted :=
          map fst (sorted_by Z.ltb snd (combine low ks)) in
        traverse (fun d =>
          hostname ← py_format (get d "hostname" (VStr "")) AlignDefault 16;
          up ← uptime_days d;
          up ← py_format_int up AlignRight 4;
          status ← py_format (get d "status" (VStr "")) AlignRight 7;
          site ← getitem d "_site";
          site ← py_str site;
          Ok (hostname ++ " " ++ up ++ " dagar  "
              ++ status ++ "  " ++ site)%string) low_uptime_sorted
    end;
  Ok (["ENHETER MED LÅG UPTIME (<" ++ string_of_Z LOW_UPTIME_DAYS ++ " dagar)";
       rule "-" 80]%string ++ body ++ [""]).

(** Lines 140-147. *)
Definition by_type_section (by_type : kdict Z) (n_devices : Z)
  : result (list string) :=
  ts ← py_sorted (map fst by_type);
  rows ← traverse (fun t =>
    name ← py_format t AlignDefault 15;
    n ← kgetitem by_type t;
    Ok (name ++ ": " ++ fmt_int n AlignRight 3 ++ " st")%string) ts;
  Ok (["STATISTIK PER ENHETSTYP"; rule "-" 80] ++ rows ++
      [rule "-" 40;
       (ljust "TOTALT" 15 ++ ": " ++ fmt_int n_devices AlignRight 3
        ++ " enheter")%string;
       ""]).

Definition fmt_pct (p : float) : string := rjust (fmt_fixed 1 p) 5.

(** Lines 150-153. *)
Definition port_total_section (total_used total_ports : Z) (total_pct : float)
  : result (list string) :=
  used ← int_str total_used;
  ports ← int_str total_ports;
  Ok ["PORTANVÄNDNING – SWITCHAR"; rule "-" 80;
      ("Totalt: " ++ used ++ "/" ++ ports
       ++ " portar används (" ++ fmt_fixed 1 total_pct ++ "%)")%string;
      ""].

(** Lines 154-159. *)
Definition site_port_section (site_port : kdict port_stat)
  : result (list string) :=
  sites ← py_sorted (map fst site_port);
  rows ← traverse (fun site =>
    v ← kgetitem site_port site;
    p ← pct v.(n_used) v.(n_total);
    name ← py_format site AlignDefault 18;
    used ← py_format_int v.(n_used) AlignRight 3;
    ports ← py_format_int v.(n_total) AlignLeft 3;
    Ok ("  " ++ name ++ "  switchar: " ++ fmt_int v.(n_switches) AlignRight 2
        ++ "  " ++ used ++ "/" ++ ports ++ "  " ++ fmt_pct p ++ "%")%string)
    sites;
  Ok (["Per site:"] ++ rows ++ [""]).

(** Lines 161-170. *)
Definition high_port_section (high : list (dict * float))
  : result (list string) :=
  body ←
    match high with
    | [] => Ok ["Inga."]
    | _ =>
        traverse (fun '(d, p) =>
          u ← port_count "used" d;
          t ← port_count "total" d;
          hostname ← py_format (get d "hostname" (VStr "")) AlignDefault 16;
          u ← py_format_int u AlignRight 2;
          t ← py_format_int t AlignLeft 2;
          site ← getitem d "_site";
          site ← py_str site;
          Ok (hostname ++ " " ++ u ++ "/" ++ t ++ "  " ++ fmt_pct p ++ "%  "
              ++ site)%string)
          (sorted_by_reverse flt snd high)
    end;
  Ok (["SWITCHAR ÖVER " ++ fmt_fixed 0 HIGH_PORT_UTIL_PCT
       ++ "% PORTANVÄNDNING"; rule "-" 80]%string ++ body ++ [""]).

(** Line 175: [sorted(vlan_set)]. *)
Definition vlans_sorted (vlan_set : gset Z) : list Z :=
  sorted_by Z.ltb id (elements vlan_set).

(** Lines 173-178. *)
Definition vlan_section (vlan_set : gset Z) : result (list string) :=
  let vs := vlans_sorted vlan_set in
  texts ← traverse int_str vs;
  Ok ["VLAN-ÖVERSIKT"; rule "-" 80;
      ("Totalt antal unika VLAN: " ++ string_of_Z (Z.of_nat (length vs)))%string;
      ("VLANs: " ++ join ", " texts)%string;
      ""].

(** Lines 181-186. *)
Definition site_stats_section (site_stats : kdict (kdict Z))
  : result (list string) :=
  sites ← py_sorted (map fst site_stats);
  rows ← traverse (fun site =>
    v ← kgetitem site_stats site;
    name ← py_str site;
    n ← kgetitem v (VStr "total");
    let count (k : string) := string_of_Z (default 0 (kget v (VStr k))) in
    Ok (name ++ ": " ++ string_of_Z n ++ " (online: " ++ count "online"
        ++ ", offline: " ++ count "offline" ++ ", warning: "
        ++ count "warning" ++ ")")%string) sites;
  Ok (["STATISTIK PER SITE"; rule "-" 80] ++ rows ++ [""]).

(** The lines of the report: the body of [main] from line 35 to line 189,
    for the parsed document [data] and the formatted time of the run. *)
Definition report (report_date : string) (data : value)
  : result (list string) :=
  devices ← load_devices data;
  company ← py_get data "company" (VStr "Unknown");
  last_updated ← py_get data "last_updated" (VStr "");
  let offline := offline devices in
  let warning := warning devices in
  low_uptime ← low_uptime devices;
  by_type ← by_type devices;
  vlan_set ← vlan_set devices;
  let switch_devices := switch_devices devices in
  total_used ← total_of "used" switch_devices;
  total_ports ← total_of "total" switch_devices;
  total_pct ← pct total_used total_ports;
  site_stats ← site_stats devices;
  site_port ← site_port switch_devices;
  high_port_switches ← high_port_switches switch_devices;
  heading ← py_concat "NÄTVERKSRAPPORT - " company;
  last_updated ← py_str last_updated;
  let count {A} (l : list A) := string_of_Z (Z.of_nat (length l)) in
  let summary :=
    [rule "=" 80; center heading 80; rule "=" 80;
     "Rapportdatum: " ++ report_date;
     "Datauppdatering: " ++ last_updated;
     "";
     "EXECUTIVE SUMMARY";
     rule "-" 80;
     "KRITISKT: " ++ count offline ++ " enheter offline";
     "VARNING:  " ++ count warning ++ " enheter med warning-status";
     "OBS:     " ++ count low_uptime ++ " enheter med låg uptime (<"
       ++ string_of_Z LOW_UPTIME_DAYS ++ " dagar)";
     "OBS:     " ++ count high_port_switches ++ " switchar över "
       ++ fmt_fixed 0 HIGH_PORT_UTIL_PCT ++ "% portanvändning";
     ""]%string in
  offline_table ← add_device_list "ENHETER MED STATUS: OFFLINE" offline;
  warning_table ← add_device_list "ENHETER MED STATUS: WARNING" warning;
  low_uptime_lines ← low_uptime_section low_uptime;
  by_type_lines ← by_type_section by_type (Z.of_nat (length devices));
  port_total_lines ← port_total_section total_used total_ports total_pct;
  site_port_lines ← site_port_section site_port;
  high_port_lines ← high_port_section high_port_switches;
  vlan_lines ← vlan_section vlan_set;
  site_stats_lines ← site_stats_section site_stats;
  Ok (summary ++ offline_table ++ warning_table ++ low_uptime_lines
      ++ by_type_lines ++ port_total_lines
      ++ site_port_lines ++ high_port_lines ++ vlan_lines
      ++ site_stats_lines
      ++ [rule "=" 80; "RAPPORT SLUT"; rule "=" 80]).

(** [main]: the text written to the output file (line 191). *)
Definition main (report_date : string) (data : value) : result string :=
  join (String "010" EmptyString) <$> report report_date data.

(** ** The loader over a store of objects

    Lists and dicts are mutable objects with an identity; a value holds a
    reference to them.  [load_devices] is modelled once more at this
    level, where copying a device and assigning to the copy are distinct
    from assigning to the device itself. *)
Module Heap.

Definition loc := positive.

Inductive ref :=
| RNone
| RBool (b : bool)
| RInt (z : Z)
| RStr (s : string)
| RObj (l : loc).

Inductive obj :=
| OList (xs : list ref)
| ODict (kvs : list (string * ref)).

Abbreviation heap := (gmap loc obj).

(** A computation reads and writes the store and may raise; the store at
    the time of the exception is kept. *)
Definition M (A : Type) : Type := heap -> result A * heap.

#[global] Instance M_ret : MRet M := fun A a h => (Ok a, h).
#[global] Instance M_bind : MBind M := fun A B f m h =>
  match m h with
  | (Ok a, h') => f a h'
  | (Raise e, h') => (Raise e, h')
  | (Unmodelled, h') => (Unmodelled, h')
  end.

Definition throw {A : Type} (e : exn) : M A := fun h => (Raise e, h).
Definition unmodelled {A : Type} : M A := fun h => (Unmodelled, h).

Definition read (l : loc) : M obj := fun h =>
  match h !! l with
  | Some o => (Ok o, h)
  | None => (Unmodelled, h)
  end.

(** A new object gets an address no object of the store has. *)
Definition alloc (o : obj) : M loc := fun h =>
  let l := fresh (dom h) in (Ok l, <[l := o]> h).

Definition write (l : loc) (o : obj) : M unit := fun h =>
  (Ok tt, <[l := o]> h).

Fixpoint forM {A B : Type} (f : A -> B -> M A) (a : A) (l : list B) : M A :=
  match l with
  | [] => mret a
  | b :: l' => a' ← f a b; forM f a' l'
  end.

(** [x.get(k)], with [None] for an absent key. *)
Definition get (x : ref) (k : string) : M (option ref) :=
  match x with
  | RObj l =>
      o ← read l;
      match o with
      | ODict kvs => mret (lookup_key kvs k)
      | OList _ => throw AttributeError
      end
  | _ => throw AttributeError
  end.

(** [for y in x], where an absent [x] stands for the default [[]]. *)
Definition iter (x : option ref) : M (list ref) :=
  match x with
  | None => mret []
  | Some (RObj l) =>
      o ← read l;
      match o with
      | OList xs => mret xs
      | ODict kvs => mret (map RStr (keys kvs))
      end
  | Some (RStr s) => mret (map RStr (chars s))
  | Some (RNone | RBool _ | RInt _) => throw TypeError
  end.

(** [dict(x)]: a new dict object with the items of [x]. *)
Definition dict_copy (x : ref) : M loc :=
  match x with
  | RObj l =>
      o ← read l;
      match o with
      | ODict kvs => alloc (ODict kvs)
      | OList [] => alloc (ODict [])
      | OList ((RNone | RBool _ | RInt _) :: _) => throw TypeError
      | OList _ => unmodelled
      end
  | RStr s =>
      if String.eqb s EmptyString then alloc (ODict []) else throw ValueError
  | RNone | RBool _ | RInt _ => throw TypeError
  end.

(** [x[k] = v] on the object at [l]. *)
Definition store_item (l : loc) (k : string) (v : ref) : M unit :=
  o ← read l;
  match o with
  | ODict kvs => write l (ODict (setitem kvs k v))
  | OList _ => throw TypeError
  end.

(** [load_devices], lines 11-23.  The list under construction is local
    to the call until it is returned: it is carried as the list of its
    references, not as an object of the store, which therefore holds the
    objects of the document and the records only. *)
Definition load_devices (data : ref) : M (list ref) :=
  locations ← get data "locations";
  locations ← iter locations;
  forM (fun all_devices loc =>
    site ← get loc "site";
    city ← get loc "city";
    contact ← get loc "contact";
    devices ← get loc "devices";
    devices ← iter devices;
    forM (fun all_devices dev =>
      dev ← dict_copy dev;
      _ ← store_item dev "_site" (default RNone site);
      _ ← store_item dev "_city" (default RNone city);
      _ ← store_item dev "_contact" (default RNone contact);
      mret (all_devices ++ [RObj dev]))
      all_devices devices)
    [] locations.

(** The JSON value a reference stands for in a store. *)
Inductive denotes (h : heap) : ref -> value -> Prop :=
| denotes_none : denotes h RNone VNone
| denotes_bool b : denotes h (RBool b) (VBool b)
| denotes_int z : denotes h (RInt z) (VInt z)
| denotes_str s : denotes h (RStr s) (VStr s)
| denotes_list l xs vs :
    h !! l = Some (OList xs) ->
    Forall2 (denotes h) xs vs ->
    denotes h (RObj l) (VList vs)
| denotes_dict l kvs d :
    h !! l = Some (ODict kvs) ->
    Forall2 (fun kr kv => kr.1 = kv.1 /\ denotes h kr.2 kv.2) kvs d ->
    denotes h (RObj l) (VDict d).

End Heap.

(** * Vocabulary of the properties *)

(** A record carries the three annotations of the loader. *)
Definition annotated (site city contact : value) (d : dict) : Prop :=
  lookup_key d "_site" = Some site /\
  lookup_key d "_city" = Some city /\
  lookup_key d "_contact" = Some contact.

Definition has_annotations (d : dict) : Prop :=
  exists site city contact, annotated site city contact d.

(** Two neighbours of a list sorted by [sorted_by]: the second is not
    below the first. *)
Definition not_after {A K : Type} (ltb : K -> K -> bool) (key : A -> K)
  (x y : A) : Prop :=
  ltb (key y) (key x) = false.

(** The entries a device offers to the VLAN loop (line 54). *)
Definition vlan_entries (d : dict) : result (list value) :=
  py_iter (py_or (get d "vlans" (VList [])) (VList [])).

(** [n] is an entry of the [vlans] of some device, coerced by [int]. *)
Definition vlan_of (devices : list dict) (n : Z) : Prop :=
  exists d vs v,
    In d devices /\ vlan_entries d = Ok vs /\ In v vs /\ py_int v = Ok n.

(** Every entry of the [vlans] of [d] is accepted by [int]. *)
Definition vlans_coercible (d : dict) : Prop :=
  exists vs, vlan_entries d = Ok vs /\
             Forall (fun v => exists n, py_int v = Ok n) vs.

(** The histogram key of a device (line 48). *)
Definition type_key (d : dict) : value := get d "type" (VStr "unknown").

(** The sum of the counters of a histogram. *)
Definition total_count (h : kdict Z) : Z := fold_right Z.add 0 (map snd h).

(** The number of devices whose histogram key equals [t]. *)
Definition count_type (devices : list dict) (t : value) : Z :=
  Z.of_nat (length (List.filter (fun d => key_eqb (type_key d) t) devices)).

Definition hashable (v : value) : Prop := py_hash v = Ok tt.

(** The order of floats as an order on triples of integers: negative
    infinity, the negative numbers (a larger exponent or mantissa is
    further down), the zeros, the positive numbers, positive infinity. *)
Definition rank (x : float) : Z * Z * Z :=
  match x with
  | S754_infinity true => (0, 0, 0)
  | S754_finite true m e => (1, - e, - Zpos m)
  | S754_zero _ => (2, 0, 0)
  | S754_finite false m e => (3, e, Zpos m)
  | S754_infinity false => (4, 0, 0)
  | S754_nan => (5, 0, 0)
  end.

Definition lex_lt (a b : Z * Z * Z) : Prop :=
  let '(a1, a2, a3) := a in
  let '(b1, b2, b3) := b in
  a1 < b1 \/ (a1 = b1 /\ (a2 < b2 \/ (a2 = b2 /\ a3 < b3))).

Definition is_nan (x : float) : bool :=
  match x with
  | S754_nan => true
  | _ => false
  end.

(** [x] is a number (a zero or a finite float) below [2 ^ b] in absolute
    value. *)
Definition within (b : Z) (x : float) : Prop :=
  match x with
  | S754_zero _ => True
  | S754_finite _ m e => Zdigits2 (Zpos m) + e <= b
  | S754_infinity _ | S754_nan => False
  end.

(** A switch device: of type ["switch"], with a mapping for [ports]. *)
Definition is_switch (d : dict) : bool :=
  eq_str (get d "type" VNone) "switch" && is_dict (get d "ports" VNone).

(** The percentage of used ports of a device. *)
Definition utilization (d : dict) : result float :=
  u ← port_count "used" d; t ← port_count "total" d; pct u t.

(** The percentage of used ports is defined and above the threshold. *)
Definition exceeds (d : dict) : bool :=
  match utilization d with
  | Ok p => flt HIGH_PORT_UTIL_PCT p
  | _ => false
  end.

(** The order of display of the high-utilization list: no entry is below
    a later one. *)
Definition descending (x y : dict * float) : Prop :=
  flt (snd x) (snd y) = false.

(** A line of the high-utilization listing (lines 166-169). *)
Definition high_port_row : dict * float -> result string :=
  fun '(d, p) =>
    u ← port_count "used" d;
    t ← port_count "total" d;
    hostname ← py_format (get d "hostname" (VStr "")) AlignDefault 16;
    u ← py_format_int u AlignRight 2;
    t ← py_format_int t AlignLeft 2;
    site ← getitem d "_site";
    site ← py_str site;
    Ok (hostname ++ " " ++ u ++ "/" ++ t ++ "  " ++ fmt_pct p ++ "%  "
        ++ site)%string.

(** *** Reading the store *)

(** What [Heap.get x k] returns in the store [h]. *)
Definition lookup_attr (h : Heap.heap) (x : Heap.ref) (k : string)
  : result (option Heap.ref) :=
  match x with
  | Heap.RObj l =>
      match h !! l with
      | Some (Heap.ODict kvs) => Ok (lookup_key kvs k)
      | Some (Heap.OList _) => Raise AttributeError
      | None => Unmodelled
      end
  | _ => Raise AttributeError
  end.

(** What [Heap.iter x] returns in the store [h]. *)
Definition iterate (h : Heap.heap) (x : option Heap.ref)
  : result (list Heap.ref) :=
  match x with
  | None => Ok []
  | Some (Heap.RObj l) =>
      match h !! l with
      | Some (Heap.OList xs) => Ok xs
      | Some (Heap.ODict kvs) => Ok (map Heap.RStr (keys kvs))
      | None => Unmodelled
      end
  | Some (Heap.RStr s) => Ok (map Heap.RStr (chars s))
  | Some (Heap.RNone | Heap.RBool _ | Heap.RInt _) => Raise TypeError
  end.

(** The items of the dict that [Heap.dict_copy x] creates. *)
Definition copied_items (h : Heap.heap) (x : Heap.ref)
  : result (list (string * Heap.ref)) :=
  match x with
  | Heap.RObj l =>
      match h !! l with
      | Some (Heap.ODict kvs) => Ok kvs
      | Some (Heap.OList []) => Ok []
      | Some (Heap.OList ((Heap.RNone | Heap.RBool _ | Heap.RInt _) :: _)) =>
          Raise TypeError
      | Some (Heap.OList _) => Unmodelled
      | None => Unmodelled
      end
  | Heap.RStr s => if String.eqb s EmptyString then Ok [] else Raise ValueError
  | Heap.RNone | Heap.RBool _ | Heap.RInt _ => Raise TypeError
  end.

(** The three annotations, on the items of a dict. *)
Definition annotate {V : Type} (site city contact : V)
  (kvs : list (string * V)) : list (string * V) :=
  setitem (setitem (setitem kvs "_site" site) "_city" city) "_contact" contact.

(** The body of the inner loop of [Heap.load_devices] (lines 18-22). *)
Definition copy_device (site city contact : option Heap.ref)
  (all_devices : list Heap.ref) (dev : Heap.ref) : Heap.M (list Heap.ref) :=
  dev ← Heap.dict_copy dev;
  _ ← Heap.store_item dev "_site" (default Heap.RNone site);
  _ ← Heap.store_item dev "_city" (default Heap.RNone city);
  _ ← Heap.store_item dev "_contact" (default Heap.RNone contact);
  mret (all_devices ++ [Heap.RObj dev]).

(** The body of the outer loop of [Heap.load_devices] (lines 14-22). *)
Definition copy_location (all_devices : list Heap.ref) (loc : Heap.ref)
  : Heap.M (list Heap.ref) :=
  site ← Heap.get loc "site";
  city ← Heap.get loc "city";
  contact ← Heap.get loc "contact";
  devices ← Heap.get loc "devices";
  devices ← Heap.iter devices;
  Heap.forM (copy_device site city contact) all_devices devices.

(** Outcomes of the two models of the loader that agree. *)
Definition agree {A B : Type} (R : A -> B -> Prop) (r : result A) (p : result B)
  : Prop :=
  match r, p with
  | Ok a, Ok b => R a b
  | Raise e, Raise e' => e = e'
  | Unmodelled, Unmodelled => True
  | _, _ => False
  end.

(** The turns of the two loops of [load_devices], named. *)
Definition enrich_device (site city contact : value)
  (all_devices : list dict) (dev : value) : result (list dict) :=
  dev ← py_dict dev;
  Ok (all_devices ++ [annotate site city contact dev]).

Definition load_location (all_devices : list dict) (loc : value)
  : result (list dict) :=
  site ← py_get loc "site" VNone;
  city ← py_get loc "city" VNone;
  contact ← py_get loc "contact" VNone;
  devices ← py_get loc "devices" (VList []);
  devices ← py_iter devices;
  foldM (enrich_device site city contact) all_devices devices.

(** An optional reference stands for [v], the default standing in for an
    absent one. *)
Definition denotes_or (h : Heap.heap) (default : value)
  (o : option Heap.ref) (v : value) : Prop :=
  match o with
  | Some r => Heap.denotes h r v
  | None => v = default
  end.

(** The items of a dict object stand for the items of a dict. *)
Definition same_items (h : Heap.heap)
  (kvs : list (string * Heap.ref)) (d : dict) : Prop :=
  Forall2 (fun kr kv => kr.1 = kv.1 /\ Heap.denotes h kr.2 kv.2) kvs d.

(** The references stand for the records, one by one. *)
Definition records (h : Heap.heap) (refs : list Heap.ref) (ds : list dict)
  : Prop :=
  Forall2 (fun r d => Heap.denotes h r (VDict d)) refs ds.

(** [d] is a device of a location of the document, with the annotations
    of that location. *)
Definition enriched_from (data : value) (d : dict) : Prop :=
  exists locations loc devices x src,
    py_get data "locations" (VList []) ≫= py_iter = Ok locations /\
    In (VDict loc) locations /\
    py_iter (get loc "devices" (VList [])) = Ok devices /\
    In x devices /\
    py_dict x = Ok src /\
    d = annotate (get loc "site" VNone) (get loc "city" VNone)
                 (get loc "contact" VNone) src.

(** [x] is an object of [h'] that the store [h] did not have. *)
Definition new_object (h h' : Heap.heap) (x : Heap.ref) : Prop :=
  exists l, x = Heap.RObj l /\ h !! l = None /\ is_Some (h' !! l).

(** *** Placeholders in the report *)

(** The words of a line: the maximal runs without a space. *)
Fixpoint words_aux (cur : string) (s : string) : list string :=
  match s with
  | EmptyString => match cur with EmptyString => [] | _ => [cur] end
  | String c s' =>
      if Ascii.eqb c " " then
        match cur with
        | EmptyString => words_aux EmptyString s'
        | _ => cur :: words_aux EmptyString s'
        end
      else words_aux (cur ++ String c EmptyString) s'
  end.
Definition words (s : string) : list string := words_aux EmptyString s.

(** The line that stands for "none". *)
Definition is_placeholder (line : string) : bool := String.eqb line "Inga.".

(** A line that reports a count of zero. *)
Definition is_zero_count (line : string) : bool :=
  existsb (String.eqb "0") (words line).

Definition has_placeholder (lines : list string) : bool :=
  existsb (fun l => is_placeholder l || is_zero_count l) lines.

(** The sections of the report that list an aggregate, each rendered on
    the empty aggregate. *)
Definition empty_sections : list (result (list string)) :=
  [add_device_list "ENHETER MED STATUS: OFFLINE" [];
   add_device_list "ENHETER MED STATUS: WARNING" [];
   low_uptime_section [];
   by_type_section [] 0;
   site_port_section [];
   high_port_section [];
   vlan_section ∅;
   site_stats_section []].

(** The claim that every such section shows a placeholder or a zero
    count. *)
Definition every_empty_section_has_placeholder : Prop :=
  Forall (fun r => exists lines, r = Ok lines /\ has_placeholder lines = true)
         empty_sections.

(** The report of a document without devices. *)
Definition empty_report (report_date company last_updated : string)
  : list string :=
  [rule "=" 80; center ("NÄTVERKSRAPPORT - " ++ company) 80; rule "=" 80;
   "Rapportdatum: " ++ report_date;
   "Datauppdatering: " ++ last_updated;
   "";
   "EXECUTIVE SUMMARY"; rule "-" 80;
   "KRITISKT: 0 enheter offline";
   "VARNING:  0 enheter med warning-status";
   "OBS:     0 enheter med låg uptime (<30 dagar)";
   "OBS:     0 switchar över 80% portanvändning";
   "";
   "ENHETER MED STATUS: OFFLINE"; rule "-" 80; "Inga."; "";
   "ENHETER MED STATUS: WARNING"; rule "-" 80; "Inga."; "";
   "ENHETER MED LÅG UPTIME (<30 dagar)"; rule "-" 80; "Inga."; "";
   "STATISTIK PER ENHETSTYP"; rule "-" 80; rule "-" 40;
   "TOTALT         :   0 enheter"; "";
   "PORTANVÄNDNING – SWITCHAR"; rule "-" 80;
   "Totalt: 0/0 portar används (0.0%)"; "";
   "Per site:"; "";
   "SWITCHAR ÖVER 80% PORTANVÄNDNING"; rule "-" 80; "Inga."; "";
   "VLAN-ÖVERSIKT"; rule "-" 80; "Totalt antal unika VLAN: 0"; "VLANs: "; "";
   "STATISTIK PER SITE"; rule "-" 80; "";
   rule "=" 80; "RAPPORT SLUT"; rule "=" 80]%string.

(** *** Documents the report is written for *)

Definition is_text (v : value) : Prop := exists s, v = VStr s.



(** [int(v)] returns, and its result is within the limit on the digits,
    as every number of a parsed document and every literal that [int]
    accepts is. *)
Definition convertible (v : value) : Prop :=
  exists n, py_int v = Ok n /\ in_range n = true.














(** The digit characters of a list of characters. *)
Definition n_digits (l : list ascii) : Z :=
  Z.of_nat (length (List.filter (fun c => match digit_of c with
                                          | Some _ => true
                                          | None => false
                                          end) l)).

(** *** Rendering *)





(** A document that leaves out every optional field: no company, no date
    of update, a location with a site only, one with a device without any
    field and a switch whose ports give no numbers. *)
Definition document_missing_fields : value :=
  VDict [("locations",
          VList [VDict [("site", VStr "HQ")];
                 VDict [("site", VStr "Lab");
                        ("devices",
                         VList [VDict [];
                                VDict [("type", VStr "switch");
                                       ("ports", VDict [])]])]])].

(** A document whose fields are usable without having the types of the
    example data: an uptime and port counts that are text, a switch whose
    ports give no total and one that uses more ports than it has, a name
    that is a number, a status that is a bool, VLANs of three kinds, a
    date of update that is a number. *)
Definition document_loose_fields : value :=
  VDict [("company", VStr "ACME"); ("last_updated", VInt 20240501);
         ("locations",
          VList [VDict [("site", VStr "HQ");
                        ("devices",
                         VList [VDict [("hostname", VStr "sw1");
                                       ("type", VStr "switch");
                                       ("status", VStr "offline");
                                       ("uptime_days", VStr "12");
                                       ("vlans",
                                        VList [VStr "10"; VInt 20; VBool true]);
                                       ("ports", VDict [("used", VInt 12)])];
                                VDict [("hostname", VInt 7);
                                       ("type", VStr "switch");
                                       ("status", VBool true);
                                       ("ports",
                                        VDict [("used", VStr "30");
                                               ("total", VInt 24)])]])]])].

(** A switch at a location without [site]. *)
Definition document_missing_site : value :=
  VDict [("locations",
          VList [VDict [("devices",
                         VList [VDict [("type", VStr "switch");
                                       ("ports", VDict [])]])]])].

(** A switch that uses more ports than a float can count for each
    port it has. *)
Definition document_port_overflow : value :=
  VDict [("locations",
          VList [VDict [("site", VStr "HQ");
                        ("devices",
                         VList [VDict [("type", VStr "switch");
                                       ("ports",
                                        VDict [("used", VInt (2 ^ 1100));
                                               ("total", VInt 1)])]])]])].

(** *** The shape of a document *)

(** The document [d] with [locs] for its array of locations. *)
Definition with_locations (d : dict) (locs : list value) : value :=
  VDict (setitem d "locations" (VList locs)).

(** The records of the devices [devs] of the location [loc]. *)
Definition location_records (loc : dict) (devs : list dict) : list dict :=
  map (annotate (get loc "site" VNone) (get loc "city" VNone)
                (get loc "contact" VNone)) devs.

(** The keys the loader writes. *)
Definition is_annotation (k : string) : bool :=
  String.eqb k "_site" || String.eqb k "_city" || String.eqb k "_contact".

Definition is_mapping (v : value) : Prop := exists d, v = VDict d.

(** A value that [for] cannot iterate over: [None], a bool or a number. *)
Definition not_iterable (v : value) : Prop :=
  match v with
  | VNone | VBool _ | VInt _ => True
  | _ => False
  end.

(** *** Uptime *)

(** The test of line 43, [False] where the coercion raises. *)
Definition is_low_uptime (d : dict) : bool :=
  match uptime_days d with
  | Ok n => n <? LOW_UPTIME_DAYS
  | _ => false
  end.

(** The uptime of a device whose [uptime_days] is coercible. *)
Definition uptime_of (d : dict) : Z :=
  match uptime_days d with
  | Ok n => n
  | _ => 0
  end.

(** The order of display of the low-uptime listing (line 131), [ks] being
    the sort keys of [low]. *)
Definition low_uptime_sorted (low : list dict) (ks : list Z) : list dict :=
  map fst (sorted_by Z.ltb snd (combine low ks)).

(** A line of the low-uptime listing (line 133). *)
Definition low_uptime_row (d : dict) : result string :=
  hostname ← py_format (get d "hostname" (VStr "")) AlignDefault 16;
  up ← uptime_days d;
  up ← py_format_int up AlignRight 4;
  status ← py_format (get d "status" (VStr "")) AlignRight 7;
  site ← getitem d "_site";
  site ← py_str site;
  Ok (hostname ++ " " ++ up ++ " dagar  "
      ++ status ++ "  " ++ site)%string.

(** *** Counters per site *)

(** The key of a record in the per-site dicts (lines 66 and 74). *)
Definition site_of (d : dict) : value := get d "_site" VNone.

(** The key of a record among the counters of its site (line 69). *)
Definition status_key (d : dict) : value := get d "status" (VStr "online").

Definition at_site (site : value) (d : dict) : bool :=
  key_eqb (site_of d) site.

(** The number of devices of a site. *)
Definition count_at (site : value) (devices : list dict) : Z :=
  Z.of_nat (length (List.filter (at_site site) devices)).

(** The number of devices of a site whose status is [key]. *)
Definition count_status (site key : value) (devices : list dict) : Z :=
  Z.of_nat (length (List.filter
                      (fun d => at_site site d && key_eqb (status_key d) key)
                      devices)).

(** What the counter [key] of a site holds at the end of the loop: the
    devices of that status, and under ["total"] all devices of the site
    as well. *)
Definition site_counter (devices : list dict) (site key : value) : Z :=
  count_status site key devices
  + (if key_eqb (VStr "total") key then count_at site devices else 0).

(** The counter [key] of [site] in the per-site dict, 0 when the site or
    the counter is absent. *)
Definition counter (m : kdict (kdict Z)) (site key : value) : Z :=
  match kget m site with
  | Some counts => default 0 (kget counts key)
  | None => 0
  end.

(** The sum of a figure over the entries of a dict. *)
Definition ksum {A : Type} (f : A -> Z) (m : kdict A) : Z :=
  fold_right Z.add 0 (map (fun kv => f kv.2) m).

(** The ["total"] counter of a site's counters. *)
Definition total_counter (counts : kdict Z) : Z :=
  default 0 (kget counts (VStr "total")).

(** *** Lines of a table *)

(** The width of a line of [format_line]: every cell is as wide as its
    column or, when its text is longer, as that text; two spaces stand
    between neighbours. *)
Definition line_width (strs : list string) (widths : list Z) : Z :=
  fold_right Z.add 0 (map (fun sw => Z.max (ulen sw.1) sw.2)
                          (combine strs widths))
  + 2 * (Z.of_nat (length (combine strs widths)) - 1).

(** The text of every column fits its width. *)
Definition fits (strs : list string) (widths : list Z) : Prop :=
  Forall2 (fun s w => ulen s <= w) strs widths.

(** *** Shallow copies *)

(** The record [r] is a dict object of its own whose items, under every
    key but the annotations, are the very references that [dict(dev)]
    copied from a device [dev]. *)
Definition shares_items (h : Heap.heap) (r : Heap.ref) : Prop :=
  exists l dev kvs kvs',
    r = Heap.RObj l /\ dev <> Heap.RObj l /\
    copied_items h dev = Ok kvs /\
    h !! l = Some (Heap.ODict kvs') /\
    forall k, is_annotation k = false -> lookup_key kvs' k = lookup_key kvs k.

(** *** Listings by key *)

(** No key of the dict is bound twice. *)
Fixpoint kdistinct {A : Type} (m : kdict A) : Prop :=
  match m with
  | [] => True
  | (k, _) :: m' => kget m' k = None /\ kdistinct m'
  end.

(** The dict [m] has text keys, each once, and they are the values [ks]. *)
Definition keyset_ok {A : Type} (m : kdict A) (ks : list value) : Prop :=
  kdistinct m /\ Forall (fun kv => is_text kv.1) m /\
  forall k, In k (map fst m) <-> In k ks.

(** Ascending order of text, by code point. *)
Definition text_lt (a b : string) : Prop := String.ltb a b = true.

(** The row of the type histogram (line 144) for the type [t]. *)
Definition type_row (devices : list dict) (t : string) : string :=
  (ljust t 15 ++ ": " ++ fmt_int (count_type devices (VStr t)) AlignRight 3
   ++ " st")%string.

(** The row of the per-site summary (line 185) for the site [s]. *)
Definition site_row (devices : list dict) (s : string) : string :=
  let count (k : string) :=
    string_of_Z (site_counter devices (VStr s) (VStr k)) in
  (s ++ ": " ++ count "total" ++ " (online: " ++ count "online"
   ++ ", offline: " ++ count "offline" ++ ", warning: "
   ++ count "warning" ++ ")")%string.

(** * Properties *)

(** ** The outcome monad *)

Lemma bind_Ok {A B : Type} (m : result A) (f : A -> result B) (b : B) :
  m ≫= f = Ok b <-> exists a, m = Ok a /\ f a = Ok b.
Proof.
  destruct m as [a|e|]; cbn; split; try discriminate.
  - intros H. now exists a.
  - now intros (a' & [= ->] & H).
  - now intros (a' & [=] & _).
  - now intros (a' & [=] & _).
Qed.

Lemma ret_bind {A B : Type} (a : A) (f : A -> result B) : Ok a ≫= f = f a.
Proof. reflexivity. Qed.

Lemma fmap_Ok {A B : Type} (m : result A) (f : A -> B) (b : B) :
  f <$> m = Ok b <-> exists a, m = Ok a /\ f a = b.
Proof.
  destruct m as [a|e|]; cbn; split; try discriminate.
  - intros [= <-]. now exists a.
  - now intros (a' & [= ->] & ->).
  - now intros (a' & [=] & _).
  - now intros (a' & [=] & _).
Qed.

(** Splits a hypothesis [m ≫= f = Ok b] into its steps. *)
Ltac bind_inv H :=
  repeat match type of H with
  | _ ≫= _ = Ok _ =>
      let a := fresh "a" in
      let Ha := fresh "H" a in
      apply bind_Ok in H as (a & Ha & H)
  | _ <$> _ = Ok _ =>
      let a := fresh "a" in
      let Ha := fresh "H" a in
      apply fmap_Ok in H as (a & Ha & H)
  end.

Lemma foldM_cons {A B : Type} (f : A -> B -> result A) (a : A) (b : B)
    (l : list B) :
  foldM f a (b :: l) = f a b ≫= fun a' => foldM f a' l.
Proof. reflexivity. Qed.

Lemma foldM_app {A B : Type} (f : A -> B -> result A) (a : A) (l1 l2 : list B) :
  foldM f a (l1 ++ l2) = foldM f a l1 ≫= fun a' => foldM f a' l2.
Proof.
  revert a. induction l1 as [|b l1 IH]; intros a; cbn; [reflexivity|].
  destruct (f a b) as [a'|e|]; cbn; auto.
Qed.

(** A loop invariant for [foldM]. *)
Lemma foldM_invariant {A B : Type} (f : A -> B -> result A)
    (I : list B -> A -> Prop) (a0 : A) (l : list B) (a : A) :
  I [] a0 ->
  (forall done b acc acc', In b l -> I done acc -> f acc b = Ok acc' ->
                           I (done ++ [b]) acc') ->
  foldM f a0 l = Ok a ->
  I l a.
Proof.
  intros H0 Hstep.
  assert (G : forall done acc, I done acc -> (forall b, In b l -> In b (done ++ l)) ->
          forall rest, (forall b, In b rest -> In b l) ->
          foldM f acc rest = Ok a -> I (done ++ rest) a).
  { intros done acc HI _ rest. revert done acc HI.
    induction rest as [|b rest IH]; intros done acc HI Hin H; cbn in H.
    - injection H as <-. now rewrite app_nil_r.
    - bind_inv H.
      replace (done ++ b :: rest) with ((done ++ [b]) ++ rest)
        by now rewrite <- app_assoc.
      apply IH with (acc := a1); auto.
      + eapply Hstep; eauto. apply Hin. now left.
      + intros b' Hb'. apply Hin. now right. }
  intros H. apply (G [] a0 H0 (fun b Hb => Hb) l (fun b Hb => Hb) H).
Qed.

(** ** Dict access *)

Lemma lookup_setitem_eq {V : Type} (d : list (string * V)) (k : string) (v : V) :
  lookup_key (setitem d k v) k = Some v.
Proof.
  induction d as [|[k' v'] d IH]; cbn.
  - now rewrite String.eqb_refl.
  - destruct (String.eqb k' k) eqn:E; cbn; now rewrite E.
Qed.

Lemma lookup_setitem_ne {V : Type} (d : list (string * V)) (k k' : string) (v : V) :
  k <> k' -> lookup_key (setitem d k v) k' = lookup_key d k'.
Proof.
  intros Hne. induction d as [|[k0 v0] d IH]; cbn.
  - destruct (String.eqb_spec k k'); [contradiction|reflexivity].
  - destruct (String.eqb_spec k0 k) as [->|]; cbn.
    + destruct (String.eqb_spec k k'); [contradiction|reflexivity].
    + now rewrite IH.
Qed.

(** ** Status filters *)

(** C5: a device whose [status] field is absent appears neither in the
    offline list nor in the warning list, whatever the device list. *)
Theorem absent_status_not_flagged (devices : list dict) (d : dict) :
  lookup_key d "status" = None ->
  ~ In d (offline devices) /\ ~ In d (warning devices).
Proof.
  intros Habsent.
  assert (G : forall s, ~ In d (with_status s devices)).
  { intros s Hin. unfold with_status in Hin.
    apply filter_In in Hin as [_ Hs].
    unfold get in Hs. rewrite Habsent in Hs. discriminate. }
  split; apply G.
Qed.

Lemma absent_status_not_flagged_witness :
  let d : dict := [("hostname", VStr "sw-1"); ("type", VStr "switch")] in
  let devices : list dict := [d; [("status", VStr "offline")]] in
  lookup_key d "status" = None /\
  ~ In d (offline devices) /\ ~ In d (warning devices).
Proof.
  intros d devices. split; [reflexivity|].
  apply (absent_status_not_flagged devices d). reflexivity.
Defined.

(** ** The loader *)

Lemma annotate_annotated (d : dict) (site city contact : value) :
  annotated site city contact
    (setitem (setitem (setitem d "_site" site) "_city" city) "_contact" contact).
Proof.
  unfold annotated. repeat split.
  - rewrite !lookup_setitem_ne by discriminate. apply lookup_setitem_eq.
  - rewrite lookup_setitem_ne by discriminate. apply lookup_setitem_eq.
  - apply lookup_setitem_eq.
Qed.

Lemma load_devices_annotated (data : value) (devices : list dict) :
  load_devices data = Ok devices -> Forall has_annotations devices.
Proof.
  unfold load_devices. intros H. bind_inv H.
  revert H. apply (foldM_invariant _ (fun _ acc => Forall has_annotations acc)).
  { constructor. }
  intros _ loc acc acc' _ Hacc H. bind_inv H.
  revert H. apply (foldM_invariant _ (fun _ acc => Forall has_annotations acc)).
  { exact Hacc. }
  intros _ dev acc1 acc1' _ Hacc1 H. bind_inv H. injection H as <-.
  apply Forall_app. split; [exact Hacc1|].
  constructor; [|constructor].
  eexists _, _, _. apply annotate_annotated.
Qed.

(** C9: every record returned by [load_devices] has the keys [_site],
    [_city] and [_contact], so the lookup [d["_site"]] succeeds on every
    device of the flattened list. *)
Theorem load_devices_site_lookup (data : value) (devices : list dict) (d : dict) :
  load_devices data = Ok devices ->
  In d devices ->
  (exists site city contact,
     lookup_key d "_site" = Some site /\
     lookup_key d "_city" = Some city /\
     lookup_key d "_contact" = Some contact /\
     getitem d "_site" = Ok site).
Proof.
  intros Hload Hin.
  apply load_devices_annotated in Hload.
  rewrite List.Forall_forall in Hload.
  destruct (Hload d Hin) as (site & city & contact & Hs & Hc & Hk).
  exists site, city, contact. repeat split; auto.
  unfold getitem. now rewrite Hs.
Qed.

Lemma load_devices_site_lookup_witness :
  let data :=
    VDict [("locations", VList [VDict [("devices", VList [VDict []])]])] in
  let d : dict := [("_site", VNone); ("_city", VNone); ("_contact", VNone)] in
  load_devices data = Ok [d] /\ In d [d] /\
  exists site city contact,
    lookup_key d "_site" = Some site /\
    lookup_key d "_city" = Some city /\
    lookup_key d "_contact" = Some contact /\
    getitem d "_site" = Ok site.
Proof.
  intros data d.
  assert (Hload : load_devices data = Ok [d]) by reflexivity.
  assert (Hin : In d [d]) by (now left).
  split; [exact Hload|]. split; [exact Hin|].
  exact (load_devices_site_lookup data [d] d Hload Hin).
Defined.

(** ** The VLAN set *)

(** C10: a device whose [vlans] field is present but null contributes
    nothing to the VLAN set and causes no error: with or without it, the
    aggregation has the same outcome. *)
Theorem null_vlans_contribute_nothing (before after : list dict) (d : dict) :
  lookup_key d "vlans" = Some VNone ->
  vlan_set (before ++ d :: after) = vlan_set (before ++ after).
Proof.
  intros Hnull. unfold vlan_set. rewrite !foldM_app.
  destruct (foldM _ _ before) as [s|e|]; cbn; try reflexivity.
  unfold get. rewrite Hnull. reflexivity.
Qed.

Lemma null_vlans_contribute_nothing_witness :
  let d : dict := [("hostname", VStr "r1"); ("vlans", VNone)] in
  let a : dict := [("vlans", VList [VInt 20; VInt 10])] in
  lookup_key d "vlans" = Some VNone /\
  vlan_set ([a] ++ d :: [a]) = vlan_set ([a] ++ [a]).
Proof.
  intros d a. split; [reflexivity|].
  apply (null_vlans_contribute_nothing [a] [a] d). reflexivity.
Defined.

(** ** The stable sort *)

Section StableSortFacts.
Context {A K : Type} (ltb : K -> K -> bool) (key : A -> K).

Lemma insert_by_perm (x : A) (l : list A) :
  Permutation (insert_by ltb key x l) (x :: l).
Proof.
  induction l as [|y l IH]; cbn; [reflexivity|].
  destruct (ltb (key y) (key x)); [|reflexivity].
  rewrite IH. apply perm_swap.
Qed.

Lemma sorted_by_perm (l : list A) : Permutation (sorted_by ltb key l) l.
Proof.
  induction l as [|x l IH]; cbn; [reflexivity|].
  rewrite insert_by_perm. now apply perm_skip.
Qed.

Lemma sorted_by_reverse_perm (l : list A) :
  Permutation (sorted_by_reverse ltb key l) l.
Proof.
  unfold sorted_by_reverse.
  rewrite <- Permutation_rev, sorted_by_perm. symmetry. apply Permutation_rev.
Qed.

(** An element jumps only over elements whose key is strictly below its
    own, so the elements of any family without such a pair keep their
    order. *)
Lemma filter_insert_by (P : A -> bool) (x : A) (l : list A) :
  (P x = true -> forall y, In y l -> P y = true -> ltb (key y) (key x) = false) ->
  List.filter P (insert_by ltb key x l)
  = if P x then x :: List.filter P l else List.filter P l.
Proof.
  induction l as [|y l IH]; intros H; cbn; [reflexivity|].
  destruct (ltb (key y) (key x)) eqn:E; cbn.
  - rewrite IH by (intros Hx z Hz; apply H; [exact Hx|now right]).
    destruct (P x) eqn:Px; [|reflexivity].
    destruct (P y) eqn:Py; [|reflexivity].
    rewrite (H eq_refl y (or_introl eq_refl) Py) in E. discriminate.
  - reflexivity.
Qed.

Lemma sorted_by_stable (P : A -> bool) (l : list A) :
  (forall x y, P x = true -> P y = true -> ltb (key x) (key y) = false) ->
  List.filter P (sorted_by ltb key l) = List.filter P l.
Proof.
  intros H. induction l as [|x l IH]; [reflexivity|].
  change (sorted_by ltb key (x :: l))
    with (insert_by ltb key x (sorted_by ltb key l)).
  rewrite filter_insert_by, IH; [reflexivity|].
  intros Px y _ Py. now apply H.
Qed.

Lemma filter_rev (P : A -> bool) (l : list A) :
  List.filter P (rev l) = rev (List.filter P l).
Proof.
  induction l as [|x l IH]; cbn; [reflexivity|].
  rewrite List.filter_app, IH. cbn.
  destruct (P x); cbn; [reflexivity|]. now rewrite app_nil_r.
Qed.

Lemma sorted_by_reverse_stable (P : A -> bool) (l : list A) :
  (forall x y, P x = true -> P y = true -> ltb (key x) (key y) = false) ->
  List.filter P (sorted_by_reverse ltb key l) = List.filter P l.
Proof.
  intros H. unfold sorted_by_reverse.
  now rewrite filter_rev, sorted_by_stable, filter_rev, rev_involutive.
Qed.

Hypothesis ltb_asym : forall a b, ltb a b = true -> ltb b a = false.

Lemma insert_by_sorted (x : A) (l : list A) :
  Sorted (not_after ltb key) l -> Sorted (not_after ltb key) (insert_by ltb key x l).
Proof.
  induction 1 as [|y l Hl IH Hy]; cbn.
  - repeat constructor.
  - destruct (ltb (key y) (key x)) eqn:E.
    + constructor; [exact IH|].
      destruct l as [|z l]; cbn.
      * constructor. now apply ltb_asym.
      * destruct (ltb (key z) (key x)).
        -- constructor. now inversion Hy.
        -- constructor. now apply ltb_asym.
    + constructor; [now constructor|]. now constructor.
Qed.

Lemma sorted_by_sorted (l : list A) :
  Sorted (not_after ltb key) (sorted_by ltb key l).
Proof.
  induction l as [|x l IH]; [constructor|].
  change (sorted_by ltb key (x :: l))
    with (insert_by ltb key x (sorted_by ltb key l)).
  now apply insert_by_sorted.
Qed.

End StableSortFacts.

Lemma Sorted_snoc {A : Type} (R : A -> A -> Prop) (l : list A) (x : A) :
  Sorted R l -> (forall y, List.last l x = y -> l <> [] -> R y x) ->
  Sorted R (l ++ [x]).
Proof.
  induction 1 as [|y l Hl IH Hy]; intros Hlast; cbn.
  - repeat constructor.
  - constructor.
    + apply IH. intros z Hz Hne. apply Hlast; [|discriminate].
      destruct l; [contradiction|exact Hz].
    + destruct l as [|z l]; cbn.
      * constructor. apply Hlast; [reflexivity|discriminate].
      * constructor. now inversion Hy.
Qed.

Lemma Sorted_rev {A : Type} (R : A -> A -> Prop) (l : list A) :
  Sorted R l -> Sorted (fun x y => R y x) (rev l).
Proof.
  induction 1 as [|x l Hl IH Hx]; cbn; [constructor|].
  apply Sorted_snoc; [exact IH|].
  intros y Hy Hne.
  destruct l as [|z l]; [now contradiction Hne|].
  inversion Hx; subst.
  cbn. rewrite List.last_last. assumption.
Qed.

Lemma vlans_sorted_perm (s : gset Z) : Permutation (vlans_sorted s) (elements s).
Proof. apply sorted_by_perm. Qed.

Lemma vlans_sorted_In (s : gset Z) (n : Z) : In n (vlans_sorted s) <-> n ∈ s.
Proof.
  rewrite <- elem_of_elements, list_elem_of_In.
  split; apply Permutation_in;
    [apply vlans_sorted_perm | symmetry; apply vlans_sorted_perm].
Qed.

Lemma Sorted_le_NoDup_lt (l : list Z) :
  Sorted Z.le l -> List.NoDup l -> StronglySorted Z.lt l.
Proof.
  intros Hs Hd. apply Sorted_StronglySorted in Hs; [|intros x y z; lia].
  induction Hs as [|x l Hl IH Hx]; [constructor|].
  apply List.NoDup_cons_iff in Hd as [Hnotin Hd].
  constructor; [now apply IH|].
  rewrite List.Forall_forall in Hx |- *. intros y Hy.
  assert (x <> y) by (intros ->; now apply Hnotin).
  specialize (Hx y Hy). lia.
Qed.

Lemma vlans_sorted_strict (s : gset Z) : StronglySorted Z.lt (vlans_sorted s).
Proof.
  apply Sorted_le_NoDup_lt.
  - pose proof (sorted_by_sorted Z.ltb id) as H.
    specialize (H ltac:(intros a b; lia) (elements s)).
    fold (vlans_sorted s) in H.
    induction H as [|x l Hl IH Hx]; constructor; [exact IH|].
    destruct Hx as [|y l' Hxy]; constructor.
    unfold not_after, id in Hxy. lia.
  - eapply Permutation_NoDup; [symmetry; apply vlans_sorted_perm|].
    apply NoDup_ListNoDup, NoDup_elements.
Qed.

Lemma vlan_set_members (devices : list dict) (s : gset Z) :
  vlan_set devices = Ok s -> forall n, n ∈ s <-> vlan_of devices n.
Proof.
  unfold vlan_set.
  apply (foldM_invariant _ (fun done acc => forall n, n ∈ acc <-> vlan_of done n)).
  { intros n. split; [set_solver|]. now intros (d & vs & v & [] & _). }
  intros done d acc acc' _ Hacc H. bind_inv H.
  fold (vlan_entries d) in Ha.
  assert (G : forall n, n ∈ acc' <->
            n ∈ acc \/ exists v, In v a /\ py_int v = Ok n).
  { revert H.
    apply (foldM_invariant _ (fun vdone acc1 => forall n, n ∈ acc1 <->
             n ∈ acc \/ exists v, In v vdone /\ py_int v = Ok n)).
    { intros n. split; [now left|]. now intros [|(v & [] & _)]. }
    intros vdone v acc1 acc1' _ Hacc1 H. bind_inv H. injection H as <-.
    intros n. rewrite elem_of_union, elem_of_singleton, Hacc1. split.
    - intros [->|[|(v' & Hv' & Hn)]]; [right|now left|right].
      + exists v. split; [apply in_app_iff; right; now left|assumption].
      + exists v'. split; [apply in_app_iff; now left|assumption].
    - intros [|(v' & Hv' & Hn)]; [right; now left|].
      apply in_app_iff in Hv' as [Hv'|[<-|[]]].
      + right. right. now exists v'.
      + left. congruence. }
  intros n. rewrite G, Hacc. split.
  - intros [(d' & vs & v & Hd' & Hvs & Hv & Hn)|(v & Hv & Hn)].
    + exists d', vs, v. repeat split; auto. apply in_app_iff. now left.
    + exists d, a, v. repeat split; auto. apply in_app_iff. right. now left.
  - intros (d' & vs & v & Hd' & Hvs & Hv & Hn).
    apply in_app_iff in Hd' as [Hd'|[<-|[]]].
    + left. now exists d', vs, v.
    + right. exists v. split; [congruence|assumption].
Qed.

Lemma vlan_set_total (devices : list dict) :
  Forall vlans_coercible devices -> exists s, vlan_set devices = Ok s.
Proof.
  unfold vlan_set. intros H. generalize (∅ : gset Z).
  induction H as [|d devices (vs & Hvs & Hint) _ IH]; intros s0; cbn.
  - now exists s0.
  - fold (vlan_entries d). rewrite Hvs. cbn.
    assert (G : exists s1, foldM (fun (vlan_set : gset Z) v =>
                  n ← py_int v; Ok ({[n]} ∪ vlan_set)) s0 vs = Ok s1).
    { clear Hvs. revert s0. induction Hint as [|v vs (n & Hn) _ IHv];
        intros s0; cbn; [now exists s0|].
      rewrite Hn. cbn. apply IHv. }
    destruct G as (s1 & ->). cbn. apply IH.
Qed.

Lemma traverse_int_str (l : list Z) :
  traverse int_str l
  = if forallb in_range l then Ok (map string_of_Z l) else Raise ValueError.
Proof.
  induction l as [|x l IH]; [reflexivity|].
  cbn [traverse forallb map]. rewrite IH.
  change (int_str x)
    with (if in_range x then Ok (string_of_Z x) else Raise ValueError).
  destruct (in_range x); [|reflexivity].
  rewrite ret_bind. now destruct (forallb in_range l).
Qed.

Lemma vlans_sorted_length (s : gset Z) : length (vlans_sorted s) = size s.
Proof. apply Permutation_length, vlans_sorted_perm. Qed.

(** Two sections, one after the other, within the lines of a report. *)
Lemma infix_here {A : Type} (s1 s2 rest : list A) :
  exists before after, s1 ++ s2 ++ rest = before ++ s1 ++ s2 ++ after.
Proof. now exists [], rest. Qed.

Lemma infix_cons {A : Type} (x : A) (l s1 s2 : list A) :
  (exists before after, l = before ++ s1 ++ s2 ++ after) ->
  exists before after, x :: l = before ++ s1 ++ s2 ++ after.
Proof. intros (b & a & ->). now exists (x :: b), a. Qed.

Lemma infix_app {A : Type} (pre l s1 s2 : list A) :
  (exists before after, l = before ++ s1 ++ s2 ++ after) ->
  exists before after, pre ++ l = before ++ s1 ++ s2 ++ after.
Proof.
  intros (b & a & ->). exists (pre ++ b), a. now rewrite <- app_assoc.
Qed.

(** The report holds the high-utilization listing and the VLAN summary of
    the records of the document, one after the other. *)
Lemma report_sections (report_date : string) (data : value)
    (devices : list dict) (lines : list string) :
  load_devices data = Ok devices ->
  report report_date data = Ok lines ->
  exists vs high vlines hlines,
    vlan_set devices = Ok vs /\
    high_port_switches (switch_devices devices) = Ok high /\
    vlan_section vs = Ok vlines /\
    high_port_section high = Ok hlines /\
    exists before after, lines = before ++ hlines ++ vlines ++ after.
Proof.
  intros Hload H. unfold report in H. rewrite Hload, ret_bind in H.
  repeat (cbv zeta in H; bind_inv H).
  injection H as <-.
  eexists _, _, _, _. repeat (split; [eassumption|]).
  repeat first [apply infix_here | apply infix_cons | apply infix_app].
Qed.

(** C7: the VLAN summary lists, in strictly ascending order and hence
    without repetition, exactly the [vlans] entries of all devices coerced
    to integers: the section of the report gives the number of distinct
    VLANs and the list so sorted, joined by commas, and raises only when
    a VLAN has more digits than an [int] converts to text; the set is
    produced whenever every entry is coercible, a device without a
    [vlans] field offers no entry, and a report that is written holds
    that section for the records of its document. *)
Theorem vlan_summary_sorted_union (devices : list dict) :
  (forall s, vlan_set devices = Ok s ->
     StronglySorted Z.lt (vlans_sorted s) /\
     (forall n, In n (vlans_sorted s) <-> vlan_of devices n) /\
     length (vlans_sorted s) = size s /\
     vlan_section s
     = if forallb in_range (vlans_sorted s)
       then Ok ["VLAN-ÖVERSIKT"; rule "-" 80;
                ("Totalt antal unika VLAN: "
                 ++ string_of_Z (Z.of_nat (length (vlans_sorted s))))%string;
                ("VLANs: "
                 ++ join ", " (map string_of_Z (vlans_sorted s)))%string;
                ""]
       else Raise ValueError) /\
  (Forall vlans_coercible devices -> exists s, vlan_set devices = Ok s) /\
  (forall d, lookup_key d "vlans" = None -> vlan_entries d = Ok []) /\
  (forall report_date data lines,
     load_devices data = Ok devices ->
     report report_date data = Ok lines ->
     exists s section,
       vlan_set devices = Ok s /\ vlan_section s = Ok section /\
       exists before after, lines = before ++ section ++ after).
Proof.
  split; [|split; [|split]].
  - intros s Hs. split; [apply vlans_sorted_strict|]. split; [|split].
    + intros n. rewrite vlans_sorted_In. now apply vlan_set_members.
    + apply vlans_sorted_length.
    + unfold vlan_section. cbv zeta. rewrite traverse_int_str.
      now destruct (forallb in_range (vlans_sorted s)).
  - apply vlan_set_total.
  - intros d Hd. unfold vlan_entries, get. now rewrite Hd.
  - intros report_date data lines Hload H.
    destruct (report_sections report_date data devices lines Hload H)
      as (vs & high & vlines & hlines & Hvs & _ & Hv & _ & before & after & ->).
    exists vs, vlines. split; [exact Hvs|]. split; [exact Hv|].
    exists (before ++ hlines), after. now rewrite <- app_assoc.
Qed.

Lemma vlan_summary_sorted_union_witness :
  let devices : list dict :=
    [[("vlans", VList [VInt 20; VInt 10])]; [("hostname", VStr "r1")];
     [("vlans", VList [VInt 30; VInt 10; VStr "20"])]] in
  Forall vlans_coercible devices /\
  exists s, vlan_set devices = Ok s /\ vlans_sorted s = [10; 20; 30] /\
            StronglySorted Z.lt (vlans_sorted s) /\
            vlan_section s
            = Ok ["VLAN-ÖVERSIKT"; rule "-" 80; "Totalt antal unika VLAN: 3";
                  "VLANs: 10, 20, 30"; ""].
Proof.
  intros devices.
  assert (Hc : Forall vlans_coercible devices).
  { repeat constructor; eexists; (split; [reflexivity|]);
      repeat constructor; eexists; reflexivity. }
  split; [exact Hc|].
  destruct (vlan_summary_sorted_union devices) as (Hsorted & Htotal & _).
  destruct (Htotal Hc) as (s & Hs). exists s.
  split; [exact Hs|].
  destruct (Hsorted s Hs) as (Hstrict & _ & _ & Hsection).
  assert (Hs' : vlan_set devices = Ok ({[10; 20; 30]} : gset Z)).
  { vm_compute. f_equal. }
  rewrite Hs in Hs'. injection Hs' as ->.
  assert (Hl : vlans_sorted ({[10; 20; 30]} : gset Z) = [10; 20; 30])
    by now vm_compute.
  split; [exact Hl|]. split; [exact Hstrict|].
  rewrite Hsection, Hl. reflexivity.
Defined.

(** ** Dicts keyed by values *)

Lemma key_eqb_sym (a b : value) : key_eqb a b = key_eqb b a.
Proof.
  destruct a, b; cbn; try reflexivity;
    try apply Z.eqb_sym; apply String.eqb_sym.
Qed.

Lemma key_eqb_trans (a b c : value) :
  key_eqb a b = true -> key_eqb a c = key_eqb b c.
Proof.
  destruct a, b; cbn; try discriminate; intros H; destruct c; cbn;
    try reflexivity;
    try (apply Z.eqb_eq in H; now rewrite H);
    try (apply String.eqb_eq in H; now rewrite H).
Qed.

Lemma kget_kset {A : Type} (m : kdict A) (k t : value) (a : A) :
  kget (kset m k a) t = if key_eqb k t then Some a else kget m t.
Proof.
  induction m as [|[k' a'] m IH]; cbn; [reflexivity|].
  destruct (key_eqb k' k) eqn:E; cbn.
  - rewrite (key_eqb_trans _ _ t E). now destruct (key_eqb k t).
  - rewrite IH. destruct (key_eqb k' t) eqn:E'; [|reflexivity].
    destruct (key_eqb k t) eqn:E''; [|reflexivity].
    rewrite (key_eqb_trans _ _ k E'), key_eqb_sym, E'' in E.
    discriminate.
Qed.

Lemma total_count_incr (m : kdict Z) (k : value) :
  total_count (kset m k (default 0 (kget m k) + 1)) = total_count m + 1.
Proof.
  unfold total_count.
  induction m as [|[k' a'] m IH]; cbn; [reflexivity|].
  destruct (key_eqb k' k); cbn; [lia|]. rewrite IH. lia.
Qed.

(** ** The type histogram *)

Lemma by_type_counts (devices : list dict) (h : kdict Z) :
  by_type devices = Ok h ->
  total_count h = Z.of_nat (length devices) /\
  forall t, default 0 (kget h t) = count_type devices t.
Proof.
  unfold by_type.
  apply (foldM_invariant _ (fun done acc =>
           total_count acc = Z.of_nat (length done) /\
           forall t, default 0 (kget acc t) = count_type done t)).
  { split; reflexivity. }
  intros done d acc acc' _ [Hsum Hcount] H. bind_inv H. injection H as <-.
  fold (type_key d). split.
  - rewrite total_count_incr, Hsum, length_app. cbn. lia.
  - intros t. rewrite kget_kset. unfold count_type.
    rewrite List.filter_app, length_app. cbn.
    destruct (key_eqb (type_key d) t) eqn:E; cbn.
    + rewrite Hcount. unfold count_type.
      replace (List.filter (fun d0 => key_eqb (type_key d0) (type_key d)) done)
        with (List.filter (fun d0 => key_eqb (type_key d0) t) done); [lia|].
      apply List.filter_ext. intros d0.
      rewrite !(key_eqb_sym (type_key d0)). symmetry. now apply key_eqb_trans.
    + rewrite Hcount. unfold count_type. lia.
Qed.

Lemma by_type_total (devices : list dict) :
  Forall (fun d => hashable (type_key d)) devices ->
  exists h, by_type devices = Ok h.
Proof.
  unfold by_type. intros H. generalize ([] : kdict Z).
  induction H as [|d devices Hd _ IH]; intros h0; cbn; [now exists h0|].
  fold (type_key d). rewrite Hd. cbn. apply IH.
Qed.

(** C6: the counters of the per-type histogram add up to the number of
    devices; the counter of a type counts the devices of that type, under
    the key ["unknown"] for a device without one; and the histogram exists
    whenever every type is hashable. *)
Theorem by_type_sums_to_total (devices : list dict) :
  (forall h, by_type devices = Ok h ->
     total_count h = Z.of_nat (length devices) /\
     (forall t, default 0 (kget h t) = count_type devices t)) /\
  (Forall (fun d => hashable (type_key d)) devices ->
     exists h, by_type devices = Ok h) /\
  (forall d, lookup_key d "type" = None -> type_key d = VStr "unknown").
Proof.
  split; [|split].
  - apply by_type_counts.
  - apply by_type_total.
  - intros d Hd. unfold type_key, get. now rewrite Hd.
Qed.

Lemma by_type_sums_to_total_witness :
  let devices : list dict :=
    [[("type", VStr "switch")]; [("hostname", VStr "x")];
     [("type", VStr "router")]; [("type", VStr "switch")]] in
  Forall (fun d => hashable (type_key d)) devices /\
  exists h, by_type devices = Ok h /\
            h = [(VStr "switch", 2); (VStr "unknown", 1); (VStr "router", 1)] /\
            total_count h = Z.of_nat (length devices).
Proof.
  intros devices.
  assert (Hh : Forall (fun d => hashable (type_key d)) devices)
    by (repeat constructor).
  split; [exact Hh|].
  destruct (by_type_sums_to_total devices) as (Hsum & Htotal & _).
  destruct (Htotal Hh) as (h & Hby). exists h.
  split; [exact Hby|]. split; [|now apply Hsum].
  vm_compute in Hby. now injection Hby as <-.
Defined.

(** ** Floats: the order *)

Lemma flt_rank (x y : float) :
  is_nan x = false -> is_nan y = false ->
  (flt x y = true <-> lex_lt (rank x) (rank y)).
Proof.
  unfold flt, SFltb, lex_lt.
  destruct x as [sx|sx| |sx mx ex]; try discriminate;
    destruct y as [sy|sy| |sy my ey]; try discriminate; intros _ _;
    destruct sx, sy; cbn; try (split; [discriminate|lia]);
    try (split; [lia|reflexivity]);
    change (Pos.compare_cont Eq mx my) with (Pos.compare mx my);
    destruct (Z.compare_spec ex ey); destruct (Pos.compare_spec mx my); cbn;
    split; try discriminate; try reflexivity; lia.
Qed.

Lemma flt_nan_l (x y : float) : is_nan x = true -> flt x y = false.
Proof. now destruct x. Qed.

Lemma flt_nan_r (x y : float) : is_nan y = true -> flt x y = false.
Proof. destruct y; try discriminate. now destruct x. Qed.

Lemma flt_asym (x y : float) : flt x y = true -> flt y x = false.
Proof.
  intros H.
  destruct (is_nan x) eqn:Nx; [now rewrite flt_nan_l in H|].
  destruct (is_nan y) eqn:Ny; [now rewrite flt_nan_r in H|].
  apply (flt_rank x y Nx Ny) in H.
  destruct (flt y x) eqn:E; [|reflexivity].
  apply (flt_rank y x Ny Nx) in E.
  unfold lex_lt in *. destruct (rank x) as [[? ?] ?], (rank y) as [[? ?] ?]. lia.
Qed.

(** On numbers, "not below" is transitive. *)
Lemma flt_false_trans (x y z : float) :
  is_nan x = false -> is_nan y = false -> is_nan z = false ->
  flt x y = false -> flt y z = false -> flt x z = false.
Proof.
  intros Nx Ny Nz Hxy Hyz.
  destruct (flt x z) eqn:E; [|reflexivity].
  apply (flt_rank x z Nx Nz) in E.
  assert (Hxy' : ~ lex_lt (rank x) (rank y))
    by (rewrite <- (flt_rank x y Nx Ny), Hxy; discriminate).
  assert (Hyz' : ~ lex_lt (rank y) (rank z))
    by (rewrite <- (flt_rank y z Ny Nz), Hyz; discriminate).
  unfold lex_lt in *.
  destruct (rank x) as [[? ?] ?], (rank y) as [[? ?] ?], (rank z) as [[? ?] ?].
  lia.
Qed.

Lemma SFeqb_rank (x y : float) : SFeqb x y = true -> rank x = rank y /\ is_nan x = false /\ is_nan y = false.
Proof.
  unfold SFeqb.
  destruct x as [sx|sx| |sx mx ex]; try discriminate;
    destruct y as [sy|sy| |sy my ey]; try discriminate;
    destruct sx, sy; cbn; try discriminate; try (intros _; now repeat split);
    change (Pos.compare_cont Eq mx my) with (Pos.compare mx my);
    destruct (Z.compare_spec ex ey); destruct (Pos.compare_spec mx my); cbn;
    try discriminate; intros _; subst; now repeat split.
Qed.

(** Two floats equal to a third are not below one another. *)
Lemma SFeqb_not_lt (x y k : float) :
  SFeqb x k = true -> SFeqb y k = true -> flt x y = false.
Proof.
  intros Hx Hy.
  apply SFeqb_rank in Hx as (Rx & Nx & _), Hy as (Ry & Ny & _).
  destruct (flt x y) eqn:E; [|reflexivity].
  apply (flt_rank x y Nx Ny) in E. rewrite Rx, Ry in E.
  unfold lex_lt in E. destruct (rank k) as [[? ?] ?]. lia.
Qed.

(** ** Floats: rounding stays in range *)

Lemma Zdigits2_log2 (m : Z) : 0 < m -> Zdigits2 m = Z.log2 m + 1.
Proof.
  destruct m as [|p|p]; try lia. intros _. cbn.
  assert (H : forall q, digits2_pos q = Pos.size q)
    by (induction q; cbn; congruence).
  rewrite H. destruct p; cbn; lia.
Qed.

Lemma Zdigits2_nonneg (m : Z) : 0 <= Zdigits2 m.
Proof. destruct m; cbn; lia. Qed.

Lemma Zdigits2_succ (m : Z) : 0 <= m -> Zdigits2 (m + 1) <= Zdigits2 m + 1.
Proof.
  intros H. destruct (Z.eq_dec m 0) as [->|Hm]; [now vm_compute|].
  rewrite !Zdigits2_log2 by lia.
  pose proof (Z.log2_succ_le m) as H0. rewrite <- !Z.add_1_r in H0. lia.
Qed.

Lemma shr_1_spec (mrs : shr_record) :
  0 <= shr_m mrs ->
  0 <= shr_m (shr_1 mrs) /\
  Zdigits2 (shr_m (shr_1 mrs)) = Z.max 0 (Zdigits2 (shr_m mrs) - 1).
Proof.
  destruct mrs as [m r s]. cbn. intros H.
  destruct m as [|p|p]; try lia; cbn; [lia|].
  destruct p; cbn; lia.
Qed.

Lemma iter_shr_1_spec (p : positive) (mrs : shr_record) :
  0 <= shr_m mrs ->
  0 <= shr_m (SpecFloat.iter_pos shr_1 p mrs) /\
  Zdigits2 (shr_m (SpecFloat.iter_pos shr_1 p mrs))
  = Z.max 0 (Zdigits2 (shr_m mrs) - Zpos p).
Proof.
  revert mrs. induction p as [p IH|p IH|]; intros mrs H; cbn.
  - destruct (shr_1_spec mrs H) as [H1 E1].
    destruct (IH _ H1) as [H2 E2]. destruct (IH _ H2) as [H3 E3].
    split; [exact H3|]. rewrite E3, E2, E1. lia.
  - destruct (IH _ H) as [H2 E2]. destruct (IH _ H2) as [H3 E3].
    split; [exact H3|]. rewrite E3, E2. lia.
  - apply shr_1_spec, H.
Qed.

Lemma shr_m_of_loc (m : Z) (l : location) : shr_m (shr_record_of_loc m l) = m.
Proof. destruct l as [|[]]; reflexivity. Qed.

(** One alignment step: the mantissa stays non-negative, and neither the
    magnitude nor the exponent passes the bounds they had. *)
Lemma shr_fexp_spec (m e : Z) (l : location) (b : Z) :
  0 <= m -> Zdigits2 m + e <= b -> e <= emax - prec ->
  SpecFloat.emin prec emax <= b -> b <= emax ->
  let '(mrs, e') := shr_fexp prec emax m e l in
  0 <= shr_m mrs /\ Zdigits2 (shr_m mrs) + e' <= b /\ e' <= b /\
  e' <= emax - prec.
Proof.
  intros Hm Hb He Hmin Hmax. unfold shr_fexp, shr.
  pose proof (Zdigits2_nonneg m) as Hd.
  assert (Hf : fexp prec emax (Zdigits2 m + e) <= Z.min b (emax - prec))
    by (unfold fexp, SpecFloat.emin, prec, emax in *; lia).
  destruct (fexp prec emax (Zdigits2 m + e) - e) as [|p|p] eqn:E;
    rewrite ?shr_m_of_loc; try (repeat split; lia).
  destruct (iter_shr_1_spec p (shr_record_of_loc m l)) as [H1 E1];
    [now rewrite shr_m_of_loc|].
  rewrite shr_m_of_loc in E1. rewrite E1. repeat split; lia.
Qed.

Lemma round_nearest_even_spec (m : Z) (l : location) :
  0 <= m ->
  0 <= round_nearest_even m l /\
  Zdigits2 (round_nearest_even m l) <= Zdigits2 m + 1.
Proof.
  intros H. pose proof (Zdigits2_succ m H).
  destruct l as [|[]]; cbn; try destruct (Z.even m); split; lia.
Qed.

(** Rounding a non-negative mantissa gives a number, one binary digit
    larger at most. *)
Lemma binary_round_aux_within (s : bool) (m e : Z) (l : location) (b : Z) :
  0 <= m -> Zdigits2 m + e <= b -> e <= emax - prec ->
  SpecFloat.emin prec emax <= b -> b + 1 <= emax ->
  within (b + 1) (binary_round_aux prec emax s m e l).
Proof.
  intros Hm Hb He Hmin Hmax. unfold binary_round_aux.
  pose proof (shr_fexp_spec m e l b Hm Hb He Hmin ltac:(lia)) as H1.
  destruct (shr_fexp prec emax m e l) as [mrs1 e1].
  destruct H1 as (Hm1 & Hb1 & He1 & He1').
  destruct (round_nearest_even_spec (shr_m mrs1) (loc_of_shr_record mrs1) Hm1)
    as [Hm2 Hd2].
  pose proof (shr_fexp_spec _ e1 loc_Exact (b + 1) Hm2 ltac:(lia) He1'
                ltac:(lia) Hmax) as H3.
  destruct (shr_fexp prec emax _ e1 loc_Exact) as [mrs3 e3].
  destruct H3 as (Hm3 & Hb3 & He3 & He3').
  destruct (shr_m mrs3) as [|q|q] eqn:E; cbn; [exact I| |lia].
  apply Z.leb_le in He3'. rewrite He3'. cbn. exact Hb3.
Qed.

Lemma within_not_nan (b : Z) (x : float) : within b x -> is_nan x = false.
Proof. now destruct x. Qed.

Lemma shr_fexp_nonneg (m e : Z) (l : location) :
  0 <= m -> 0 <= shr_m (fst (shr_fexp prec emax m e l)).
Proof.
  intros Hm. unfold shr_fexp, shr.
  destruct (fexp prec emax (Zdigits2 m + e) - e) as [|p|p]; cbn;
    rewrite ?shr_m_of_loc; try assumption.
  apply iter_shr_1_spec. now rewrite shr_m_of_loc.
Qed.

(** Rounding a non-negative mantissa never gives a NaN. *)
Lemma binary_round_aux_not_nan (s : bool) (m e : Z) (l : location) :
  0 <= m -> is_nan (binary_round_aux prec emax s m e l) = false.
Proof.
  intros Hm. unfold binary_round_aux.
  pose proof (shr_fexp_nonneg m e l Hm) as H1.
  destruct (shr_fexp prec emax m e l) as [mrs1 e1]. cbn in H1.
  destruct (round_nearest_even_spec (shr_m mrs1) (loc_of_shr_record mrs1) H1)
    as [H2 _].
  pose proof (shr_fexp_nonneg _ e1 loc_Exact H2) as H3.
  destruct (shr_fexp prec emax _ e1 loc_Exact) as [mrs3 e3]. cbn in H3.
  destruct (shr_m mrs3) as [|q|q]; [reflexivity| |lia].
  now destruct (e3 <=? emax - prec).
Qed.

(** The quotient of two positive mantissas before rounding. *)
Lemma SFdiv_core_spec (ma mb : positive) :
  let '(q, e, _) := SFdiv_core_binary prec emax (Zpos ma) 0 (Zpos mb) 0 in
  0 <= q /\ e <= 0 /\
  Zdigits2 q + e
  <= Z.max (Zdigits2 (Zpos ma) - Zdigits2 (Zpos mb) + 1)
           (SpecFloat.emin prec emax).
Proof.
  unfold SFdiv_core_binary.
  set (d1 := Zdigits2 (Zpos ma)). set (d2 := Zdigits2 (Zpos mb)).
  set (e := Z.min (fexp prec emax (d1 + 0 - (d2 + 0))) (0 - 0)).
  set (m' := match 0 - 0 - e with
             | 0 => Zpos ma
             | Zpos _ => Z.shiftl (Zpos ma) (0 - 0 - e)
             | Zneg _ => 0
             end).
  assert (He : e <= 0) by (subst e; lia).
  assert (Hm' : m' = Zpos ma * 2 ^ (- e)).
  { subst m'. replace (0 - 0 - e) with (- e) by lia.
    destruct (- e) as [|p|p] eqn:E; [lia| |lia].
    now rewrite Z.shiftl_mul_pow2 by lia. }
  clearbody m'.
  pose proof (Z.div_eucl_eq m' (Zpos mb) ltac:(lia)) as Hdiv.
  pose proof (Z.mod_pos_bound m' (Zpos mb) ltac:(lia)) as Hmod.
  unfold Z.modulo in Hmod.
  destruct (Z.div_eucl m' (Zpos mb)) as [q r].
  assert (Hm'pos : 0 < m') by (rewrite Hm'; apply Z.mul_pos_pos; [lia|];
                               apply Z.pow_pos_nonneg; lia).
  assert (Hq : 0 <= q) by nia.
  split; [exact Hq|]. split; [exact He|].
  destruct (Z.eq_dec q 0) as [->|Hq0].
  - change (Zdigits2 0) with 0. subst e.
    unfold fexp, SpecFloat.emin, prec, emax. lia.
  - rewrite Zdigits2_log2 by lia.
    assert (Hle : q * Zpos mb <= m') by nia.
    apply Z.log2_le_mono in Hle.
    pose proof (Z.log2_mul_below q (Zpos mb) ltac:(lia) ltac:(lia)) as Hbelow.
    rewrite Hm', Z.log2_mul_pow2 in Hle by lia.
    subst d1 d2. rewrite !Zdigits2_log2 by lia. lia.
Qed.

(** ** Floats: true division and [pct] *)

Lemma SFdiv_finite (sa sb : bool) (ma mb : positive) :
  SFdiv prec emax (S754_finite sa ma 0) (S754_finite sb mb 0)
  = let '(q, e, l) := SFdiv_core_binary prec emax (Zpos ma) 0 (Zpos mb) 0 in
    binary_round_aux prec emax (xorb sa sb) q e l.
Proof. reflexivity. Qed.

Lemma hundred_literal :
  float_of_literal 100 = S754_finite false 7036874417766400 (-46).
Proof. reflexivity. Qed.

Lemma truediv_nonzero (a b : Z) :
  a <> 0 -> b <> 0 ->
  truediv a b
  = let '(q, e, l) :=
      SFdiv_core_binary prec emax (Zpos (Z.to_pos (Z.abs a))) 0
                        (Zpos (Z.to_pos (Z.abs b))) 0 in
    match binary_round_aux prec emax (xorb (a <? 0) (b <? 0)) q e l with
    | S754_infinity _ => Raise OverflowError
    | r => Ok r
    end.
Proof.
  destruct a as [|ma|ma], b as [|mb|mb]; try contradiction; intros _ _;
    unfold truediv; rewrite SFdiv_finite;
    now destruct (SFdiv_core_binary _ _ _ _ _ _) as [[q e] l].
Qed.

Lemma truediv_zero (b : Z) : b <> 0 -> truediv 0 b = Ok (S754_zero (b <? 0)).
Proof. destruct b; [contradiction|reflexivity|reflexivity]. Qed.

Lemma truediv_not_nan (a b : Z) (q : float) :
  truediv a b = Ok q -> is_nan q = false.
Proof.
  destruct (Z.eq_dec b 0) as [->|Hb]; [now destruct a|].
  destruct (Z.eq_dec a 0) as [->|Ha].
  { rewrite truediv_zero by assumption. now intros [= <-]. }
  rewrite truediv_nonzero by assumption.
  pose proof (SFdiv_core_spec (Z.to_pos (Z.abs a)) (Z.to_pos (Z.abs b))) as H.
  destruct (SFdiv_core_binary _ _ _ _ _ _) as [[m e] l].
  destruct H as (Hm & _).
  pose proof (binary_round_aux_not_nan (xorb (a <? 0) (b <? 0)) m e l Hm).
  destruct (binary_round_aux _ _ _ _ _ _); try discriminate;
    now intros [= <-].
Qed.

Lemma truediv_within (a b : Z) :
  b <> 0 -> Z.log2 (Z.abs a) <= Z.log2 (Z.abs b) + 1000 ->
  exists q, truediv a b = Ok q /\ within 1003 q.
Proof.
  intros Hb Hlog.
  destruct (Z.eq_dec a 0) as [->|Ha].
  { rewrite truediv_zero by assumption. eexists. split; [reflexivity|exact I]. }
  rewrite truediv_nonzero by assumption.
  pose proof (SFdiv_core_spec (Z.to_pos (Z.abs a)) (Z.to_pos (Z.abs b))) as H.
  destruct (SFdiv_core_binary _ _ _ _ _ _) as [[m e] l].
  destruct H as (Hm & He & Hd).
  rewrite (Zdigits2_log2 (Zpos (Z.to_pos (Z.abs a)))),
    (Zdigits2_log2 (Zpos (Z.to_pos (Z.abs b)))), !Z2Pos.id in Hd by lia.
  pose proof (binary_round_aux_within (xorb (a <? 0) (b <? 0)) m e l 1002 Hm)
    as Hw.
  specialize (Hw ltac:(unfold SpecFloat.emin, prec, emax in *; lia)
                 ltac:(unfold prec, emax; lia)
                 ltac:(unfold SpecFloat.emin, prec, emax; lia)
                 ltac:(unfold emax; lia)).
  change (1002 + 1) with 1003 in Hw.
  destruct (binary_round_aux _ _ _ _ _ _) as [s|s| |s q eq];
    try contradiction; eexists; (split; [reflexivity|exact Hw]).
Qed.

Lemma fmul_hundred_not_nan (q : float) :
  is_nan q = false -> is_nan (fmul q (float_of_literal 100)) = false.
Proof.
  rewrite hundred_literal. destruct q as [s|s| |s m e]; try discriminate;
    intros _; try reflexivity.
  apply binary_round_aux_not_nan. lia.
Qed.

Lemma fmul_hundred_within (q : float) :
  within 1003 q -> within 1011 (fmul q (float_of_literal 100)).
Proof.
  rewrite hundred_literal.
  destruct q as [s|s| |s m e]; try contradiction; intros Hq; [exact I|].
  cbn in Hq. unfold fmul, SFmul.
  apply (binary_round_aux_within _ _ _ _ 1010).
  - lia.
  - change (Zpos (m * 7036874417766400)) with (Zpos m * 7036874417766400).
    rewrite Zdigits2_log2 by lia.
    pose proof (Z.log2_mul_above (Zpos m) 7036874417766400
                  ltac:(lia) ltac:(lia)) as H.
    change (Z.log2 7036874417766400) with 52 in H.
    pose proof (Zdigits2_log2 (Zpos m)) as H'. cbn [Zdigits2] in H'. lia.
  - pose proof (Zdigits2_log2 (Zpos m) ltac:(lia)) as H'.
    pose proof (Z.log2_nonneg (Zpos m)).
    cbn [Zdigits2] in H'. unfold emax, prec. lia.
  - unfold SpecFloat.emin, emax, prec. lia.
  - unfold emax. lia.
Qed.

(** [pct] never returns a NaN. *)
Lemma pct_not_nan (u t : Z) (p : float) : pct u t = Ok p -> is_nan p = false.
Proof.
  unfold pct. destruct (t =? 0); [now intros [= <-]|].
  intros H. bind_inv H. injection H as <-.
  apply fmul_hundred_not_nan. eapply truediv_not_nan, Ha.
Qed.

(** [pct] returns a number whenever the operands are not more than a
    thousand binary orders of magnitude apart. *)
Lemma pct_within (u t : Z) :
  Z.log2 (Z.abs u) <= Z.log2 (Z.abs t) + 1000 ->
  exists p, pct u t = Ok p /\ within 1011 p.
Proof.
  intros Hlog. unfold pct. destruct (Z.eqb_spec t 0) as [->|Ht].
  - eexists. split; [reflexivity|exact I].
  - destruct (truediv_within u t Ht Hlog) as (q & -> & Hq). cbn.
    eexists. split; [reflexivity|]. now apply fmul_hundred_within.
Qed.

Lemma pct_ratio (u t : Z) :
  0 <= u <= t -> exists p, pct u t = Ok p /\ within 1011 p.
Proof.
  intros H. apply pct_within.
  pose proof (Z.log2_le_mono u t ltac:(lia)).
  rewrite !Z.abs_eq by lia. lia.
Qed.

(** ** The percentage function *)

Lemma truediv_no_zero_division (a b : Z) :
  b <> 0 -> truediv a b <> Raise ZeroDivisionError.
Proof.
  intros Hb. destruct (Z.eq_dec a 0) as [->|Ha].
  - now rewrite truediv_zero.
  - rewrite truediv_nonzero by assumption.
    destruct (SFdiv_core_binary _ _ _ _ _ _) as [[m e] l].
    now destruct (binary_round_aux _ _ _ _ _ _).
Qed.

(** C2: for non-negative integers, [pct used total] is exactly [0.0] when
    [total] is zero and the float [used / total * 100.0] otherwise; it
    never raises a division by zero, although the division itself would,
    and it returns a number whenever [used] is at most [2 ^ 1000] times
    [total]. *)
Theorem pct_spec (used total : Z) :
  0 <= used -> 0 <= total ->
  (total = 0 -> pct used total = Ok (S754_zero false)) /\
  (total <> 0 ->
     pct used total
     = (q ← truediv used total; Ok (fmul q (float_of_literal 100)))) /\
  pct used total <> Raise ZeroDivisionError /\
  truediv used 0 = Raise ZeroDivisionError /\
  (used <= 2 ^ 1000 * total -> exists p, pct used total = Ok p /\ within 1011 p).
Proof.
  intros Hu Ht. repeat split.
  - now intros ->.
  - intros H. unfold pct. now destruct (Z.eqb_spec total 0).
  - unfold pct. destruct (Z.eqb_spec total 0) as [->|H]; [discriminate|].
    pose proof (truediv_no_zero_division used total H).
    now destruct (truediv used total).
  - now destruct used.
  - intros H. apply pct_within.
    destruct (Z.eq_dec total 0) as [->|Hne].
    + assert (used = 0) as -> by lia. change (Z.log2 (Z.abs 0)) with 0. lia.
    + destruct (Z.eq_dec used 0) as [->|Hune].
      * change (Z.log2 (Z.abs 0)) with 0.
        pose proof (Z.log2_nonneg (Z.abs total)). lia.
      * rewrite !Z.abs_eq by lia.
        apply Z.log2_le_mono in H.
        rewrite Z.mul_comm, Z.log2_mul_pow2 in H by lia. lia.
Qed.

Lemma pct_spec_witness :
  0 <= 90 /\ 0 <= 100 /\
  pct 90 0 = Ok (S754_zero false) /\
  pct 90 100 = Ok (float_of_literal 90) /\
  fmt_fixed 1 (float_of_literal 90) = "90.0".
Proof.
  assert (H90 : 0 <= 90) by lia. assert (H100 : 0 <= 100) by lia.
  assert (H0 : 0 <= 0) by lia.
  split; [exact H90|]. split; [exact H100|]. split; [|split].
  - apply (pct_spec 90 0 H90 H0). reflexivity.
  - destruct (pct_spec 90 100 H90 H100) as (_ & H & _).
    rewrite H by discriminate. reflexivity.
  - reflexivity.
Defined.

(** ** The high-utilization list *)

Lemma filter_filter_andb {A : Type} (p q : A -> bool) (l : list A) :
  List.filter q (List.filter p l) = List.filter (fun x => p x && q x) l.
Proof.
  induction l as [|x l IH]; cbn; [reflexivity|].
  destruct (p x); cbn; [|exact IH]. destruct (q x); now rewrite IH.
Qed.

Lemma switch_devices_filter (devices : list dict) :
  switch_devices devices = List.filter is_switch devices.
Proof. reflexivity. Qed.

Lemma utilization_Ok (d : dict) (u t : Z) (p : float) :
  port_count "used" d = Ok u -> port_count "total" d = Ok t ->
  pct u t = Ok p -> utilization d = Ok p.
Proof. intros Hu Ht Hp. unfold utilization. now rewrite Hu, Ht. Qed.

Lemma high_port_switches_filter (sw : list dict) (high : list (dict * float)) :
  high_port_switches sw = Ok high ->
  map fst high = List.filter exceeds sw /\
  Forall (fun x => utilization (fst x) = Ok (snd x) /\
                   flt HIGH_PORT_UTIL_PCT (snd x) = true) high.
Proof.
  unfold high_port_switches.
  apply (foldM_invariant _ (fun done acc =>
    map fst acc = List.filter exceeds done /\
    Forall (fun x => utilization (fst x) = Ok (snd x) /\
                     flt HIGH_PORT_UTIL_PCT (snd x) = true) acc)).
  { split; [reflexivity|constructor]. }
  intros done d acc acc' _ [Hmap Hall] H. bind_inv H. injection H as <-.
  pose proof (utilization_Ok d _ _ _ Ha Ha0 Ha1) as Hu.
  rewrite List.filter_app. cbn. unfold exceeds at 2. rewrite Hu.
  destruct (flt HIGH_PORT_UTIL_PCT a1) eqn:E.
  - rewrite map_app, Hmap. split; [reflexivity|].
    apply Forall_app. split; [exact Hall|]. now repeat constructor.
  - now rewrite app_nil_r.
Qed.

Lemma high_port_switches_total (sw : list dict) :
  Forall (fun d => exists p, utilization d = Ok p) sw ->
  exists high, high_port_switches sw = Ok high.
Proof.
  unfold high_port_switches. intros H.
  set (step := fun (high : list (dict * float)) (d : dict) => _).
  generalize ([] : list (dict * float)).
  induction H as [|d sw (p & Hp) _ IH]; intros acc; [now exists acc|].
  unfold utilization in Hp. bind_inv Hp.
  assert (Hs : step acc d = Ok (if flt HIGH_PORT_UTIL_PCT p
                                 then acc ++ [(d, p)] else acc))
    by (unfold step; now rewrite Ha, ret_bind, Ha0, ret_bind, Hp).
  rewrite foldM_cons, Hs, ret_bind. apply IH.
Qed.

Lemma Sorted_StronglySorted_on {A : Type} (R : A -> A -> Prop) (P : A -> Prop)
    (l : list A) :
  (forall x y z, P x -> P y -> P z -> R x y -> R y z -> R x z) ->
  Forall P l -> Sorted R l -> StronglySorted R l.
Proof.
  intros Htrans HP Hs. induction Hs as [|x l Hl IH Hx]; [constructor|].
  apply List.Forall_cons_iff in HP as [Px HP].
  specialize (IH HP). constructor; [exact IH|].
  destruct Hx as [|y l Hxy]; [constructor|].
  apply StronglySorted_inv in IH as [_ Hy].
  apply List.Forall_cons_iff in HP as [Py HP].
  constructor; [exact Hxy|].
  rewrite List.Forall_forall in Hy, HP |- *.
  intros z Hz. apply (Htrans x y z); auto.
Qed.

Lemma sorted_by_reverse_descending (high : list (dict * float)) :
  Forall (fun x => is_nan (snd x) = false) high ->
  StronglySorted descending (sorted_by_reverse flt snd high).
Proof.
  intros Hnan.
  apply (Sorted_StronglySorted_on _ (fun x => is_nan (snd x) = false)).
  - intros x y z Nx Ny Nz. now apply flt_false_trans.
  - rewrite List.Forall_forall in Hnan |- *. intros x Hx. apply Hnan.
    exact (Permutation_in _ (sorted_by_reverse_perm flt snd high) Hx).
  - unfold sorted_by_reverse.
    apply (Sorted_rev (not_after flt snd)).
    apply sorted_by_sorted, flt_asym.
Qed.

(** C3: the high-utilization list holds, in encounter order, exactly the
    devices of type ["switch"] with a mapping for [ports] whose percentage
    [pct(used, total)] is above 80.0, each paired with that percentage; it
    is displayed in descending order of percentage, equal percentages in
    encounter order: the section of the report has one row for each entry
    of the list so sorted, in that order, and the line ["Inga."] for an
    empty list; the list is built whenever the percentage of every
    switch device is defined; and a report that is written holds that
    section for the records of its document. *)
Theorem high_port_switches_spec (devices : list dict) :
  (forall high, high_port_switches (switch_devices devices) = Ok high ->
     map fst high = List.filter (fun d => is_switch d && exceeds d) devices /\
     Forall (fun x => utilization (fst x) = Ok (snd x) /\
                      flt HIGH_PORT_UTIL_PCT (snd x) = true) high /\
     Permutation (sorted_by_reverse flt snd high) high /\
     StronglySorted descending (sorted_by_reverse flt snd high) /\
     (forall k, List.filter (fun x => SFeqb (snd x) k)
                  (sorted_by_reverse flt snd high)
                = List.filter (fun x => SFeqb (snd x) k) high) /\
     (high <> [] ->
      high_port_section high
      = (rows ← traverse high_port_row (sorted_by_reverse flt snd high);
         Ok (["SWITCHAR ÖVER 80% PORTANVÄNDNING"; rule "-" 80]
             ++ rows ++ [""]))) /\
     (high = [] ->
      high_port_section high
      = Ok ["SWITCHAR ÖVER 80% PORTANVÄNDNING"; rule "-" 80; "Inga."; ""])) /\
  (Forall (fun d => is_switch d = true -> exists p, utilization d = Ok p)
     devices ->
   exists high, high_port_switches (switch_devices devices) = Ok high) /\
  (forall report_date data lines,
     load_devices data = Ok devices ->
     report report_date data = Ok lines ->
     exists high section,
       high_port_switches (switch_devices devices) = Ok high /\
       high_port_section high = Ok section /\
       exists before after, lines = before ++ section ++ after).
Proof.
  split; [|split].
  - intros high H. apply high_port_switches_filter in H as [Hmap Hall].
    split; [|split; [exact Hall|split; [|split; [|split; [|split]]]]];
      [| | | |intros Hne; destruct high; [contradiction|reflexivity]
       |intros ->; reflexivity].
    + now rewrite Hmap, switch_devices_filter, filter_filter_andb.
    + apply sorted_by_reverse_perm.
    + apply sorted_by_reverse_descending.
      eapply List.Forall_impl; [|exact Hall]. intros [d p] [Hu _]. cbn in *.
      unfold utilization in Hu. bind_inv Hu. eapply pct_not_nan, Hu.
    + intros k. apply sorted_by_reverse_stable.
      intros x y Hx Hy. eapply SFeqb_not_lt; eassumption.
  - intros H. apply high_port_switches_total.
    rewrite List.Forall_forall in H |- *. intros d Hd.
    rewrite switch_devices_filter in Hd. apply filter_In in Hd as [Hin Hsw].
    now apply H.
  - intros report_date data lines Hload H.
    destruct (report_sections report_date data devices lines Hload H)
      as (vs & high & vlines & hlines & _ & Hhigh & _ & Hh & before & after & ->).
    exists high, hlines. split; [exact Hhigh|]. split; [exact Hh|].
    now exists before, (vlines ++ after).
Qed.

Lemma high_port_switches_spec_witness :
  let switch (name : string) (u t : Z) : dict :=
    [("hostname", VStr name); ("type", VStr "switch");
     ("ports", VDict [("used", VInt u); ("total", VInt t)])] in
  let a := switch "A" 90 100 in
  let b : dict := [("hostname", VStr "B"); ("type", VStr "router")] in
  let c := switch "C" 95 100 in
  let d := switch "D" 9 10 in
  let e := switch "E" 4 5 in
  let f : dict := [("type", VStr "switch"); ("ports", VList [])] in
  let devices := [a; b; c; d; e; f] in
  Forall (fun d => is_switch d = true -> exists p, utilization d = Ok p)
    devices /\
  exists high,
    high_port_switches (switch_devices devices) = Ok high /\
    map fst high = [a; c; d] /\
    map fst (sorted_by_reverse flt snd high) = [c; a; d] /\
    high_port_section high
    = (rows ← traverse high_port_row (sorted_by_reverse flt snd high);
       Ok (["SWITCHAR ÖVER 80% PORTANVÄNDNING"; rule "-" 80]
           ++ rows ++ [""])).
Proof.
  intros switch a b c d e f devices.
  assert (Hdef : Forall (fun d => is_switch d = true ->
                                  exists p, utilization d = Ok p) devices).
  { repeat constructor; intros H;
      first [discriminate H | eexists; vm_compute; reflexivity]. }
  split; [exact Hdef|].
  destruct (high_port_switches_spec devices) as (Hspec & Htotal & _).
  destruct (Htotal Hdef) as (high & Hhigh). exists high.
  split; [exact Hhigh|].
  destruct (Hspec high Hhigh) as (_ & _ & _ & _ & _ & Hrows & _).
  vm_compute in Hhigh. injection Hhigh as <-.
  split; [reflexivity|]. split; [reflexivity|].
  apply Hrows. discriminate.
Defined.

(** ** The loader and the store *)

Lemma bind_run {A B : Type} (m : Heap.M A) (f : A -> Heap.M B) (h : Heap.heap) :
  (m ≫= f) h
  = match m h with
    | (Ok a, h') => f a h'
    | (Raise e, h') => (Raise e, h')
    | (Unmodelled, h') => (Unmodelled, h')
    end.
Proof. reflexivity. Qed.

Lemma get_run (x : Heap.ref) (k : string) (h : Heap.heap) :
  Heap.get x k h = (lookup_attr h x k, h).
Proof.
  destruct x; try reflexivity. unfold Heap.get, lookup_attr.
  rewrite bind_run. unfold Heap.read.
  destruct (h !! l) as [[xs|kvs]|]; reflexivity.
Qed.

Lemma iter_run (x : option Heap.ref) (h : Heap.heap) :
  Heap.iter x h = (iterate h x, h).
Proof.
  destruct x as [[| | | |l]|]; try reflexivity. unfold Heap.iter, iterate.
  rewrite bind_run. unfold Heap.read.
  destruct (h !! l) as [[xs|kvs]|]; reflexivity.
Qed.

Lemma dict_copy_run (x : Heap.ref) (h : Heap.heap) :
  Heap.dict_copy x h
  = match copied_items h x with
    | Ok kvs => (Ok (fresh (dom h)), <[fresh (dom h) := Heap.ODict kvs]> h)
    | Raise e => (Raise e, h)
    | Unmodelled => (Unmodelled, h)
    end.
Proof.
  destruct x as [| | |s|l]; try reflexivity.
  - unfold Heap.dict_copy, copied_items.
    now destruct (String.eqb s EmptyString).
  - unfold Heap.dict_copy, copied_items. rewrite bind_run. unfold Heap.read.
    destruct (h !! l) as [[[|[] xs]|kvs]|]; reflexivity.
Qed.

Lemma store_item_run (l : Heap.loc) (k : string) (v : Heap.ref)
    (kvs : list (string * Heap.ref)) (h : Heap.heap) :
  Heap.store_item l k v (<[l := Heap.ODict kvs]> h)
  = (Ok tt, <[l := Heap.ODict (setitem kvs k v)]> h).
Proof.
  unfold Heap.store_item. rewrite bind_run. unfold Heap.read.
  rewrite lookup_insert_eq. unfold Heap.write. now rewrite insert_insert_eq.
Qed.

(** One turn of the inner loop: a new object, at an address the store
    did not use, with the copied items and the three annotations. *)
Lemma copy_device_run (site city contact : option Heap.ref)
    (all_devices : list Heap.ref) (dev : Heap.ref) (h : Heap.heap) :
  copy_device site city contact all_devices dev h
  = match copied_items h dev with
    | Ok kvs =>
        (Ok (all_devices ++ [Heap.RObj (fresh (dom h))]),
         <[fresh (dom h) :=
             Heap.ODict (annotate (default Heap.RNone site)
                           (default Heap.RNone city)
                           (default Heap.RNone contact) kvs)]> h)
    | Raise e => (Raise e, h)
    | Unmodelled => (Unmodelled, h)
    end.
Proof.
  unfold copy_device. rewrite bind_run, dict_copy_run.
  destruct (copied_items h dev) as [kvs|e|]; try reflexivity.
  now rewrite bind_run, store_item_run, bind_run, store_item_run, bind_run,
    store_item_run.
Qed.

Lemma load_devices_run (data : Heap.ref) (h : Heap.heap) :
  Heap.load_devices data h
  = match lookup_attr h data "locations" with
    | Ok locations =>
        match iterate h locations with
        | Ok locations => Heap.forM copy_location [] locations h
        | Raise e => (Raise e, h)
        | Unmodelled => (Unmodelled, h)
        end
    | Raise e => (Raise e, h)
    | Unmodelled => (Unmodelled, h)
    end.
Proof.
  unfold Heap.load_devices. rewrite bind_run, get_run.
  destruct (lookup_attr h data "locations") as [locations|e|]; try reflexivity.
  rewrite bind_run, iter_run.
  destruct (iterate h locations) as [locs|e|]; reflexivity.
Qed.

Lemma copy_location_run (all_devices : list Heap.ref) (loc : Heap.ref)
    (h : Heap.heap) :
  copy_location all_devices loc h
  = match lookup_attr h loc "site" ≫= fun site =>
          lookup_attr h loc "city" ≫= fun city =>
          lookup_attr h loc "contact" ≫= fun contact =>
          lookup_attr h loc "devices" ≫= fun devices =>
          iterate h devices ≫= fun devices =>
          Ok (site, city, contact, devices) with
    | Ok (site, city, contact, devices) =>
        Heap.forM (copy_device site city contact) all_devices devices h
    | Raise e => (Raise e, h)
    | Unmodelled => (Unmodelled, h)
    end.
Proof.
  unfold copy_location.
  rewrite bind_run, get_run.
  destruct (lookup_attr h loc "site") as [site|e|]; try reflexivity.
  rewrite bind_run, get_run.
  destruct (lookup_attr h loc "city") as [city|e|]; try reflexivity.
  rewrite bind_run, get_run.
  destruct (lookup_attr h loc "contact") as [contact|e|]; try reflexivity.
  rewrite bind_run, get_run.
  destruct (lookup_attr h loc "devices") as [devices|e|]; try reflexivity.
  rewrite bind_run, iter_run, !ret_bind.
  destruct (iterate h devices) as [devs|e|]; reflexivity.
Qed.

Lemma fresh_unused (h : Heap.heap) : h !! fresh (dom h) = None.
Proof. apply not_elem_of_dom, is_fresh. Qed.

Lemma alloc_extends (h0 h : Heap.heap) (o : Heap.obj) :
  h0 ⊆ h -> h0 ⊆ <[fresh (dom h) := o]> h.
Proof.
  intros H. etransitivity; [exact H|].
  apply insert_subseteq, fresh_unused.
Qed.

Lemma forM_frame {A B : Type} (f : A -> B -> Heap.M A) (h0 : Heap.heap) :
  (forall a b h, h0 ⊆ h -> h0 ⊆ (f a b h).2) ->
  forall l a h, h0 ⊆ h -> h0 ⊆ (Heap.forM f a l h).2.
Proof.
  intros Hf. induction l as [|b l IH]; intros a h H; [exact H|].
  cbn [Heap.forM]. rewrite bind_run.
  specialize (Hf a b h H). destruct (f a b h) as [[a'|e|] h']; cbn in *;
    auto.
Qed.

Lemma copy_device_frame (site city contact : option Heap.ref)
    (h0 : Heap.heap) (acc : list Heap.ref) (dev : Heap.ref) (h : Heap.heap) :
  h0 ⊆ h -> h0 ⊆ (copy_device site city contact acc dev h).2.
Proof.
  intros H. rewrite copy_device_run.
  destruct (copied_items h dev); cbn; try exact H. now apply alloc_extends.
Qed.

Lemma copy_location_frame (h0 : Heap.heap) (acc : list Heap.ref)
    (loc : Heap.ref) (h : Heap.heap) :
  h0 ⊆ h -> h0 ⊆ (copy_location acc loc h).2.
Proof.
  intros H. rewrite copy_location_run.
  destruct (_ ≫= _) as [[[[site city] contact] devices]|e|]; cbn;
    try exact H.
  apply forM_frame; [|exact H]. intros a b h1. apply copy_device_frame.
Qed.

(** The loader changes no object of the store it starts from, whether it
    returns or raises. *)
Lemma load_devices_extends (data : Heap.ref) (h : Heap.heap) :
  h ⊆ (Heap.load_devices data h).2.
Proof.
  rewrite load_devices_run.
  destruct (lookup_attr h data "locations") as [locations|e|]; cbn;
    try reflexivity.
  destruct (iterate h locations) as [locs|e|]; cbn; try reflexivity.
  apply forM_frame; [|reflexivity]. intros a b h1. apply copy_location_frame.
Qed.

(** ** The loader over the store refines the loader over values *)

Lemma load_devices_unfold (data : value) :
  load_devices data
  = (locations ← py_get data "locations" (VList []);
     locations ← py_iter locations;
     foldM load_location [] locations).
Proof. reflexivity. Qed.

Lemma value_ind_nested (P : value -> Prop) :
  P VNone -> (forall b, P (VBool b)) -> (forall z, P (VInt z)) ->
  (forall s, P (VStr s)) ->
  (forall xs, Forall P xs -> P (VList xs)) ->
  (forall kvs, Forall (fun kv => P kv.2) kvs -> P (VDict kvs)) ->
  forall v, P v.
Proof.
  intros HN HB HI HS HL HD. fix IH 1. intros [|b|z|s|xs|kvs].
  - exact HN.
  - apply HB.
  - apply HI.
  - apply HS.
  - apply HL. induction xs as [|x xs IHxs]; constructor; [apply IH|exact IHxs].
  - apply HD. induction kvs as [|[k x] kvs IHkvs]; constructor;
      [apply IH|exact IHkvs].
Qed.

Lemma denotes_mono (h h' : Heap.heap) (x : Heap.ref) (v : value) :
  h ⊆ h' -> Heap.denotes h x v -> Heap.denotes h' x v.
Proof.
  intros Hsub. revert x.
  induction v as [|b|z|s|vs IH|d IH] using value_ind_nested;
    intros x H; inversion H; subst; try constructor.
  - apply Heap.denotes_list with (xs := xs).
    + eapply lookup_weaken; eassumption.
    + clear H H1. revert IH.
      induction H3 as [|y w ys ws Hy _ IHys]; intros IHvs; constructor.
      * apply List.Forall_inv in IHvs. now apply IHvs.
      * apply IHys. eapply List.Forall_inv_tail, IHvs.
  - apply Heap.denotes_dict with (kvs := kvs).
    + eapply lookup_weaken; eassumption.
    + clear H H1. revert IH.
      induction H3 as [|y w ys ws [Hk Hy] _ IHys]; intros IHvs; constructor.
      * split; [exact Hk|]. apply List.Forall_inv in IHvs. now apply IHvs.
      * apply IHys. eapply List.Forall_inv_tail, IHvs.
Qed.

Lemma same_items_lookup (h : Heap.heap) (kvs : list (string * Heap.ref))
    (d : dict) (k : string) :
  same_items h kvs d ->
  match lookup_key kvs k, lookup_key d k with
  | Some r, Some v => Heap.denotes h r v
  | None, None => True
  | _, _ => False
  end.
Proof.
  induction 1 as [|[k1 r] [k2 v] kvs d [Hk Hr] _ IH]; cbn in *; [exact I|].
  subst k2. now destruct (String.eqb k1 k).
Qed.

Lemma same_items_keys (h : Heap.heap) (kvs : list (string * Heap.ref))
    (d : dict) :
  same_items h kvs d -> keys kvs = keys d.
Proof.
  induction 1 as [|[k1 r] [k2 v] kvs d [Hk Hr] _ IH]; cbn in *; [reflexivity|].
  now subst k2; rewrite IH.
Qed.

Lemma same_items_setitem (h : Heap.heap) (kvs : list (string * Heap.ref))
    (d : dict) (k : string) (r : Heap.ref) (v : value) :
  same_items h kvs d -> Heap.denotes h r v ->
  same_items h (setitem kvs k r) (setitem d k v).
Proof.
  intros H Hr.
  induction H as [|[k1 r1] [k2 v2] kvs d [Hk Hr1] Hrest IH]; cbn in *.
  - now repeat constructor.
  - subst k2. destruct (String.eqb k1 k); constructor; auto.
Qed.

Lemma same_items_mono (h h' : Heap.heap) (kvs : list (string * Heap.ref))
    (d : dict) :
  h ⊆ h' -> same_items h kvs d -> same_items h' kvs d.
Proof.
  intros Hsub H. eapply List.Forall2_impl; [|exact H].
  intros kr kv [Hk Hd]. split; [exact Hk|]. eapply denotes_mono; eassumption.
Qed.

Lemma records_mono (h h' : Heap.heap) (refs : list Heap.ref) (ds : list dict) :
  h ⊆ h' -> records h refs ds -> records h' refs ds.
Proof.
  intros Hsub H. eapply List.Forall2_impl; [|exact H].
  intros r d Hd. eapply denotes_mono; eassumption.
Qed.

Lemma lookup_attr_agree (h : Heap.heap) (x : Heap.ref) (v : value)
    (k : string) (default : value) :
  Heap.denotes h x v ->
  agree (denotes_or h default) (lookup_attr h x k) (py_get v k default).
Proof.
  intros H. inversion H; subst; cbn; try reflexivity.
  - now rewrite H0.
  - rewrite H0. cbn. unfold get.
    pose proof (same_items_lookup h kvs d k H1) as Hl.
    destruct (lookup_key kvs k), (lookup_key d k); try contradiction;
      [exact Hl|reflexivity].
Qed.

Lemma iterate_agree (h : Heap.heap) (o : option Heap.ref) (v : value) :
  denotes_or h (VList []) o v ->
  agree (Forall2 (Heap.denotes h)) (iterate h o) (py_iter v).
Proof.
  destruct o as [x|]; cbn; [|intros ->; constructor].
  intros H. inversion H; subst; cbn; try reflexivity.
  - induction (chars s); constructor; [constructor|assumption].
  - now rewrite H0.
  - rewrite H0. cbn. rewrite (same_items_keys h kvs d H1).
    induction (keys d); constructor; [constructor|assumption].
Qed.

Lemma copied_items_agree (h : Heap.heap) (x : Heap.ref) (v : value) :
  Heap.denotes h x v ->
  agree (same_items h) (copied_items h x) (py_dict v).
Proof.
  intros H. inversion H; subst; cbn; try reflexivity.
  - destruct (String.eqb s EmptyString); [constructor|reflexivity].
  - rewrite H0. destruct H1 as [|y w ys ws Hy Hrest]; [constructor|].
    inversion Hy; subst; cbn; reflexivity.
  - now rewrite H0.
Qed.

Lemma forM_agree {A B A' B' : Type} (f : A -> B -> Heap.M A)
    (g : A' -> B' -> result A') (RA : Heap.heap -> A -> A' -> Prop)
    (RB : Heap.heap -> B -> B' -> Prop) (h0 : Heap.heap) :
  (forall h h' b b', h ⊆ h' -> RB h b b' -> RB h' b b') ->
  (forall h a a' b b', h0 ⊆ h -> RA h a a' -> RB h b b' ->
     h ⊆ (f a b h).2 /\ agree (RA (f a b h).2) (f a b h).1 (g a' b')) ->
  forall l l' h a a', h0 ⊆ h -> Forall2 (RB h) l l' -> RA h a a' ->
    h ⊆ (Heap.forM f a l h).2 /\
    agree (RA (Heap.forM f a l h).2) (Heap.forM f a l h).1 (foldM g a' l').
Proof.
  intros Hmono Hstep. induction l as [|b l IH]; intros l' h a a' Hh Hl Ha.
  - apply Forall2_nil_inv_l in Hl as ->. split; [reflexivity|exact Ha].
  - apply Forall2_cons_inv_l in Hl as (b' & l'' & Hb & Hl & ->).
    cbn [Heap.forM]. rewrite bind_run, foldM_cons.
    destruct (Hstep h a a' b b' Hh Ha Hb) as [Hsub Hagree].
    destruct (f a b h) as [[a1|e|] h1], (g a' b') as [a1'|e'|]; cbn in *;
      try contradiction; try (split; [exact Hsub|exact Hagree]).
    destruct (IH l'' h1 a1 a1') as [Hsub' Hagree'].
    + now transitivity h.
    + eapply List.Forall2_impl; [|exact Hl]. intros x y. now apply Hmono.
    + exact Hagree.
    + split; [now transitivity h1|exact Hagree'].
Qed.

Lemma denotes_default (h : Heap.heap) (o : option Heap.ref) (v : value) :
  denotes_or h VNone o v -> Heap.denotes h (default Heap.RNone o) v.
Proof. destruct o; cbn; [auto|intros ->; constructor]. Qed.

Lemma copy_device_agree (h : Heap.heap) (site city contact : option Heap.ref)
    (sv cv kv : value) (acc : list Heap.ref) (accp : list dict)
    (dev : Heap.ref) (v : value) :
  denotes_or h VNone site sv -> denotes_or h VNone city cv ->
  denotes_or h VNone contact kv ->
  records h acc accp -> Heap.denotes h dev v ->
  h ⊆ (copy_device site city contact acc dev h).2 /\
  agree (records (copy_device site city contact acc dev h).2)
        (copy_device site city contact acc dev h).1
        (enrich_device sv cv kv accp v).
Proof.
  intros Hs Hc Hk Hacc Hdev.
  split; [now apply copy_device_frame|].
  rewrite copy_device_run. unfold enrich_device.
  pose proof (copied_items_agree h dev v Hdev) as Hitems.
  destruct (copied_items h dev) as [kvs|e|], (py_dict v) as [d|e'|];
    cbn in *; try contradiction; try assumption.
  set (l := fresh (dom h)). set (o := Heap.ODict _).
  assert (Hsub : h ⊆ <[l := o]> h) by (apply insert_subseteq, fresh_unused).
  apply List.Forall2_app; [now apply (records_mono h)|].
  constructor; [|constructor].
  apply Heap.denotes_dict with (kvs := annotate (default Heap.RNone site)
    (default Heap.RNone city) (default Heap.RNone contact) kvs).
  - apply lookup_insert_eq.
  - apply (same_items_mono h); [exact Hsub|].
    repeat apply same_items_setitem; auto using denotes_default.
Qed.

Lemma copy_location_agree (h : Heap.heap) (acc : list Heap.ref)
    (accp : list dict) (loc : Heap.ref) (v : value) :
  records h acc accp -> Heap.denotes h loc v ->
  h ⊆ (copy_location acc loc h).2 /\
  agree (records (copy_location acc loc h).2) (copy_location acc loc h).1
        (load_location accp v).
Proof.
  intros Hacc Hloc. split; [now apply copy_location_frame|].
  rewrite copy_location_run. unfold load_location.
  pose proof (lookup_attr_agree h loc v "site" VNone Hloc) as Hs.
  destruct (lookup_attr h loc "site") as [site|e|],
    (py_get v "site" VNone) as [sv|e'|];
    cbn in Hs |- *; try contradiction; try assumption.
  pose proof (lookup_attr_agree h loc v "city" VNone Hloc) as Hc.
  destruct (lookup_attr h loc "city") as [city|e|],
    (py_get v "city" VNone) as [cv|e'|];
    cbn in Hc |- *; try contradiction; try assumption.
  pose proof (lookup_attr_agree h loc v "contact" VNone Hloc) as Hk.
  destruct (lookup_attr h loc "contact") as [contact|e|],
    (py_get v "contact" VNone) as [kv|e'|];
    cbn in Hk |- *; try contradiction; try assumption.
  pose proof (lookup_attr_agree h loc v "devices" (VList []) Hloc) as Hd.
  destruct (lookup_attr h loc "devices") as [devices|e|],
    (py_get v "devices" (VList [])) as [dv|e'|];
    cbn in Hd |- *; try contradiction; try assumption.
  pose proof (iterate_agree h devices dv Hd) as Hi.
  destruct (iterate h devices) as [devs|e|], (py_iter dv) as [dvs|e'|];
    cbn in Hi |- *; try contradiction; try assumption.
  apply (forM_agree (copy_device site city contact)
           (enrich_device sv cv kv) records Heap.denotes h); auto.
  - intros h1 h2 b b' Hsub. now apply denotes_mono.
  - intros h1 a a' b b' Hsub Ha Hb. apply copy_device_agree; auto.
    + destruct site; cbn in *; [eapply denotes_mono; eassumption|assumption].
    + destruct city; cbn in *; [eapply denotes_mono; eassumption|assumption].
    + destruct contact; cbn in *;
        [eapply denotes_mono; eassumption|assumption].
Qed.

(** On a store in which [data] stands for the document [v], the loader
    over the store and the loader over values have the same outcome, and
    the records returned stand for the records computed. *)
Lemma load_devices_refines (h : Heap.heap) (data : Heap.ref) (v : value) :
  Heap.denotes h data v ->
  agree (records (Heap.load_devices data h).2) (Heap.load_devices data h).1
        (load_devices v).
Proof.
  intros Hdata. rewrite load_devices_run, load_devices_unfold.
  pose proof (lookup_attr_agree h data v "locations" (VList []) Hdata) as Hl.
  destruct (lookup_attr h data "locations") as [locations|e|],
    (py_get v "locations" (VList [])) as [lv|e'|];
    cbn in Hl |- *; try contradiction; try assumption.
  pose proof (iterate_agree h locations lv Hl) as Hi.
  destruct (iterate h locations) as [locs|e|], (py_iter lv) as [lvs|e'|];
    cbn in Hi |- *; try contradiction; try assumption.
  apply (forM_agree copy_location load_location records Heap.denotes h); auto.
  - intros h1 h2 b b' Hsub. now apply denotes_mono.
  - intros h1 a a' b b' _. apply copy_location_agree.
  - constructor.
Qed.

Lemma forM_invariant {A B : Type} (f : A -> B -> Heap.M A)
    (I : Heap.heap -> A -> Prop) :
  (forall a b h a' h', I h a -> f a b h = (Ok a', h') -> I h' a') ->
  forall l a h a' h', I h a -> Heap.forM f a l h = (Ok a', h') -> I h' a'.
Proof.
  intros Hstep. induction l as [|b l IH]; intros a h a' h' HI H.
  - now injection H as <- <-.
  - cbn [Heap.forM] in H. rewrite bind_run in H.
    destruct (f a b h) as [[a1|e|] h1] eqn:E; try discriminate.
    eapply IH; [|exact H]. eapply Hstep; eassumption.
Qed.

(** The records returned are objects the store did not have, all
    distinct. *)
Lemma load_devices_new_objects (data : Heap.ref) (h : Heap.heap)
    (refs : list Heap.ref) (h' : Heap.heap) :
  Heap.load_devices data h = (Ok refs, h') ->
  Forall (new_object h h') refs /\ List.NoDup refs.
Proof.
  rewrite load_devices_run.
  destruct (lookup_attr h data "locations") as [locations|e|];
    try discriminate.
  destruct (iterate h locations) as [locs|e|]; try discriminate.
  set (I := fun (h1 : Heap.heap) (acc : list Heap.ref) =>
              h ⊆ h1 /\ Forall (new_object h h1) acc /\ List.NoDup acc).
  enough (G : forall l a h1 a' h2, I h1 a ->
            Heap.forM copy_location a l h1 = (Ok a', h2) -> I h2 a').
  { intros H. eapply G in H as (_ & H1 & H2); [now split|].
    repeat split; [reflexivity|constructor|constructor]. }
  apply forM_invariant. intros a loc h1 a' h2 HI.
  rewrite copy_location_run.
  destruct (_ ≫= _) as [[[[site city] contact] devices]|e|];
    try discriminate.
  revert HI. generalize a h1 a' h2. apply forM_invariant.
  clear. intros a dev h1 a' h2 (Hsub & Hnew & Hdup).
  rewrite copy_device_run.
  destruct (copied_items h1 dev) as [kvs|e|]; try discriminate.
  intros [= <- <-].
  assert (Hfresh : h !! fresh (dom h1) = None).
  { destruct (h !! fresh (dom h1)) eqn:E; [|reflexivity].
    eapply lookup_weaken in E; [|exact Hsub].
    now rewrite fresh_unused in E. }
  repeat split.
  - now apply alloc_extends.
  - apply Forall_app. split.
    + eapply List.Forall_impl; [|exact Hnew].
      intros x (l & -> & Hl & [o Ho]). exists l. repeat split; auto.
      exists o. eapply lookup_weaken; [exact Ho|].
      apply insert_subseteq, fresh_unused.
    + constructor; [|constructor]. eexists. repeat split; [exact Hfresh|].
      rewrite lookup_insert_eq. now eexists.
  - apply NoDup_ListNoDup, NoDup_app. repeat split.
    + now apply NoDup_ListNoDup.
    + intros x Hx Hx'. apply list_elem_of_In in Hx.
      apply list_elem_of_singleton in Hx' as ->.
      rewrite List.Forall_forall in Hnew.
      destruct (Hnew _ Hx) as (l & [= <-] & _ & [o Ho]).
      now rewrite fresh_unused in Ho.
    + apply NoDup_singleton.
Qed.

Lemma py_get_Ok (x : value) (k : string) (default v : value) :
  py_get x k default = Ok v -> exists d, x = VDict d /\ v = get d k default.
Proof. destruct x; try discriminate. intros [= <-]. now eexists. Qed.

(** Every record the loader returns is a device of a location of the
    document, with the annotations of that location. *)
Lemma load_devices_enriched (data : value) (ds : list dict) :
  load_devices data = Ok ds -> Forall (enriched_from data) ds.
Proof.
  rewrite load_devices_unfold. intros H. bind_inv H.
  assert (Hlocs : py_get data "locations" (VList []) ≫= py_iter = Ok a0)
    by now rewrite Ha.
  revert H.
  apply (foldM_invariant _ (fun _ acc => Forall (enriched_from data) acc));
    [constructor|].
  intros _ loc acc acc' Hloc Hacc H. unfold load_location in H. bind_inv H.
  apply py_get_Ok in Ha1 as (ld & -> & ->), Ha2 as (? & [= <-] & ->),
    Ha3 as (? & [= <-] & ->), Ha4 as (? & [= <-] & ->).
  revert H.
  apply (foldM_invariant _ (fun _ acc => Forall (enriched_from data) acc));
    [exact Hacc|].
  intros _ dev acc1 acc1' Hdev Hacc1 H. unfold enrich_device in H.
  bind_inv H. injection H as <-.
  apply Forall_app. split; [exact Hacc1|]. constructor; [|constructor].
  exists a0, ld, a5, dev, a1. repeat split; auto.
Qed.

(** C8: the loader changes no object of the store it is given, whether
    it returns or raises, so every location and device mapping, and the
    document as a whole, has the value it had; the records it returns are
    new objects, distinct from one another, and each stands for a device
    of the document with the annotations of its location. *)
Theorem load_devices_frame (data : Heap.ref) (h : Heap.heap) :
  let r := Heap.load_devices data h in
  h ⊆ r.2 /\
  (forall x v, Heap.denotes h x v -> Heap.denotes r.2 x v) /\
  (forall refs, r.1 = Ok refs ->
     Forall (new_object h r.2) refs /\ List.NoDup refs) /\
  (forall v, Heap.denotes h data v ->
     agree (records r.2) r.1 (load_devices v) /\
     forall ds, load_devices v = Ok ds -> Forall (enriched_from v) ds).
Proof.
  cbv zeta. pose proof (load_devices_extends data h) as Hsub.
  split; [exact Hsub|]. split; [|split].
  - intros x v. now apply denotes_mono.
  - intros refs Hrefs. apply (load_devices_new_objects data).
    destruct (Heap.load_devices data h) as [r h']. cbn in Hrefs. now subst r.
  - intros v Hv. split; [now apply load_devices_refines|].
    apply load_devices_enriched.
Qed.

Lemma load_devices_frame_witness :
  let h : Heap.heap :=
    {[ 1%positive := Heap.ODict [("locations", Heap.RObj 2%positive)];
       2%positive := Heap.OList [Heap.RObj 3%positive];
       3%positive := Heap.ODict [("site", Heap.RStr "HQ");
                                 ("devices", Heap.RObj 4%positive)];
       4%positive := Heap.OList [Heap.RObj 5%positive];
       5%positive := Heap.ODict [("hostname", Heap.RStr "sw-1")] ]} in
  let v : value :=
    VDict [("locations", VList [VDict [("site", VStr "HQ");
      ("devices", VList [VDict [("hostname", VStr "sw-1")]])]])] in
  let r := Heap.load_devices (Heap.RObj 1%positive) h in
  Heap.denotes h (Heap.RObj 1%positive) v /\
  h ⊆ r.2 /\ Heap.denotes r.2 (Heap.RObj 1%positive) v /\
  agree (records r.2) r.1 (load_devices v).
Proof.
  intros h v r.
  assert (Hv : Heap.denotes h (Heap.RObj 1%positive) v).
  { repeat (first
      [ eapply Heap.denotes_dict; [reflexivity|]
      | eapply Heap.denotes_list; [reflexivity|]
      | apply Heap.denotes_str
      | constructor
      | split; [reflexivity|] ]). }
  destruct (load_devices_frame (Heap.RObj 1%positive) h) as (Hsub & Hmono & _ & Href).
  split; [exact Hv|]. split; [exact Hsub|]. split; [now apply Hmono|].
  now apply Href.
Defined.

(** ** Empty sections *)

(** C4, as stated, fails: on an empty aggregate the per-site status
    summary is its title, a rule and a blank line, with neither the
    placeholder nor a zero count. *)
Lemma site_stats_section_no_placeholder :
  site_stats_section []
  = Ok ["STATISTIK PER SITE"; rule "-" 80; ""] /\
  has_placeholder ["STATISTIK PER SITE"; rule "-" 80; ""] = false /\
  ~ every_empty_section_has_placeholder.
Proof.
  split; [reflexivity|]. split; [reflexivity|].
  unfold every_empty_section_has_placeholder, empty_sections. intros H.
  do 7 apply List.Forall_inv_tail in H. apply List.Forall_inv in H.
  destruct H as (lines & [= <-] & H). discriminate H.
Qed.

Lemma elements_empty_gset : elements (∅ : gset Z) = [].
Proof. apply elements_empty. Qed.

Lemma vlan_section_empty :
  vlan_section ∅
  = Ok ["VLAN-ÖVERSIKT"; rule "-" 80; "Totalt antal unika VLAN: 0"; "VLANs: ";
        ""].
Proof. unfold vlan_section, vlans_sorted. now rewrite elements_empty_gset. Qed.

Lemma load_devices_empty (d : dict) :
  lookup_key d "locations" = Some (VList []) -> load_devices (VDict d) = Ok [].
Proof.
  intros H. rewrite load_devices_unfold. cbn [py_get]. unfold get.
  now rewrite H.
Qed.

Lemma vlan_set_nil : vlan_set [] = Ok ∅.
Proof. reflexivity. Qed.

(** C4, amended: on an empty aggregate the offline and warning tables,
    the low-uptime listing and the high-utilization listing show the line
    ["Inga."]; the type histogram shows a total of zero, the port summary
    the count [0/0] and the VLAN summary a count of zero; the per-site
    port table and the per-site status summary show no row and no
    placeholder; no section raises.  A document whose [locations] array
    is empty renders as [empty_report] when its [company] is text or
    absent and [str] converts its [last_updated]. *)
Theorem empty_sections_render :
  (forall title,
     add_device_list title [] = Ok [title; rule "-" 80; "Inga."; ""]) /\
  low_uptime_section []
  = Ok ["ENHETER MED LÅG UPTIME (<30 dagar)"; rule "-" 80; "Inga."; ""] /\
  high_port_section []
  = Ok ["SWITCHAR ÖVER 80% PORTANVÄNDNING"; rule "-" 80; "Inga."; ""] /\
  by_type_section [] 0
  = Ok ["STATISTIK PER ENHETSTYP"; rule "-" 80; rule "-" 40;
        "TOTALT         :   0 enheter"; ""] /\
  port_total_section 0 0 (S754_zero false)
  = Ok ["PORTANVÄNDNING – SWITCHAR"; rule "-" 80;
        "Totalt: 0/0 portar används (0.0%)"; ""] /\
  vlan_section ∅
  = Ok ["VLAN-ÖVERSIKT"; rule "-" 80; "Totalt antal unika VLAN: 0"; "VLANs: ";
        ""] /\
  site_port_section [] = Ok ["Per site:"; ""] /\
  site_stats_section [] = Ok ["STATISTIK PER SITE"; rule "-" 80; ""] /\
  Forall (fun r => exists lines, r = Ok lines /\ has_placeholder lines = true)
    (firstn 4 empty_sections ++ firstn 2 (skipn 5 empty_sections)) /\
  forall (report_date company last_updated : string) (d : dict),
    lookup_key d "locations" = Some (VList []) ->
    get d "company" (VStr "Unknown") = VStr company ->
    py_str (get d "last_updated" (VStr "")) = Ok last_updated ->
    report report_date (VDict d)
    = Ok (empty_report report_date company last_updated).
Proof.
  repeat (split; [reflexivity|]).
  split.
  - repeat constructor; eexists; (split; [reflexivity|reflexivity]).
  - intros report_date company last_updated d Hloc Hcompany Hupdated.
    unfold report. rewrite (load_devices_empty d Hloc). cbn [py_get].
    rewrite !ret_bind. rewrite Hcompany.
    change (low_uptime []) with (Ok ([] : list dict)).
    change (by_type []) with (Ok ([] : kdict Z)).
    rewrite !ret_bind, vlan_set_nil, !ret_bind.
    change (switch_devices []) with ([] : list dict).
    change (total_of "used" []) with (Ok 0).
    change (total_of "total" []) with (Ok 0).
    rewrite !ret_bind.
    change (pct 0 0) with (Ok (S754_zero false)).
    change (site_stats []) with (Ok ([] : kdict (kdict Z))).
    change (site_port []) with (Ok ([] : kdict port_stat)).
    change (high_port_switches []) with (Ok ([] : list (dict * float))).
    rewrite !ret_bind. cbn [py_concat]. rewrite !ret_bind, Hupdated, !ret_bind.
    rewrite vlan_section_empty. reflexivity.
Qed.

Lemma empty_sections_render_witness :
  let d : dict := [("company", VStr "Acme"); ("locations", VList [])] in
  lookup_key d "locations" = Some (VList []) /\
  get d "company" (VStr "Unknown") = VStr "Acme" /\
  py_str (get d "last_updated" (VStr "")) = Ok "" /\
  report "2025-01-01 08:00" (VDict d)
  = Ok (empty_report "2025-01-01 08:00" "Acme" "").
Proof.
  intros d.
  assert (H1 : lookup_key d "locations" = Some (VList [])) by reflexivity.
  assert (H2 : get d "company" (VStr "Unknown") = VStr "Acme") by reflexivity.
  assert (H3 : py_str (get d "last_updated" (VStr "")) = Ok "") by reflexivity.
  split; [exact H1|]. split; [exact H2|]. split; [exact H3|].
  destruct empty_sections_render as (_ & _ & _ & _ & _ & _ & _ & _ & _ & H).
  apply (H "2025-01-01 08:00" "Acme" "" d H1 H2 H3).
Defined.

(** ** Loops that return *)



Lemma filterM_total {A : Type} (p : A -> result bool) (l : list A) :
  (forall x, In x l -> exists b, p x = Ok b) ->
  exists r, filterM p l = Ok r /\ forall x, In x r -> In x l.
Proof.
  induction l as [|x l IH]; intros H; [now exists []|].
  destruct (H x (or_introl eq_refl)) as (b & E).
  destruct IH as (r & E' & Hr); [intros z Hz; apply H; now right|].
  exists (if b then x :: r else r). cbn. rewrite E, E'. cbn.
  split; [reflexivity|]. intros z Hz.
  destruct b; [destruct Hz as [<-|Hz]; [now left|]|]; right; now apply Hr.
Qed.











Lemma py_get_dict (d : dict) (k : string) (default : value) :
  py_get (VDict d) k default = Ok (get d k default).
Proof. reflexivity. Qed.



(** * Further properties of the loader *)

Lemma get_setitem_eq (d : dict) (k : string) (v default : value) :
  get (setitem d k v) k default = v.
Proof. unfold get. now rewrite lookup_setitem_eq. Qed.

Lemma load_devices_with_locations (d : dict) (locs : list value) :
  load_devices (with_locations d locs) = foldM load_location [] locs.
Proof.
  unfold with_locations. rewrite load_devices_unfold, py_get_dict, ret_bind.
  now rewrite get_setitem_eq.
Qed.

(** A loop that only appends may be run on the empty list. *)
Lemma foldM_prefix {A B : Type} (f : list A -> B -> result (list A)) :
  (forall acc b, f acc b = (r ← f [] b; Ok (acc ++ r))) ->
  forall l acc, foldM f acc l = (r ← foldM f [] l; Ok (acc ++ r)).
Proof.
  intros Hf. induction l as [|b l IH]; intros acc.
  - cbn. now rewrite app_nil_r.
  - rewrite !foldM_cons, (Hf acc b).
    destruct (f [] b) as [r|e|]; [|reflexivity..].
    rewrite !ret_bind, (IH (acc ++ r)), (IH r).
    destruct (foldM f [] l) as [r'|e|]; [|reflexivity..].
    cbn. now rewrite app_assoc.
Qed.

Lemma enrich_device_prefix (site city contact : value) (acc : list dict)
    (dev : value) :
  enrich_device site city contact acc dev
  = (r ← enrich_device site city contact [] dev; Ok (acc ++ r)).
Proof. unfold enrich_device. now destruct (py_dict dev). Qed.

Lemma load_location_prefix (acc : list dict) (loc : value) :
  load_location acc loc = (r ← load_location [] loc; Ok (acc ++ r)).
Proof.
  unfold load_location. destruct loc; try reflexivity.
  rewrite !py_get_dict, !ret_bind.
  destruct (py_iter _) as [devs|e|]; [|reflexivity..]. rewrite !ret_bind.
  apply foldM_prefix. intros. apply enrich_device_prefix.
Qed.

Lemma load_locations_app (l1 l2 : list value) :
  foldM load_location [] (l1 ++ l2)
  = (a ← foldM load_location [] l1; b ← foldM load_location [] l2;
     Ok (a ++ b)).
Proof.
  rewrite foldM_app. destruct (foldM load_location [] l1) as [a|e|];
    [|reflexivity..].
  rewrite !ret_bind. apply foldM_prefix. intros. apply load_location_prefix.
Qed.

Lemma load_location_records (loc : dict) (devs : list dict) :
  get loc "devices" (VList []) = VList (map VDict devs) ->
  load_location [] (VDict loc) = Ok (location_records loc devs).
Proof.
  intros H. unfold load_location. rewrite !py_get_dict, !ret_bind, H.
  cbn [py_iter]. rewrite ret_bind. unfold location_records.
  generalize (get loc "site" VNone), (get loc "city" VNone),
    (get loc "contact" VNone). intros site city contact.
  enough (G : forall acc, foldM (enrich_device site city contact) acc
                            (map VDict devs)
                          = Ok (acc ++ map (annotate site city contact) devs))
    by apply (G []).
  clear H. induction devs as [|dev devs IH]; intros acc.
  - cbn. now rewrite app_nil_r.
  - cbn [map]. rewrite foldM_cons.
    change (enrich_device site city contact acc (VDict dev))
      with (Ok (acc ++ [annotate site city contact dev]) : result (list dict)).
    rewrite ret_bind, IH. now rewrite <- app_assoc.
Qed.

(** X1: loading distributes over the array of locations: the records of a
    document are those of its first locations followed by those of the
    rest, and the load fails where the first of the two parts fails. *)
Theorem load_devices_app (d : dict) (l1 l2 : list value) :
  load_devices (with_locations d (l1 ++ l2))
  = (a ← load_devices (with_locations d l1);
     b ← load_devices (with_locations d l2);
     Ok (a ++ b)).
Proof. rewrite !load_devices_with_locations. apply load_locations_app. Qed.

(** X2: a location whose devices are mappings yields one record per
    device, in the order of the array and duplicates included: the
    device's own items with [_site], [_city] and [_contact] set to the
    location's [site], [city] and [contact], [None] for a missing one. *)
Theorem load_devices_location (d loc : dict) (devs : list dict) :
  get loc "devices" (VList []) = VList (map VDict devs) ->
  load_devices (with_locations d [VDict loc]) = Ok (location_records loc devs) /\
  length (location_records loc devs) = length devs /\
  forall i dev, nth_error devs i = Some dev ->
    nth_error (location_records loc devs) i
    = Some (setitem (setitem (setitem dev "_site" (get loc "site" VNone))
                       "_city" (get loc "city" VNone))
              "_contact" (get loc "contact" VNone)).
Proof.
  intros H. split; [|split].
  - rewrite load_devices_with_locations. cbn [foldM].
    rewrite (load_location_records loc devs H). reflexivity.
  - apply length_map.
  - intros i dev Hi. unfold location_records.
    now apply (map_nth_error
                 (annotate (get loc "site" VNone) (get loc "city" VNone)
                           (get loc "contact" VNone))).
Qed.

Lemma load_devices_location_witness :
  load_devices
    (with_locations [("company", VStr "ACME")]
       [VDict [("site", VStr "HQ");
               ("devices", VList (map VDict [[("hostname", VStr "r1")];
                                             [("hostname", VStr "r1")]]))]])
  = Ok [[("hostname", VStr "r1"); ("_site", VStr "HQ"); ("_city", VNone);
         ("_contact", VNone)];
        [("hostname", VStr "r1"); ("_site", VStr "HQ"); ("_city", VNone);
         ("_contact", VNone)]].
Proof.
  exact (proj1 (load_devices_location [("company", VStr "ACME")]
    [("site", VStr "HQ");
     ("devices", VList (map VDict [[("hostname", VStr "r1")];
                                   [("hostname", VStr "r1")]]))]
    [[("hostname", VStr "r1")]; [("hostname", VStr "r1")]] eq_refl)).
Defined.

Lemma load_locations_failing (d : dict) (l1 l2 : list value) (x : value)
    (ds : list dict) (e : exn) :
  load_devices (with_locations d l1) = Ok ds ->
  load_location [] x = Raise e ->
  load_devices (with_locations d (l1 ++ x :: l2)) = Raise e.
Proof.
  rewrite !load_devices_with_locations. intros H1 Hx.
  rewrite load_locations_app, H1, ret_bind, foldM_cons.
  rewrite load_location_prefix, Hx. reflexivity.
Qed.

(** X3: every record the loader returns comes from a device of a location
    of the document: it has every field of that device unchanged, and its
    [_site], [_city] and [_contact] are those of the location, whatever
    the device itself held under these keys. *)
Theorem load_devices_keeps_fields (data : value) (ds : list dict) (r : dict) :
  load_devices data = Ok ds -> In r ds ->
  exists locations loc devices x src,
    py_get data "locations" (VList []) ≫= py_iter = Ok locations /\
    In (VDict loc) locations /\
    py_iter (get loc "devices" (VList [])) = Ok devices /\
    In x devices /\ py_dict x = Ok src /\
    (forall k, is_annotation k = false -> lookup_key r k = lookup_key src k) /\
    lookup_key r "_site" = Some (get loc "site" VNone) /\
    lookup_key r "_city" = Some (get loc "city" VNone) /\
    lookup_key r "_contact" = Some (get loc "contact" VNone).
Proof.
  intros H Hr. apply load_devices_enriched in H.
  rewrite List.Forall_forall in H.
  destruct (H r Hr) as (locations & loc & devices & x & src & H1 & H2 & H3
                        & H4 & H5 & ->).
  exists locations, loc, devices, x, src.
  do 5 (split; [assumption|]).
  destruct (annotate_annotated src (get loc "site" VNone)
              (get loc "city" VNone) (get loc "contact" VNone))
    as (A1 & A2 & A3).
  split; [|now repeat split].
  intros k Hk. unfold is_annotation in Hk.
  apply orb_false_iff in Hk as [Hk H3']. apply orb_false_iff in Hk as [H1' H2'].
  apply String.eqb_neq in H1', H2', H3'. unfold annotate.
  rewrite !lookup_setitem_ne by congruence. reflexivity.
Qed.

Lemma load_devices_keeps_fields_witness :
  exists locations loc devices x src,
    py_get (with_locations [] [VDict [("site", VStr "HQ");
                                      ("devices",
                                       VList [VDict [("_site", VStr "own");
                                                     ("type", VStr "router")]])]])
      "locations" (VList []) ≫= py_iter = Ok locations /\
    In (VDict loc) locations /\
    py_iter (get loc "devices" (VList [])) = Ok devices /\
    In x devices /\ py_dict x = Ok src /\
    (forall k, is_annotation k = false ->
       lookup_key [("_site", VStr "HQ"); ("type", VStr "router");
                   ("_city", VNone); ("_contact", VNone)] k
       = lookup_key src k) /\
    lookup_key [("_site", VStr "HQ"); ("type", VStr "router");
                ("_city", VNone); ("_contact", VNone)] "_site"
    = Some (get loc "site" VNone) /\
    lookup_key [("_site", VStr "HQ"); ("type", VStr "router");
                ("_city", VNone); ("_contact", VNone)] "_city"
    = Some (get loc "city" VNone) /\
    lookup_key [("_site", VStr "HQ"); ("type", VStr "router");
                ("_city", VNone); ("_contact", VNone)] "_contact"
    = Some (get loc "contact" VNone).
Proof.
  apply (load_devices_keeps_fields
           (with_locations [] [VDict [("site", VStr "HQ");
                                      ("devices",
                                       VList [VDict [("_site", VStr "own");
                                                     ("type", VStr "router")]])]])
           [[("_site", VStr "HQ"); ("type", VStr "router");
             ("_city", VNone); ("_contact", VNone)]]).
  - reflexivity.
  - now left.
Defined.

(** X4: the default of [.get] stands in for a missing array only.  A
    [locations] that is present but [None] or a number stops the loader
    with a [TypeError], and so does such a [devices] in the first location
    that has one, once the locations before it are loaded. *)
Theorem load_devices_null_array (d : dict) (v : value) :
  not_iterable v ->
  (lookup_key d "locations" = Some v -> load_devices (VDict d) = Raise TypeError) /\
  (forall l1 loc l2 ds,
     load_devices (with_locations d l1) = Ok ds ->
     lookup_key loc "devices" = Some v ->
     load_devices (with_locations d (l1 ++ VDict loc :: l2)) = Raise TypeError).
Proof.
  intros Hv. split.
  - intros H. rewrite load_devices_unfold, py_get_dict, ret_bind.
    unfold get. rewrite H. now destruct v.
  - intros l1 loc l2 ds H1 Hloc.
    apply (load_locations_failing d l1 l2 (VDict loc) ds TypeError H1).
    unfold load_location. rewrite !py_get_dict, !ret_bind.
    unfold get at 4. rewrite Hloc. now destruct v.
Qed.

Lemma load_devices_null_array_witness :
  load_devices (VDict [("company", VStr "ACME"); ("locations", VNone)])
  = Raise TypeError /\
  load_devices
    (with_locations [] ([VDict [("site", VStr "HQ")]]
                        ++ VDict [("site", VStr "Lab"); ("devices", VNone)]
                        :: [VDict [("site", VStr "Far")]]))
  = Raise TypeError.
Proof.
  destruct (load_devices_null_array
              [("company", VStr "ACME"); ("locations", VNone)] VNone I)
    as [H1 _].
  destruct (load_devices_null_array [] VNone I) as [_ H2].
  split.
  - apply H1. reflexivity.
  - apply (H2 [VDict [("site", VStr "HQ")]]
              [("site", VStr "Lab"); ("devices", VNone)]
              [VDict [("site", VStr "Far")]] []); reflexivity.
Defined.

(** X5: the loader reads a document, its locations and its devices as
    mappings.  A document or a location that is none stops it with an
    [AttributeError]; a device that is [None] or a number stops it with a
    [TypeError], raised by [dict(dev)]. *)
Theorem load_devices_not_a_mapping (d : dict) (l1 l2 : list value)
    (ds : list dict) :
  load_devices (with_locations d l1) = Ok ds ->
  (forall data, ~ is_mapping data -> load_devices data = Raise AttributeError) /\
  (forall x, ~ is_mapping x ->
     load_devices (with_locations d (l1 ++ x :: l2)) = Raise AttributeError) /\
  (forall loc x devs devs',
     not_iterable x ->
     lookup_key loc "devices" = Some (VList (map VDict devs ++ x :: devs')) ->
     load_devices (with_locations d (l1 ++ VDict loc :: l2)) = Raise TypeError).
Proof.
  intros H1. split; [|split].
  - intros data Hd. destruct data; try reflexivity. destruct Hd. now eexists.
  - intros x Hx. apply (load_locations_failing d l1 l2 x ds _ H1).
    destruct x; try reflexivity. destruct Hx. now eexists.
  - intros loc x devs devs' Hx Hloc.
    apply (load_locations_failing d l1 l2 (VDict loc) ds _ H1).
    unfold load_location. rewrite !py_get_dict, !ret_bind.
    unfold get at 4. rewrite Hloc. cbn [py_iter]. rewrite ret_bind.
    generalize (get loc "site" VNone), (get loc "city" VNone),
      (get loc "contact" VNone), ([] : list dict).
    intros site city contact. clear Hloc.
    induction devs as [|dev devs IH]; intros acc; cbn [map app].
    + rewrite foldM_cons. unfold enrich_device. now destruct x.
    + rewrite foldM_cons.
      change (enrich_device site city contact acc (VDict dev))
        with (Ok (acc ++ [annotate site city contact dev])
              : result (list dict)).
      rewrite ret_bind. apply IH.
Qed.

Lemma load_devices_not_a_mapping_witness :
  load_devices (VList []) = Raise AttributeError /\
  load_devices (with_locations [] ([] ++ VStr "HQ" :: [])) = Raise AttributeError /\
  load_devices
    (with_locations []
       ([] ++ VDict [("devices", VList (map VDict [[]] ++ VInt 7 :: []))] :: []))
  = Raise TypeError.
Proof.
  destruct (load_devices_not_a_mapping [] [] [] [] eq_refl) as (H1 & H2 & H3).
  split; [|split].
  - apply H1. now intros (d & [=]).
  - apply H2. now intros (d & [=]).
  - apply (H3 [("devices", VList (map VDict [[]] ++ VInt 7 :: []))]
              (VInt 7) [[]] [] I eq_refl).
Defined.

(** X6: a missing array is an empty contribution, not a failure: a
    document without [locations] has no record, and a location without
    [devices], or with an empty array of them, can be left out of the
    document without changing what the loader returns. *)
Theorem load_devices_missing_array (d : dict) :
  (lookup_key d "locations" = None -> load_devices (VDict d) = Ok []) /\
  (forall l1 loc l2,
     get loc "devices" (VList []) = VList [] ->
     load_devices (with_locations d (l1 ++ VDict loc :: l2))
     = load_devices (with_locations d (l1 ++ l2))).
Proof.
  split.
  - intros H. rewrite load_devices_unfold, py_get_dict, ret_bind.
    unfold get. now rewrite H.
  - intros l1 loc l2 H. rewrite !load_devices_with_locations.
    rewrite (load_locations_app l1 (VDict loc :: l2)), (load_locations_app l1 l2).
    destruct (foldM load_location [] l1) as [a|e|]; [|reflexivity..].
    rewrite !ret_bind, foldM_cons.
    rewrite (load_location_records loc [] H). reflexivity.
Qed.

Lemma load_devices_missing_array_witness :
  load_devices (VDict [("company", VStr "ACME")]) = Ok [] /\
  load_devices
    (with_locations [] ([] ++ VDict [("site", VStr "HQ")]
                           :: [VDict [("devices", VList [VDict []])]]))
  = load_devices
      (with_locations [] ([] ++ [VDict [("devices", VList [VDict []])]])).
Proof.
  destruct (load_devices_missing_array [("company", VStr "ACME")]) as [H1 _].
  destruct (load_devices_missing_array []) as [_ H2].
  split.
  - apply H1. reflexivity.
  - apply (H2 [] [("site", VStr "HQ")]). reflexivity.
Defined.

(** * Further properties of the aggregates *)

(** ** Comprehensions *)

Lemma filterM_Ok {A : Type} (p : A -> result bool) (l r : list A) :
  filterM p l = Ok r ->
  r = List.filter (fun x => match p x with Ok b => b | _ => false end) l /\
  Forall (fun x => exists b, p x = Ok b) l.
Proof.
  revert r. induction l as [|x l IH]; intros r H; cbn in H.
  - injection H as <-. split; constructor.
  - apply bind_Ok in H as (b & Hb & H).
    apply bind_Ok in H as (r' & Hr & [= <-]).
    destruct (IH r' Hr) as [-> Hall]. split.
    + cbn. rewrite Hb. reflexivity.
    + constructor; [now exists b|exact Hall].
Qed.

Lemma traverse_Ok {A B : Type} (f : A -> result B) (l : list A) (ys : list B) :
  traverse f l = Ok ys -> Forall2 (fun x y => f x = Ok y) l ys.
Proof.
  revert ys. induction l as [|x l IH]; intros ys H; cbn in H.
  - injection H as <-. constructor.
  - apply bind_Ok in H as (y & Hy & H).
    apply bind_Ok in H as (r & Hr & [= <-]).
    constructor; [exact Hy|now apply IH].
Qed.

(** ** Low uptime *)

(** X7: the low-uptime list holds, in the order of the flattened list,
    exactly the devices whose [uptime_days], coerced by [int] with 0 for a
    missing one, is strictly below 30; it exists exactly when the uptime
    of every device can be coerced, also of those that are not low. *)
Theorem low_uptime_filter (devices : list dict) :
  (forall low, low_uptime devices = Ok low ->
     low = List.filter is_low_uptime devices) /\
  ((exists low, low_uptime devices = Ok low) <->
   Forall (fun d => exists n, uptime_days d = Ok n) devices).
Proof.
  split; [|split].
  - intros low H. apply filterM_Ok in H as [-> _].
    apply List.filter_ext. intros d. unfold is_low_uptime.
    now destruct (uptime_days d).
  - intros (low & H). apply filterM_Ok in H as [_ H].
    eapply List.Forall_impl; [|exact H]. cbn. intros d (b & Hb).
    destruct (uptime_days d) as [n| |]; [now exists n|discriminate..].
  - intros H. destruct (filterM_total
      (fun d => n ← uptime_days d; Ok (n <? LOW_UPTIME_DAYS)) devices)
      as (low & Hlow & _).
    + intros d Hd. rewrite List.Forall_forall in H.
      destruct (H d Hd) as (n & ->). now eexists.
    + now exists low.
Qed.

Lemma low_uptime_filter_witness :
  List.filter is_low_uptime
    [[("hostname", VStr "a"); ("uptime_days", VInt 30)];
     [("hostname", VStr "b")];
     [("hostname", VStr "c"); ("uptime_days", VInt 29)]]
  = [[("hostname", VStr "b")];
     [("hostname", VStr "c"); ("uptime_days", VInt 29)]].
Proof.
  symmetry.
  apply (proj1 (low_uptime_filter
    [[("hostname", VStr "a"); ("uptime_days", VInt 30)];
     [("hostname", VStr "b")];
     [("hostname", VStr "c"); ("uptime_days", VInt 29)]])).
  reflexivity.
Defined.

Section Decorated.
Context {A K : Type} (ltb : K -> K -> bool) (key : A -> K).

(** Sorting pairs of an element and its key by the key is sorting the
    elements by their key. *)
Lemma insert_by_decorated (x : A) (l : list A) :
  insert_by ltb snd (x, key x) (map (fun y => (y, key y)) l)
  = map (fun y => (y, key y)) (insert_by ltb key x l).
Proof.
  induction l as [|y l IH]; cbn; [reflexivity|].
  destruct (ltb (key y) (key x)); cbn; [now rewrite IH|reflexivity].
Qed.

Lemma sorted_by_decorated (l : list A) :
  map fst (sorted_by ltb snd (map (fun y => (y, key y)) l))
  = sorted_by ltb key l.
Proof.
  enough (G : sorted_by ltb snd (map (fun y => (y, key y)) l)
              = map (fun y => (y, key y)) (sorted_by ltb key l)).
  { rewrite G, map_map. cbn. apply map_id. }
  induction l as [|x l IH]; [reflexivity|].
  change (sorted_by ltb key (x :: l))
    with (insert_by ltb key x (sorted_by ltb key l)).
  rewrite <- insert_by_decorated, <- IH. reflexivity.
Qed.

End Decorated.

Lemma combine_decorated {A K : Type} (f : A -> result K) (g : A -> K)
    (l : list A) (ks : list K) :
  (forall x k, f x = Ok k -> g x = k) ->
  Forall2 (fun x k => f x = Ok k) l ks ->
  combine l ks = map (fun x => (x, g x)) l.
Proof.
  intros Hg. induction 1 as [|x k l ks Hx _ IH]; cbn; [reflexivity|].
  now rewrite IH, (Hg x k Hx).
Qed.

Lemma low_uptime_sorted_by (low : list dict) (ks : list Z) :
  traverse uptime_days low = Ok ks ->
  low_uptime_sorted low ks = sorted_by Z.ltb uptime_of low.
Proof.
  intros H. apply traverse_Ok in H. unfold low_uptime_sorted.
  rewrite (combine_decorated uptime_days uptime_of low ks); [| |exact H].
  - apply sorted_by_decorated.
  - intros d k Hd. unfold uptime_of. now rewrite Hd.
Qed.

(** X8: the low-uptime listing shows the low-uptime devices, each once,
    by ascending uptime, devices of equal uptime in the order of the
    flattened list. *)
Theorem low_uptime_display (low : list dict) (ks : list Z) :
  traverse uptime_days low = Ok ks ->
  Permutation (low_uptime_sorted low ks) low /\
  StronglySorted (fun a b => uptime_of a <= uptime_of b)
    (low_uptime_sorted low ks) /\
  (forall n, List.filter (fun d => uptime_of d =? n) (low_uptime_sorted low ks)
             = List.filter (fun d => uptime_of d =? n) low) /\
  (low <> [] ->
   low_uptime_section low
   = (rows ← traverse low_uptime_row (low_uptime_sorted low ks);
      Ok (["ENHETER MED LÅG UPTIME (<30 dagar)"; rule "-" 80]
          ++ rows ++ [""]))).
Proof.
  intros H. rewrite (low_uptime_sorted_by low ks H).
  split; [apply sorted_by_perm|]. split; [|split].
  - apply Sorted_StronglySorted.
    + intros a b c. lia.
    + eapply Sorted_ind with (P := fun l => Sorted _ l);
        [constructor| |apply (sorted_by_sorted Z.ltb uptime_of)].
      * intros a l _ Hl Ha. constructor; [exact Hl|].
        destruct Ha as [|b l Hab]; constructor.
        unfold not_after in Hab. lia.
      * intros a b Hab. apply Z.ltb_lt in Hab. now apply Z.ltb_ge, Z.lt_le_incl.
  - intros n. apply sorted_by_stable. intros x y Hx Hy.
    apply Z.eqb_eq in Hx, Hy. rewrite Hx, Hy. apply Z.ltb_irrefl.
  - intros Hne. rewrite <- (low_uptime_sorted_by low ks H).
    unfold low_uptime_section. destruct low as [|d low]; [contradiction|].
    rewrite H. reflexivity.
Qed.

Lemma low_uptime_display_witness :
  let a : dict := [("hostname", VStr "a"); ("uptime_days", VInt 7)] in
  let b : dict := [("hostname", VStr "b")] in
  let c : dict := [("hostname", VStr "c"); ("uptime_days", VInt 0)] in
  low_uptime_sorted [a; b; c] [7; 0; 0] = [b; c; a] /\
  Permutation (low_uptime_sorted [a; b; c] [7; 0; 0]) [a; b; c].
Proof.
  intros a b c. split; [reflexivity|].
  apply (low_uptime_display [a; b; c] [7; 0; 0]). reflexivity.
Defined.

(** ** Status *)

Lemma with_status_In (s : string) (devices : list dict) (d : dict) :
  In d (with_status s devices)
  <-> In d devices /\ lookup_key d "status" = Some (VStr s).
Proof.
  unfold with_status. rewrite filter_In. unfold get.
  destruct (lookup_key d "status") as [v|]; [|cbn; intuition discriminate].
  destruct v as [|b|z|t|xs|kvs]; cbn; try (intuition discriminate).
  destruct (String.eqb_spec t s) as [->|Hne]; intuition congruence.
Qed.

Lemma filter_disjoint_length {A : Type} (p q : A -> bool) (l : list A) :
  (forall x, p x = true -> q x = false) ->
  (length (List.filter p l) + length (List.filter q l) <= length l)%nat.
Proof.
  intros H. induction l as [|x l IH]; cbn; [lia|].
  destruct (p x) eqn:Hp; [rewrite (H x Hp)|destruct (q x)]; cbn; lia.
Qed.

(** X9: a device is listed as offline exactly when its [status] is the
    text ["offline"], and as warning exactly when it is ["warning"]; no
    device is in both lists, so the two counts of the summary never add up
    to more than the number of devices. *)
Theorem status_lists_disjoint (devices : list dict) :
  (forall d, In d (offline devices)
             <-> In d devices /\ lookup_key d "status" = Some (VStr "offline")) /\
  (forall d, In d (warning devices)
             <-> In d devices /\ lookup_key d "status" = Some (VStr "warning")) /\
  (forall d, In d (offline devices) -> ~ In d (warning devices)) /\
  (length (offline devices) + length (warning devices) <= length devices)%nat.
Proof.
  split; [intros d; apply with_status_In|].
  split; [intros d; apply with_status_In|]. split.
  - intros d H1 H2. apply with_status_In in H1 as [_ H1], H2 as [_ H2].
    rewrite H1 in H2. discriminate.
  - apply filter_disjoint_length. intros d.
    destruct (get d "status" VNone) as [| | |t| |]; cbn; try discriminate.
    intros H. apply String.eqb_eq in H. now subst t.
Qed.

Lemma status_lists_disjoint_witness :
  let a : dict := [("hostname", VStr "a"); ("status", VStr "offline")] in
  let b : dict := [("hostname", VStr "b"); ("status", VStr "Offline")] in
  let c : dict := [("hostname", VStr "c"); ("status", VStr "warning")] in
  In a (offline [a; b; c]) /\ ~ In a (warning [a; b; c]) /\
  ~ In b (offline [a; b; c]).
Proof.
  intros a b c.
  destruct (status_lists_disjoint [a; b; c]) as (H1 & _ & H3 & _).
  assert (Ha : In a (offline [a; b; c]))
    by (apply H1; split; [now left|reflexivity]).
  split; [exact Ha|]. split; [now apply H3|].
  intros Hb. apply H1 in Hb as [_ Hb]. discriminate Hb.
Defined.

(** ** Counters per site *)

Lemma key_eqb_refl_of (a b : value) : key_eqb a b = true -> key_eqb a a = true.
Proof. intros H. rewrite (key_eqb_trans a b a H), key_eqb_sym. exact H. Qed.

Lemma kget_key_eqb {A : Type} (m : kdict A) (a b : value) :
  key_eqb a b = true -> kget m a = kget m b.
Proof.
  intros H. induction m as [|[k v] m IH]; cbn; [reflexivity|].
  rewrite !(key_eqb_sym k), (key_eqb_trans a b k H). now rewrite IH.
Qed.

Lemma kget_setdefault {A : Type} (m : kdict A) (k t : value) (a0 : A) :
  kget (setdefault m k a0) t
  = match kget m t with
    | Some a => Some a
    | None => if key_eqb k t then Some a0 else None
    end.
Proof.
  unfold setdefault. destruct (kget m k) as [a|] eqn:E.
  - destruct (kget m t) as [a'|] eqn:E'; [reflexivity|].
    destruct (key_eqb k t) eqn:Ekt; [|reflexivity].
    rewrite (kget_key_eqb m k t Ekt), E' in E. discriminate.
  - rewrite kget_kset. destruct (key_eqb k t) eqn:Ekt.
    + rewrite <- (kget_key_eqb m k t Ekt), E. reflexivity.
    + now destruct (kget m t).
Qed.

Lemma count_at_snoc (site : value) (done : list dict) (d : dict) :
  count_at site (done ++ [d])
  = count_at site done + (if at_site site d then 1 else 0).
Proof.
  unfold count_at. rewrite List.filter_app, length_app. cbn.
  destruct (at_site site d); cbn; lia.
Qed.

Lemma count_status_snoc (site key : value) (done : list dict) (d : dict) :
  count_status site key (done ++ [d])
  = count_status site key done
    + (if at_site site d && key_eqb (status_key d) key then 1 else 0).
Proof.
  unfold count_status. rewrite List.filter_app, length_app. cbn.
  destruct (at_site site d && key_eqb (status_key d) key); cbn; lia.
Qed.

Lemma getitem_site (d : dict) (site : value) :
  getitem d "_site" = Ok site -> site_of d = site.
Proof.
  unfold getitem, site_of, get.
  destruct (lookup_key d "_site"); [now intros [= ->]|discriminate].
Qed.

(** One turn of the loop of lines 65-69 on the counters. *)
Lemma site_stats_step (m m' : kdict (kdict Z)) (d : dict) :
  (site ← getitem d "_site";
   _ ← py_hash site;
   let site_stats := setdefault m site new_site_counts in
   counts ← kgetitem site_stats site;
   total ← kgetitem counts (VStr "total");
   let counts := kset counts (VStr "total") (total + 1) in
   let status := get d "status" (VStr "online") in
   _ ← py_hash status;
   let counts := kset counts status (default 0 (kget counts status) + 1) in
   Ok (kset site_stats site counts)) = Ok m' ->
  (forall site, kget m' site = None
                <-> kget m site = None /\ at_site site d = false) /\
  forall site key,
    counter m' site key
    = counter m site key
      + (if at_site site d
         then (if key_eqb (status_key d) key then 1 else 0)
              + (if key_eqb (VStr "total") key then 1 else 0)
         else 0).
Proof.
  intros H. bind_inv H. cbv zeta in H. bind_inv H. injection H as <-.
  apply getitem_site in Ha. fold (status_key d) in *.
  unfold kgetitem in Ha1, Ha2.
  destruct (kget (setdefault m a new_site_counts) a) as [counts|] eqn:Ec;
    [injection Ha1 as ->|discriminate].
  destruct (kget a1 (VStr "total")) as [n|] eqn:En;
    [injection Ha2 as ->|discriminate].
  unfold at_site. rewrite Ha. split.
  - intros site. rewrite kget_kset, kget_setdefault.
    destruct (key_eqb a site) eqn:E; [|now destruct (kget m site)].
    split; [discriminate|]. now intros [_ [=]].
  - intros site key. unfold counter.
    rewrite kget_kset, kget_setdefault.
    destruct (key_eqb a site) eqn:E.
    + assert (G : forall k, default 0 (kget a1 k)
                            = match kget m site with
                              | Some c => default 0 (kget c k)
                              | None => 0
                              end).
      { intros k. rewrite kget_setdefault in Ec.
        rewrite <- (kget_key_eqb m a site E).
        destruct (kget m a) as [c|]; [now injection Ec as ->|].
        rewrite (key_eqb_refl_of a site E) in Ec. injection Ec as <-.
        unfold new_site_counts. cbn [kget].
        now repeat destruct (key_eqb _ k). }
      cbn [default]. rewrite !kget_kset.
      pose proof (G key) as Gk. pose proof (G (VStr "total")) as Gt.
      rewrite En in Gt. cbn [default] in Gt.
      destruct (key_eqb (status_key d) key) eqn:Es;
        destruct (key_eqb (VStr "total") key) eqn:Et; cbn [default].
      * assert (Est : key_eqb (VStr "total") (status_key d) = true).
        { rewrite key_eqb_sym, (key_eqb_trans _ _ _ Es), key_eqb_sym.
          exact Et. }
        rewrite Est. cbn [default].
        rewrite <- Gk, <- (kget_key_eqb a1 _ _ Et), En. cbn. lia.
      * assert (Est : key_eqb (VStr "total") (status_key d) = false).
        { rewrite key_eqb_sym, (key_eqb_trans _ _ _ Es), key_eqb_sym.
          exact Et. }
        rewrite Est, (kget_key_eqb a1 _ _ Es), <- Gk. unfold id. lia.
      * rewrite <- Gk, <- (kget_key_eqb a1 _ _ Et), En. cbn. lia.
      * rewrite <- Gk. unfold id. lia.
    + destruct (kget m site); lia.
Qed.

Lemma site_counter_snoc (done : list dict) (d : dict) (site key : value) :
  site_counter (done ++ [d]) site key
  = site_counter done site key
    + (if at_site site d
       then (if key_eqb (status_key d) key then 1 else 0)
            + (if key_eqb (VStr "total") key then 1 else 0)
       else 0).
Proof.
  unfold site_counter. rewrite count_status_snoc, count_at_snoc.
  destruct (at_site site d), (key_eqb (status_key d) key),
    (key_eqb (VStr "total") key); cbn; lia.
Qed.

Lemma site_stats_invariant (devices : list dict) (m : kdict (kdict Z)) :
  site_stats devices = Ok m ->
  (forall site, kget m site = None <-> count_at site devices = 0) /\
  (forall site key, counter m site key = site_counter devices site key).
Proof.
  unfold site_stats.
  apply (foldM_invariant _ (fun done acc =>
           (forall site, kget acc site = None <-> count_at site done = 0) /\
           (forall site key, counter acc site key = site_counter done site key))).
  { split; [now intros site|]. intros site key.
    unfold site_counter, counter, count_status, count_at.
    cbn [kget List.filter length Z.of_nat].
    now destruct (key_eqb (VStr "total") key). }
  intros done d acc acc' _ [Hnone Hcount] H.
  apply site_stats_step in H as [H1 H2]. split.
  - intros site. rewrite H1, Hnone, count_at_snoc.
    unfold count_at. destruct (at_site site d); split.
    + now intros [_ [=]].
    + lia.
    + intros [H _]. lia.
    + intros H. split; [lia|reflexivity].
  - intros site key. now rewrite H2, Hcount, site_counter_snoc.
Qed.

(** X10: at the end of the loop of lines 65-69 the per-site dict has an
    entry exactly for the sites of the devices, and the counter of a
    status at a site is the number of devices of that site with that
    status, ["online"] for a device without one.  The counter ["total"] is
    the number of devices of the site, plus once more the devices of the
    site whose status is the text ["total"], which is counted under the
    same key. *)
Theorem site_stats_counters (devices : list dict) (m : kdict (kdict Z)) :
  site_stats devices = Ok m ->
  (forall site, kget m site = None <-> count_at site devices = 0) /\
  (forall site key, counter m site key = site_counter devices site key).
Proof. apply site_stats_invariant. Qed.

Lemma site_stats_counters_witness :
  let a : dict := [("_site", VStr "HQ"); ("status", VStr "offline")] in
  let b : dict := [("_site", VStr "HQ")] in
  let c : dict := [("_site", VStr "HQ"); ("status", VStr "total")] in
  site_stats [a; b; c]
  = Ok [(VStr "HQ", [(VStr "total", 4); (VStr "online", 1);
                     (VStr "offline", 1); (VStr "warning", 0)])] /\
  counter [(VStr "HQ", [(VStr "total", 4); (VStr "online", 1);
                        (VStr "offline", 1); (VStr "warning", 0)])]
    (VStr "HQ") (VStr "total")
  = site_counter [a; b; c] (VStr "HQ") (VStr "total").
Proof.
  intros a b c. split; [reflexivity|].
  apply (site_stats_counters [a; b; c]). reflexivity.
Defined.

(** ** Sums over the sites *)

Lemma ksum_kset {A : Type} (f : A -> Z) (m : kdict A) (k : value) (a' : A) :
  ksum f (kset m k a')
  = ksum f m + f a' - match kget m k with Some a => f a | None => 0 end.
Proof.
  unfold ksum. induction m as [|[k0 a0] m IH]; cbn; [lia|].
  destruct (key_eqb k0 k); cbn; [lia|]. rewrite IH. lia.
Qed.

Lemma ksum_update {A : Type} (f : A -> Z) (m : kdict A) (k : value)
    (a0 a a' : A) :
  f a0 = 0 ->
  kget (setdefault m k a0) k = Some a ->
  ksum f (kset (setdefault m k a0) k a') = ksum f m + f a' - f a.
Proof.
  intros H0 Ha. rewrite ksum_kset, Ha.
  unfold setdefault. destruct (kget m k) eqn:E; [lia|].
  rewrite ksum_kset, E. lia.
Qed.

Lemma site_stats_step_sum (m m' : kdict (kdict Z)) (d : dict) :
  (site ← getitem d "_site";
   _ ← py_hash site;
   let site_stats := setdefault m site new_site_counts in
   counts ← kgetitem site_stats site;
   total ← kgetitem counts (VStr "total");
   let counts := kset counts (VStr "total") (total + 1) in
   let status := get d "status" (VStr "online") in
   _ ← py_hash status;
   let counts := kset counts status (default 0 (kget counts status) + 1) in
   Ok (kset site_stats site counts)) = Ok m' ->
  ksum total_counter m'
  = ksum total_counter m + 1
    + (if key_eqb (status_key d) (VStr "total") then 1 else 0).
Proof.
  intros H. bind_inv H. cbv zeta in H. bind_inv H. injection H as <-.
  fold (status_key d) in *. unfold kgetitem in Ha1, Ha2.
  destruct (kget (setdefault m a new_site_counts) a) as [counts|] eqn:Ec;
    [injection Ha1 as ->|discriminate].
  destruct (kget a1 (VStr "total")) as [n|] eqn:En;
    [injection Ha2 as ->|discriminate].
  rewrite (ksum_update total_counter m a new_site_counts a1 _ eq_refl Ec).
  unfold total_counter. rewrite !kget_kset, En.
  rewrite (key_eqb_sym (VStr "total") (status_key d)).
  destruct (key_eqb (status_key d) (VStr "total")); cbn; unfold id; lia.
Qed.

(** X11: the ["total"] counters of the sites add up to the number of
    devices, plus the number of devices whose status is the text
    ["total"]; so they add up to the number of devices, the figure of the
    line [TOTALT], whenever no device has that status. *)
Theorem site_totals_sum (devices : list dict) (m : kdict (kdict Z)) :
  site_stats devices = Ok m ->
  ksum total_counter m
  = Z.of_nat (length devices)
    + Z.of_nat (length (List.filter
                          (fun d => key_eqb (status_key d) (VStr "total"))
                          devices)) /\
  (Forall (fun d => key_eqb (status_key d) (VStr "total") = false) devices ->
   ksum total_counter m = Z.of_nat (length devices)).
Proof.
  intros H.
  assert (G : ksum total_counter m
              = Z.of_nat (length devices)
                + Z.of_nat (length (List.filter
                     (fun d => key_eqb (status_key d) (VStr "total"))
                     devices))).
  { revert H. unfold site_stats.
    apply (foldM_invariant _ (fun done acc =>
             ksum total_counter acc
             = Z.of_nat (length done)
               + Z.of_nat (length (List.filter
                    (fun d => key_eqb (status_key d) (VStr "total")) done))));
      [reflexivity|].
    intros done d acc acc' _ Hacc H. apply site_stats_step_sum in H.
    rewrite H, Hacc, List.filter_app, !length_app. cbn.
    destruct (key_eqb (status_key d) (VStr "total")); cbn; lia. }
  split; [exact G|]. intros Hall. rewrite G.
  replace (List.filter _ devices) with ([] : list dict); [cbn; lia|].
  symmetry. clear -Hall. induction Hall as [|d l Hd _ IH]; cbn; [reflexivity|].
  now rewrite Hd.
Qed.

Lemma site_totals_sum_witness :
  let a : dict := [("_site", VStr "HQ"); ("status", VStr "offline")] in
  let b : dict := [("_site", VStr "Lab")] in
  ksum total_counter
    [(VStr "HQ", [(VStr "total", 1); (VStr "online", 0);
                  (VStr "offline", 1); (VStr "warning", 0)]);
     (VStr "Lab", [(VStr "total", 1); (VStr "online", 1);
                   (VStr "offline", 0); (VStr "warning", 0)])]
  = Z.of_nat (length [a; b]).
Proof.
  intros a b.
  apply (site_totals_sum [a; b]); [reflexivity|].
  repeat constructor.
Defined.

(** ** Ports *)

Lemma traverse_app {A B : Type} (f : A -> result B) (l1 l2 : list A) :
  traverse f (l1 ++ l2)
  = (a ← traverse f l1; b ← traverse f l2; Ok (a ++ b)).
Proof.
  induction l1 as [|x l1 IH]; cbn.
  - now destruct (traverse f l2).
  - destruct (f x) as [y|e|]; cbn; [|reflexivity..]. rewrite IH.
    destruct (traverse f l1) as [a|e|]; cbn; [|reflexivity..].
    now destruct (traverse f l2).
Qed.

Lemma py_sum_snoc (l : list Z) (x : Z) : py_sum (l ++ [x]) = py_sum l + x.
Proof. unfold py_sum. now rewrite fold_left_app. Qed.

Lemma total_of_snoc (key : string) (done : list dict) (d : dict) (x u : Z) :
  total_of key done = Ok x -> port_count key d = Ok u ->
  total_of key (done ++ [d]) = Ok (x + u).
Proof.
  unfold total_of. intros H Hu. apply fmap_Ok in H as (us & Hus & <-).
  rewrite traverse_app, Hus, ret_bind. cbn [traverse]. rewrite Hu.
  cbn. now rewrite py_sum_snoc.
Qed.

(** One turn of the loop of lines 73-78 on the sums over the sites. *)
Lemma site_port_step (m m' : kdict port_stat) (d : dict) :
  (site ← getitem d "_site";
   _ ← py_hash site;
   let site_port :=
     setdefault m site {| n_switches := 0; n_used := 0; n_total := 0 |} in
   v ← kgetitem site_port site;
   let v := {| n_switches := v.(n_switches) + 1; n_used := v.(n_used);
               n_total := v.(n_total) |} in
   u ← port_count "used" d;
   let v := {| n_switches := v.(n_switches); n_used := v.(n_used) + u;
               n_total := v.(n_total) |} in
   t ← port_count "total" d;
   let v := {| n_switches := v.(n_switches); n_used := v.(n_used);
               n_total := v.(n_total) + t |} in
   Ok (kset site_port site v)) = Ok m' ->
  exists u t,
    port_count "used" d = Ok u /\ port_count "total" d = Ok t /\
    ksum n_used m' = ksum n_used m + u /\
    ksum n_total m' = ksum n_total m + t /\
    ksum n_switches m' = ksum n_switches m + 1.
Proof.
  intros H. bind_inv H. cbv zeta in H. bind_inv H. injection H as <-.
  unfold kgetitem in Ha1.
  destruct (kget (setdefault m a _) a) as [v|] eqn:Ev;
    [injection Ha1 as ->|discriminate].
  exists a2, a3. split; [exact Ha2|]. split; [exact Ha3|].
  rewrite !(ksum_update _ m a _ a1 _ eq_refl Ev). cbn. lia.
Qed.

(** X12: the per-site port figures add up to the figures of the line
    [Totalt]: over the sites, the ports used sum to [total_used], the
    ports to [total_ports] and the switches to the number of switch
    devices. *)
Theorem site_port_sums (sw : list dict) (m : kdict port_stat) :
  site_port sw = Ok m ->
  total_of "used" sw = Ok (ksum n_used m) /\
  total_of "total" sw = Ok (ksum n_total m) /\
  ksum n_switches m = Z.of_nat (length sw).
Proof.
  unfold site_port.
  apply (foldM_invariant _ (fun done acc =>
           total_of "used" done = Ok (ksum n_used acc) /\
           total_of "total" done = Ok (ksum n_total acc) /\
           ksum n_switches acc = Z.of_nat (length done))).
  { repeat split. }
  intros done d acc acc' _ (Hu & Ht & Hn) H.
  apply site_port_step in H as (u & t & Hpu & Hpt & -> & -> & ->).
  split; [now apply total_of_snoc|]. split; [now apply total_of_snoc|].
  rewrite Hn, length_app. cbn. lia.
Qed.

Lemma site_port_sums_witness :
  let a : dict := [("_site", VStr "HQ");
                   ("ports", VDict [("used", VInt 20); ("total", VInt 24)])] in
  let b : dict := [("_site", VStr "Lab");
                   ("ports", VDict [("used", VInt 4); ("total", VInt 8)])] in
  let c : dict := [("_site", VStr "HQ"); ("ports", VDict [("total", VInt 48)])] in
  total_of "used" [a; b; c] = Ok 24 /\ total_of "total" [a; b; c] = Ok 80.
Proof.
  intros a b c.
  destruct (site_port_sums [a; b; c]
              [(VStr "HQ", {| n_switches := 2; n_used := 20; n_total := 72 |});
               (VStr "Lab", {| n_switches := 1; n_used := 4; n_total := 8 |})]
              eq_refl) as (H1 & H2 & _).
  split; [exact H1|exact H2].
Defined.

(** X13: the port figures are computed over the devices whose [type] is
    the text ["switch"] and whose [ports] is a mapping, and over no other;
    on them [d["ports"]] never raises a [KeyError] and [.get] never an
    [AttributeError]: a port count is [int] of the entry, 0 for a missing
    one. *)
Theorem switch_devices_ports (devices : list dict) (d : dict) :
  (In d (switch_devices devices)
   <-> In d devices /\ lookup_key d "type" = Some (VStr "switch") /\
       exists p, lookup_key d "ports" = Some (VDict p)) /\
  (In d (switch_devices devices) ->
   exists p, getitem d "ports" = Ok (VDict p) /\
     forall key, port_count key d = py_int (get p key (VInt 0)) /\
                 port_count key d <> Raise KeyError /\
                 port_count key d <> Raise AttributeError).
Proof.
  assert (G : In d (switch_devices devices)
              <-> In d devices /\ lookup_key d "type" = Some (VStr "switch") /\
                  exists p, lookup_key d "ports" = Some (VDict p)).
  { unfold switch_devices. rewrite filter_In, andb_true_iff. unfold get.
    split.
    - intros (Hd & Ht & Hp). split; [exact Hd|].
      destruct (lookup_key d "type") as [[| | |t| |]|]; try discriminate.
      apply String.eqb_eq in Ht as ->. split; [reflexivity|].
      destruct (lookup_key d "ports") as [[| | | | |p]|]; try discriminate.
      now exists p.
    - intros (Hd & -> & p & ->). now repeat split. }
  split; [exact G|]. intros H. apply G in H as (_ & _ & p & Hp).
  exists p. unfold getitem. rewrite Hp. split; [reflexivity|].
  intros key. unfold port_count, getitem. rewrite Hp, ret_bind.
  cbn [py_get]. rewrite ret_bind. split; [reflexivity|].
  destruct (get p key (VInt 0)) as [| | |s| |]; cbn [py_int];
    try (split; discriminate).
  destruct (is_ascii_text s); [|split; discriminate].
  destruct (parse_int s); [destruct (count_digits s <=? MAX_STR_DIGITS)|];
    split; discriminate.
Qed.

Lemma switch_devices_ports_witness :
  let a : dict := [("type", VStr "switch"); ("ports", VDict [("used", VStr "12")])] in
  let b : dict := [("type", VStr "switch")] in
  switch_devices [a; b] = [a] /\
  exists p, getitem a "ports" = Ok (VDict p) /\
    forall key, port_count key a = py_int (get p key (VInt 0)) /\
                port_count key a <> Raise KeyError /\
                port_count key a <> Raise AttributeError.
Proof.
  intros a b. split; [reflexivity|].
  apply (switch_devices_ports [a; b] a). now left.
Defined.

(** ** VLANs *)

Lemma vlan_set_coercible (devices : list dict) (s : gset Z) :
  vlan_set devices = Ok s -> Forall vlans_coercible devices.
Proof.
  unfold vlan_set.
  apply (foldM_invariant _ (fun done _ => Forall vlans_coercible done));
    [constructor|].
  intros done d acc acc' _ Hdone H. bind_inv H.
  fold (vlan_entries d) in Ha.
  apply Forall_app. split; [exact Hdone|]. constructor; [|constructor].
  exists a. split; [exact Ha|]. revert H.
  apply (foldM_invariant _ (fun vdone _ =>
           Forall (fun v => exists n, py_int v = Ok n) vdone));
    [constructor|].
  intros vdone v acc1 acc1' _ Hv H. bind_inv H.
  apply Forall_app. split; [exact Hv|]. constructor; [|constructor].
  eexists. eassumption.
Qed.

(** X14: the VLAN set depends on which devices there are, not on their
    order nor on how often one occurs: two lists with the same devices
    give the same set, and the aggregation of one returns when that of the
    other does. *)
Theorem vlan_set_same_devices (devices devices' : list dict) (s : gset Z) :
  (forall d, In d devices <-> In d devices') ->
  vlan_set devices = Ok s -> vlan_set devices' = Ok s.
Proof.
  intros Hsame H.
  pose proof (vlan_set_coercible devices s H) as Hall.
  destruct (vlan_set_total devices') as (s' & Hs').
  { rewrite List.Forall_forall in Hall |- *. intros d Hd.
    apply Hall, Hsame, Hd. }
  rewrite Hs'. f_equal. apply set_eq. intros n.
  rewrite (vlan_set_members devices' s' Hs' n), (vlan_set_members devices s H n).
  unfold vlan_of. split; intros (d & vs & v & Hd & Hrest);
    exists d, vs, v; (split; [apply Hsame, Hd|exact Hrest]).
Qed.

Lemma vlan_set_same_devices_witness :
  let a : dict := [("vlans", VList [VInt 20; VInt 10])] in
  let b : dict := [("vlans", VList [VStr "30"; VInt 10])] in
  vlan_set [b; a; b] = vlan_set [a; b].
Proof.
  intros a b.
  destruct (vlan_set_total [a; b]) as (s & Hs).
  { repeat constructor; eexists; (split; [reflexivity|]);
      repeat constructor; now eexists. }
  rewrite Hs. apply (vlan_set_same_devices [a; b] [b; a; b] s); [|exact Hs].
  intros d. cbn. tauto.
Defined.

(** * Further properties of the rendering *)

(** ** Widths *)

Lemma ulen_nonneg (s : string) : 0 <= ulen s.
Proof.
  induction s as [|c s IH]; cbn [ulen]; [lia|].
  destruct (is_continuation c); lia.
Qed.

Lemma ulen_app (s t : string) : ulen (s ++ t) = ulen s + ulen t.
Proof.
  induction s as [|c s IH]; [reflexivity|].
  change (ulen (String c s ++ t))
    with ((if is_continuation c then 0 else 1) + ulen (s ++ t)).
  rewrite IH. cbn [ulen]. lia.
Qed.

Lemma ulen_spaces (n : Z) : ulen (spaces n) = Z.max 0 n.
Proof.
  unfold spaces.
  assert (G : forall k, ulen (repeat_string " " k) = Z.of_nat k).
  { induction k as [|k IH]; [reflexivity|].
    cbn [repeat_string]. rewrite ulen_app, IH.
    change (ulen " ") with 1. lia. }
  rewrite G. lia.
Qed.

Lemma ulen_ljust (s : string) (w : Z) : ulen (ljust s w) = Z.max (ulen s) w.
Proof.
  unfold ljust. rewrite ulen_app, ulen_spaces.
  pose proof (ulen_nonneg s). lia.
Qed.

Lemma ulen_join (sep : string) (l : list string) :
  l <> [] ->
  ulen (join sep l)
  = fold_right Z.add 0 (map ulen l) + ulen sep * (Z.of_nat (length l) - 1).
Proof.
  induction l as [|s l IH]; [contradiction|]. intros _.
  destruct l as [|t l]; [cbn; lia|].
  change (join sep (s :: t :: l)) with (s ++ sep ++ join sep (t :: l))%string.
  rewrite !ulen_app, IH by discriminate.
  cbn [map fold_right length]. lia.
Qed.

Lemma combine_firstn_lengths {A B : Type} (l : list A) (l' : list B) :
  combine (firstn (length l') l) (firstn (length l) l') = combine l l'.
Proof.
  revert l'. induction l as [|x l IH]; intros [|y l']; cbn; try reflexivity.
  now rewrite IH.
Qed.

(** X15: [format_line] pairs columns with widths as [zip] does: what one
    of the two lists has beyond the length of the other is dropped without
    being looked at, so a surplus column is neither printed nor
    converted. *)
Theorem format_line_zip (cols more : list value) (widths more_widths : list Z) :
  format_line cols widths
  = format_line (firstn (length widths) cols) (firstn (length cols) widths) /\
  (length cols = length widths ->
   format_line (cols ++ more) widths = format_line cols widths /\
   format_line cols (widths ++ more_widths) = format_line cols widths).
Proof.
  split.
  - unfold format_line. now rewrite combine_firstn_lengths.
  - intros Hlen. unfold format_line. split.
    + rewrite <- (combine_firstn_lengths (cols ++ more) widths).
      rewrite <- Hlen, firstn_app, firstn_all, Nat.sub_diag. cbn [firstn].
      rewrite app_nil_r, length_app.
      rewrite firstn_all2 by lia. reflexivity.
    + rewrite <- (combine_firstn_lengths cols (widths ++ more_widths)).
      rewrite Hlen, firstn_app, firstn_all, Nat.sub_diag. cbn [firstn].
      rewrite app_nil_r, length_app.
      rewrite firstn_all2 by lia. reflexivity.
Qed.

Lemma format_line_zip_witness :
  format_line ([VStr "sw1"; VInt 7] ++ [VList []]) [5; 3]
  = format_line [VStr "sw1"; VInt 7] [5; 3].
Proof.
  apply (format_line_zip [VStr "sw1"; VInt 7] [VList []] [5; 3] []).
  reflexivity.
Defined.

Lemma format_line_cells (cols : list value) (strs : list string)
    (widths : list Z) :
  Forall2 (fun c s => py_str c = Ok s) cols strs ->
  format_line cols widths
  = Ok (join "  " (map (fun sw => ljust sw.1 sw.2) (combine strs widths))).
Proof.
  intros H. unfold format_line.
  enough (G : traverse (fun '(c, w) => s ← py_str c; Ok (ljust s w))
                (combine cols widths)
              = Ok (map (fun sw => ljust sw.1 sw.2) (combine strs widths)))
    by now rewrite G.
  revert widths. induction H as [|c s cols strs Hc _ IH]; intros widths;
    [reflexivity|].
  destruct widths as [|w widths]; [reflexivity|].
  cbn [combine traverse map]. rewrite Hc, ret_bind, IH. reflexivity.
Qed.

(** X16: the line of [format_line] for columns whose conversion to text
    succeeds is as wide as its cells and the two spaces between them, a
    cell being as wide as its column unless its text is longer: nothing is
    truncated.  When every text fits, the line is as wide as the widths
    and the separators, 80 characters for the five columns of the device
    tables, as the rules above them. *)
Theorem format_line_width (cols : list value) (strs : list string)
    (widths : list Z) :
  Forall2 (fun c s => py_str c = Ok s) cols strs ->
  combine strs widths <> [] ->
  exists line,
    format_line cols widths = Ok line /\
    ulen line = line_width strs widths /\
    (fits strs widths ->
     ulen line
     = fold_right Z.add 0 widths + 2 * (Z.of_nat (length widths) - 1)) /\
    (fits strs device_widths -> widths = device_widths -> ulen line = 80).
Proof.
  intros H Hne. eexists. split; [apply (format_line_cells cols strs widths H)|].
  assert (G : ulen (join "  " (map (fun sw => ljust sw.1 sw.2)
                                   (combine strs widths)))
              = line_width strs widths).
  { rewrite ulen_join by (destruct (combine strs widths); [contradiction|discriminate]).
    unfold line_width. rewrite length_map, map_map.
    change (ulen "  ") with 2. f_equal.
    f_equal. apply map_ext. intros [s w]. apply ulen_ljust. }
  assert (F : fits strs widths ->
              line_width strs widths
              = fold_right Z.add 0 widths + 2 * (Z.of_nat (length widths) - 1)).
  { clear. unfold line_width. intros Hfit.
    induction Hfit as [|s w strs widths Hs _ IH]; [reflexivity|].
    cbn [combine map fold_right length] in *. cbn [fst snd]. lia. }
  split; [exact G|]. split.
  - intros Hfit. now rewrite G, F.
  - intros Hfit ->. rewrite G, (F Hfit). reflexivity.
Qed.

Lemma format_line_width_witness :
  exists line,
    format_line [VStr "sw-core-01"; VStr "10.0.0.1"; VStr "switch";
                 VStr "Huvudkontor"; VStr "3 d"] device_widths = Ok line /\
    ulen line = 80.
Proof.
  destruct (format_line_width
              [VStr "sw-core-01"; VStr "10.0.0.1"; VStr "switch";
               VStr "Huvudkontor"; VStr "3 d"]
              ["sw-core-01"; "10.0.0.1"; "switch"; "Huvudkontor"; "3 d"]
              device_widths) as (line & H1 & _ & _ & H2).
  - repeat constructor.
  - discriminate.
  - exists line. split; [exact H1|]. apply H2; [|reflexivity].
    repeat constructor; now vm_compute.
Defined.

(** * Further properties of [pct] *)

(** A number divided by itself: the quotient before rounding. *)
Lemma SFdiv_core_self (p : positive) :
  SFdiv_core_binary prec emax (Zpos p) 0 (Zpos p) 0
  = (2 ^ 53, -53, loc_Exact).
Proof.
  unfold SFdiv_core_binary. cbv zeta.
  replace (Zdigits2 (Zpos p) + 0 - (Zdigits2 (Zpos p) + 0)) with 0 by lia.
  change (Z.min (fexp prec emax 0) (0 - 0)) with (-53).
  change (0 - 0 - -53) with 53. cbv iota.
  rewrite Z.shiftl_mul_pow2 by lia.
  pose proof (Z.div_eucl_eq (Zpos p * 2 ^ 53) (Zpos p) ltac:(lia)) as Hdiv.
  pose proof (Z.mod_pos_bound (Zpos p * 2 ^ 53) (Zpos p) ltac:(lia)) as Hmod.
  unfold Z.modulo in Hmod.
  destruct (Z.div_eucl (Zpos p * 2 ^ 53) (Zpos p)) as [q r].
  assert (Hq : q = 2 ^ 53) by nia.
  assert (Hr : r = 0) by nia.
  subst q r. unfold new_location, new_location_even, new_location_odd.
  now destruct (Z.even (Zpos p)).
Qed.

Lemma truediv_self (n : Z) :
  n <> 0 -> truediv n n = Ok (float_of_literal 1).
Proof.
  intros Hn. rewrite truediv_nonzero by assumption.
  rewrite SFdiv_core_self, xorb_nilpotent. now vm_compute.
Qed.

(** X17: the percentage at its two ends is exact, whatever the number of
    ports: no port used of [n] ports is a zero, [0.0] for a positive [n]
    and [-0.0] for a negative one, printed as [0.0] and as [-0.0]; all
    [n] ports used is 100.0, printed as [100.0] and above the threshold of
    80 percent. *)
Theorem pct_endpoints (n : Z) :
  n <> 0 ->
  pct 0 n = Ok (S754_zero (n <? 0)) /\
  fmt_fixed 1 (S754_zero (n <? 0)) = (if n <? 0 then "-0.0" else "0.0") /\
  pct n n = Ok (float_of_literal 100) /\
  fmt_fixed 1 (float_of_literal 100) = "100.0" /\
  flt HIGH_PORT_UTIL_PCT (float_of_literal 100) = true.
Proof.
  intros Hn. unfold pct.
  destruct (Z.eqb_spec n 0) as [|_]; [contradiction|].
  rewrite truediv_zero, truediv_self by assumption. rewrite !ret_bind.
  split; [|split; [|split; [|split]]]; try (now vm_compute).
  - rewrite hundred_literal. now destruct (n <? 0).
  - now destruct (n <? 0).
Qed.

Lemma pct_endpoints_witness :
  pct 0 48 = Ok (S754_zero false) /\
  pct 0 (-48) = Ok (S754_zero true) /\
  fmt_fixed 1 (S754_zero true) = "-0.0" /\
  pct 48 48 = Ok (float_of_literal 100).
Proof.
  destruct (pct_endpoints 48 ltac:(discriminate)) as (H1 & _ & H2 & _).
  destruct (pct_endpoints (-48) ltac:(discriminate)) as (H3 & H4 & _).
  split; [exact H1|]. split; [exact H3|]. split; [exact H4|exact H2].
Defined.

(** * Further properties of the loader over the store *)

Lemma copied_items_mono (h h' : Heap.heap) (dev : Heap.ref)
    (kvs : list (string * Heap.ref)) :
  h ⊆ h' -> copied_items h dev = Ok kvs -> copied_items h' dev = Ok kvs.
Proof.
  intros Hsub. destruct dev as [| | |s|l]; cbn; try easy.
  destruct (h !! l) as [o|] eqn:E; [|discriminate].
  now rewrite (lookup_weaken h h' l o E Hsub).
Qed.

Lemma annotate_lookup_other {V : Type} (site city contact : V)
    (kvs : list (string * V)) (k : string) :
  is_annotation k = false ->
  lookup_key (annotate site city contact kvs) k = lookup_key kvs k.
Proof.
  unfold is_annotation. intros Hk.
  apply orb_false_iff in Hk as [Hk H3]. apply orb_false_iff in Hk as [H1 H2].
  apply String.eqb_neq in H1, H2, H3. unfold annotate.
  rewrite !lookup_setitem_ne by congruence. reflexivity.
Qed.

Lemma shares_items_mono (h h' : Heap.heap) (r : Heap.ref) :
  h ⊆ h' -> shares_items h r -> shares_items h' r.
Proof.
  intros Hsub (l & dev & kvs & kvs' & -> & Hne & Hc & Hl & Hk).
  exists l, dev, kvs, kvs'. repeat split; auto.
  - now apply (copied_items_mono h h').
  - now apply (lookup_weaken h h').
Qed.

(** X18: the copy of a device is shallow.  Every record the loader
    returns is a dict object of its own, but under each key other than
    [_site], [_city] and [_contact] it holds the very reference of the
    device it was copied from: the list of VLANs and the mapping of ports
    of a record are the objects of the document, not copies of them. *)
Theorem load_devices_shallow_copy (data : Heap.ref) (h : Heap.heap)
    (refs : list Heap.ref) (h' : Heap.heap) :
  Heap.load_devices data h = (Ok refs, h') ->
  Forall (shares_items h') refs.
Proof.
  rewrite load_devices_run.
  destruct (lookup_attr h data "locations") as [locations|e|];
    try discriminate.
  destruct (iterate h locations) as [locs|e|]; try discriminate.
  enough (G : forall l a h1 a' h2, Forall (shares_items h1) a ->
            Heap.forM copy_location a l h1 = (Ok a', h2) ->
            Forall (shares_items h2) a').
  { intros H. eapply G in H; [exact H|constructor]. }
  apply forM_invariant. intros a loc h1 a' h2 HI.
  rewrite copy_location_run.
  destruct (_ ≫= _) as [[[[site city] contact] devices]|e|];
    try discriminate.
  revert HI. generalize a h1 a' h2. apply forM_invariant.
  clear. intros a dev h1 a' h2 Hacc.
  rewrite copy_device_run.
  destruct (copied_items h1 dev) as [kvs|e|] eqn:Hc; try discriminate.
  intros [= <- <-].
  assert (Hsub : h1 ⊆ <[fresh (dom h1) :=
                         Heap.ODict (annotate (default Heap.RNone site)
                                       (default Heap.RNone city)
                                       (default Heap.RNone contact) kvs)]> h1)
    by apply insert_subseteq, fresh_unused.
  apply Forall_app. split.
  - eapply List.Forall_impl; [|exact Hacc].
    intros r. now apply shares_items_mono.
  - constructor; [|constructor].
    exists (fresh (dom h1)), dev, kvs. eexists. split; [reflexivity|].
    split; [|split; [|split]].
    + intros ->. cbn in Hc. now rewrite fresh_unused in Hc.
    + now apply (copied_items_mono h1).
    + apply lookup_insert_eq.
    + intros k Hk. now apply annotate_lookup_other.
Qed.

Lemma load_devices_shallow_copy_witness :
  let h : Heap.heap :=
    {[ 1%positive := Heap.ODict [("locations", Heap.RObj 2%positive)];
       2%positive := Heap.OList [Heap.RObj 3%positive];
       3%positive := Heap.ODict [("site", Heap.RStr "HQ");
                                 ("devices", Heap.RObj 4%positive)];
       4%positive := Heap.OList [Heap.RObj 5%positive];
       5%positive := Heap.ODict [("ports", Heap.RObj 6%positive)];
       6%positive := Heap.ODict [("used", Heap.RInt 3)] ]} in
  (Heap.load_devices (Heap.RObj 1%positive) h).1 = Ok [Heap.RObj 7%positive] /\
  (Heap.load_devices (Heap.RObj 1%positive) h).2 !! 7%positive
  = Some (Heap.ODict [("ports", Heap.RObj 6%positive);
                      ("_site", Heap.RStr "HQ"); ("_city", Heap.RNone);
                      ("_contact", Heap.RNone)]) /\
  Forall (shares_items (Heap.load_devices (Heap.RObj 1%positive) h).2)
         [Heap.RObj 7%positive].
Proof.
  intros h.
  assert (E1 : (Heap.load_devices (Heap.RObj 1%positive) h).1
               = Ok [Heap.RObj 7%positive]) by now vm_compute.
  split; [exact E1|]. split; [now vm_compute|].
  destruct (Heap.load_devices (Heap.RObj 1%positive) h) as [r h'] eqn:E.
  cbn [fst snd] in *. subst r.
  exact (load_devices_shallow_copy (Heap.RObj 1%positive) h _ h' E).
Defined.

(** * Further properties of the listings by key *)

(** ** The order of text *)

Lemma ascii_compare_trans (a b c : ascii) :
  Ascii.compare a b = Lt -> Ascii.compare b c = Lt -> Ascii.compare a c = Lt.
Proof.
  unfold Ascii.compare. rewrite !N.compare_lt_iff. lia.
Qed.

Lemma string_compare_trans (a b c : string) :
  String.compare a b = Lt -> String.compare b c = Lt -> String.compare a c = Lt.
Proof.
  revert b c. induction a as [|x a IH]; intros [|y b] [|z c]; cbn;
    try discriminate; try reflexivity.
  destruct (Ascii.compare x y) eqn:Exy; try discriminate;
    destruct (Ascii.compare y z) eqn:Eyz; try discriminate; intros H1 H2.
  - apply Ascii.compare_eq_iff in Exy, Eyz. subst y z.
    assert (E : Ascii.compare x x = Eq).
    { unfold Ascii.compare. apply N.compare_refl. }
    rewrite E. now apply (IH b c).
  - apply Ascii.compare_eq_iff in Exy. subst y. now rewrite Eyz.
  - apply Ascii.compare_eq_iff in Eyz. subst z. now rewrite Exy.
  - now rewrite (ascii_compare_trans x y z Exy Eyz).
Qed.

Lemma text_lt_trans (a b c : string) : text_lt a b -> text_lt b c -> text_lt a c.
Proof.
  unfold text_lt, String.ltb. intros H1 H2.
  destruct (String.compare a b) eqn:E1; try discriminate.
  destruct (String.compare b c) eqn:E2; try discriminate.
  now rewrite (string_compare_trans a b c E1 E2).
Qed.

Lemma string_ltb_asym (a b : string) :
  String.ltb a b = true -> String.ltb b a = false.
Proof.
  unfold String.ltb. rewrite (String.compare_antisym b a).
  now destruct (String.compare a b).
Qed.

Lemma string_ltb_total (a b : string) :
  a <> b -> String.ltb b a = false -> String.ltb a b = true.
Proof.
  unfold String.ltb. intros Hne. rewrite (String.compare_antisym b a).
  destruct (String.compare a b) eqn:E; cbn; try easy.
  apply String.compare_eq_iff in E. contradiction.
Qed.

(** A stable sort of distinct texts lists them in strictly ascending
    order. *)
Lemma sorted_by_text_strict (ss : list string) :
  List.NoDup ss -> StronglySorted text_lt (sorted_by String.ltb id ss).
Proof.
  intros Hnd.
  assert (Hnd' : List.NoDup (sorted_by String.ltb id ss)).
  { eapply Permutation_NoDup; [|exact Hnd]. symmetry. apply sorted_by_perm. }
  pose proof (sorted_by_sorted String.ltb id string_ltb_asym ss) as Hs.
  apply Sorted_StronglySorted; [intros a b c; apply text_lt_trans|].
  revert Hnd'. induction Hs as [|x l Hl IH Hx]; intros Hnd'; constructor.
  - apply IH. now apply List.NoDup_cons_iff in Hnd'.
  - destruct Hx as [|y l Hxy]; constructor.
    unfold not_after, id in Hxy. apply string_ltb_total; [|exact Hxy].
    intros ->. apply List.NoDup_cons_iff in Hnd' as [Hin _].
    apply Hin. now left.
Qed.

Lemma py_sorted_texts (ss : list string) :
  py_sorted (map VStr ss) = Ok (map VStr (sorted_by String.ltb id ss)).
Proof.
  induction ss as [|s ss IH]; [reflexivity|].
  cbn [map py_sorted]. rewrite IH, ret_bind.
  change (sorted_by String.ltb id (s :: ss))
    with (insert_by String.ltb id s (sorted_by String.ltb id ss)).
  generalize (sorted_by String.ltb id ss). intros l.
  induction l as [|t l IHl]; [reflexivity|].
  cbn [map py_insert py_lt insert_by]. rewrite ret_bind. unfold id at 1 2.
  destruct (String.ltb t s); [|reflexivity].
  now rewrite IHl.
Qed.

(** ** Keys *)

Lemma kget_None_keys {A : Type} (m : kdict A) (s : string) :
  Forall (fun kv => is_text kv.1) m ->
  (kget m (VStr s) = None <-> ~ In (VStr s) (map fst m)).
Proof.
  induction 1 as [|[k a] m (t & Ht) _ IH]; cbn; [tauto|].
  cbn in Ht. subst k. cbn [key_eqb].
  destruct (String.eqb_spec t s) as [->|Hne].
  - split; [discriminate|]. intros H. destruct H. now left.
  - rewrite IH. split.
    + intros H [[= ->]|Hin]; [contradiction|now apply H].
    + intros H Hin. apply H. now right.
Qed.

Lemma kset_fst {A : Type} (m : kdict A) (s : string) (a : A) (k : value) :
  Forall (fun kv => is_text kv.1) m ->
  (In k (map fst (kset m (VStr s) a)) <-> k = VStr s \/ In k (map fst m)).
Proof.
  induction 1 as [|[k0 a0] m (t & Ht) _ IH]; cbn; [intuition congruence|].
  cbn in Ht. subst k0. cbn [key_eqb].
  destruct (String.eqb_spec t s) as [->|Hne]; cbn; [intuition congruence|].
  rewrite IH. intuition congruence.
Qed.

Lemma kset_kdistinct {A : Type} (m : kdict A) (k : value) (a : A) :
  kdistinct m -> kdistinct (kset m k a).
Proof.
  induction m as [|[k0 a0] m IH]; cbn; [now intros _|].
  intros [Hk0 Hm]. destruct (key_eqb k0 k) eqn:E; cbn; [now split|].
  split; [|now apply IH]. rewrite kget_kset, key_eqb_sym, E. exact Hk0.
Qed.

Lemma keyset_kset {A : Type} (m : kdict A) (ks : list value) (s : string)
    (a : A) :
  keyset_ok m ks -> keyset_ok (kset m (VStr s) a) (ks ++ [VStr s]).
Proof.
  intros (Hd & Ht & Hk). split; [now apply kset_kdistinct|]. split.
  - clear -Ht. induction Ht as [|[k0 a0] m Hk0 Hm IH]; cbn.
    + constructor; [now exists s|constructor].
    + destruct (key_eqb k0 (VStr s)); constructor; auto.
  - intros k. rewrite (kset_fst m s a k Ht), in_app_iff, Hk. cbn.
    intuition congruence.
Qed.

Lemma kget_Some_keys {A : Type} (m : kdict A) (s : string) (a : A) :
  Forall (fun kv => is_text kv.1) m ->
  kget m (VStr s) = Some a -> In (VStr s) (map fst m).
Proof.
  induction 1 as [|[k a0] m (t & Ht) _ IH]; cbn; [discriminate|].
  cbn in Ht. subst k. cbn [key_eqb].
  destruct (String.eqb_spec t s) as [->|Hne]; [now left|].
  intros H. right. now apply IH.
Qed.

Lemma keyset_same {A : Type} (m : kdict A) (ks ks' : list value) :
  keyset_ok m ks -> (forall k, In k ks <-> In k ks') -> keyset_ok m ks'.
Proof.
  intros (Hd & Ht & Hk) Hsame. repeat split; auto.
  - intros H. now apply Hsame, Hk.
  - intros H. now apply Hk, Hsame.
Qed.

Lemma keyset_setdefault {A : Type} (m : kdict A) (ks : list value)
    (s : string) (a0 : A) :
  keyset_ok m ks -> keyset_ok (setdefault m (VStr s) a0) (ks ++ [VStr s]).
Proof.
  intros H. unfold setdefault.
  destruct (kget m (VStr s)) as [a|] eqn:E; [|now apply keyset_kset].
  apply (keyset_same m ks); [exact H|].
  destruct H as (_ & Ht & Hk).
  pose proof (kget_Some_keys m s a Ht E) as Hin. apply Hk in Hin.
  intros k. rewrite in_app_iff. cbn. intuition congruence.
Qed.

Lemma text_keys_strings {A : Type} (m : kdict A) :
  kdistinct m -> Forall (fun kv => is_text kv.1) m ->
  exists ss, map fst m = map VStr ss /\ List.NoDup ss.
Proof.
  intros Hd Ht. induction Ht as [|[k a] m (s & Hs) Ht IH].
  - exists []. split; constructor.
  - cbn in Hs. subst k. destruct Hd as [Hk Hd].
    destruct (IH Hd) as (ss & E & Hnd). exists (s :: ss). cbn.
    split; [now rewrite E|]. constructor; [|exact Hnd].
    intros Hin. apply (kget_None_keys m s Ht) in Hk. apply Hk.
    rewrite E. now apply in_map.
Qed.

(** The keys of such a dict, sorted as [sorted] does, are its texts in
    strictly ascending order. *)
Lemma keyset_listing {A : Type} (m : kdict A) (ks : list value) :
  keyset_ok m ks ->
  exists ss, py_sorted (map fst m) = Ok (map VStr ss) /\
             StronglySorted text_lt ss /\
             forall s, In s ss <-> In (VStr s) ks.
Proof.
  intros (Hd & Ht & Hk).
  destruct (text_keys_strings m Hd Ht) as (ss & E & Hnd).
  exists (sorted_by String.ltb id ss). split; [|split].
  - rewrite E. apply py_sorted_texts.
  - now apply sorted_by_text_strict.
  - intros s. rewrite <- Hk, E. split.
    + intros H. apply in_map.
      now apply (Permutation_in _ (sorted_by_perm String.ltb id ss)).
    + intros H. apply in_map_iff in H as (s' & [= ->] & H).
      apply (Permutation_in s (Permutation_sym (sorted_by_perm String.ltb id ss))).
      exact H.
Qed.

Lemma traverse_map {A B : Type} (f : A -> result B) (g : A -> B) (l : list A) :
  (forall x, In x l -> f x = Ok (g x)) -> traverse f l = Ok (map g l).
Proof.
  induction l as [|x l IH]; intros H; [reflexivity|].
  cbn [traverse map]. rewrite (H x (or_introl eq_refl)), ret_bind, IH.
  - reflexivity.
  - intros y Hy. apply H. now right.
Qed.

Lemma traverse_map_on {A B C : Type} (f : B -> result C) (h : A -> B)
    (g : A -> C) (l : list A) :
  (forall x, In x l -> f (h x) = Ok (g x)) ->
  traverse f (map h l) = Ok (map g l).
Proof.
  induction l as [|x l IH]; intros H; [reflexivity|].
  cbn [traverse map]. rewrite (H x (or_introl eq_refl)), ret_bind, IH.
  - reflexivity.
  - intros y Hy. apply H. now right.
Qed.

(** ** The type histogram *)

Lemma by_type_keyset (devices : list dict) (h : kdict Z) :
  Forall (fun d => is_text (type_key d)) devices ->
  by_type devices = Ok h -> keyset_ok h (map type_key devices).
Proof.
  intros Ht. unfold by_type.
  apply (foldM_invariant _ (fun done acc => keyset_ok acc (map type_key done))).
  { repeat split; try constructor; now intros []. }
  intros done d acc acc' Hd Hacc H. bind_inv H. injection H as <-.
  fold (type_key d). rewrite List.Forall_forall in Ht.
  destruct (Ht d Hd) as (s & Hs). rewrite map_app. cbn [map]. rewrite Hs.
  now apply keyset_kset.
Qed.

(** X19: the section [STATISTIK PER ENHETSTYP] of a device list whose
    types are text has one row per type that occurs, in strictly
    ascending order of the type, each with the number of devices of that
    type, followed by the number of all devices. *)
Theorem by_type_section_rows (devices : list dict) (h : kdict Z) :
  by_type devices = Ok h ->
  Forall (fun d => is_text (type_key d)) devices ->
  exists ts,
    StronglySorted text_lt ts /\
    (forall t, In t ts <-> exists d, In d devices /\ type_key d = VStr t) /\
    by_type_section h (Z.of_nat (length devices))
    = Ok (["STATISTIK PER ENHETSTYP"; rule "-" 80]
          ++ map (type_row devices) ts
          ++ [rule "-" 40;
              (ljust "TOTALT" 15 ++ ": "
               ++ fmt_int (Z.of_nat (length devices)) AlignRight 3
               ++ " enheter")%string;
              ""]).
Proof.
  intros H Ht.
  pose proof (by_type_keyset devices h Ht H) as Hkeys.
  destruct (keyset_listing h _ Hkeys) as (ts & Hsorted & Hstrict & Hin).
  destruct (by_type_counts devices h H) as [_ Hcount].
  exists ts. split; [exact Hstrict|]. split.
  - intros t. rewrite Hin, in_map_iff. split; intros (d & H1 & H2); eauto.
  - unfold by_type_section. rewrite Hsorted, ret_bind.
    rewrite (traverse_map_on _ VStr (type_row devices) ts); [reflexivity|].
    intros t Hts. cbn [py_format]. rewrite ret_bind.
    destruct Hkeys as (_ & Htext & Hk).
    apply Hin, Hk in Hts.
    specialize (Hcount (VStr t)). unfold kgetitem.
    destruct (kget h (VStr t)) as [n|] eqn:E.
    + cbn in Hcount. unfold id in Hcount. subst n. reflexivity.
    + apply (kget_None_keys h t Htext) in E. contradiction.
Qed.

Lemma by_type_section_rows_witness :
  let a : dict := [("type", VStr "switch")] in
  let b : dict := [("type", VStr "router")] in
  let c : dict := [("hostname", VStr "x")] in
  exists ts,
    StronglySorted text_lt ts /\
    (forall t, In t ts
               <-> exists d, In d [a; b; a; c] /\ type_key d = VStr t) /\
    by_type_section [(VStr "switch", 2); (VStr "router", 1);
                     (VStr "unknown", 1)] 4
    = Ok (["STATISTIK PER ENHETSTYP"; rule "-" 80]
          ++ map (type_row [a; b; a; c]) ts
          ++ [rule "-" 40; "TOTALT         :   4 enheter"; ""]).
Proof.
  intros a b c.
  apply (by_type_section_rows [a; b; a; c]); [reflexivity|].
  repeat constructor; now eexists.
Defined.

(** ** The per-site summary *)

Lemma site_stats_keyset (devices : list dict) (m : kdict (kdict Z)) :
  Forall (fun d => is_text (site_of d)) devices ->
  site_stats devices = Ok m -> keyset_ok m (map site_of devices).
Proof.
  intros Ht. unfold site_stats.
  apply (foldM_invariant _ (fun done acc => keyset_ok acc (map site_of done))).
  { repeat split; try constructor; now intros []. }
  intros done d acc acc' Hd Hacc H.
  bind_inv H. cbv zeta in H. bind_inv H. injection H as <-.
  apply getitem_site in Ha. rewrite List.Forall_forall in Ht.
  destruct (Ht d Hd) as (s & Hs). rewrite Hs in Ha. subst a.
  rewrite map_app. cbn [map]. rewrite Hs.
  eapply keyset_same.
  - apply keyset_kset, keyset_setdefault, Hacc.
  - intros k. rewrite !in_app_iff. cbn. tauto.
Qed.

(** X20: the section [STATISTIK PER SITE] of a device list whose sites
    are text has one row per site that has a device, in strictly
    ascending order of the site; the row gives the counter ["total"] of
    the site and its counters of online, offline and warning devices, as
    the loop of lines 65-69 leaves them. *)
Theorem site_stats_section_rows (devices : list dict) (m : kdict (kdict Z)) :
  site_stats devices = Ok m ->
  Forall (fun d => is_text (site_of d)) devices ->
  exists sites,
    StronglySorted text_lt sites /\
    (forall s, In s sites <-> exists d, In d devices /\ site_of d = VStr s) /\
    site_stats_section m
    = Ok (["STATISTIK PER SITE"; rule "-" 80]
          ++ map (site_row devices) sites ++ [""]).
Proof.
  intros H Ht.
  pose proof (site_stats_keyset devices m Ht H) as Hkeys.
  destruct (keyset_listing m _ Hkeys) as (sites & Hsorted & Hstrict & Hin).
  destruct (site_stats_invariant devices m H) as [Hnone Hcount].
  exists sites. split; [exact Hstrict|]. split.
  - intros s. rewrite Hin, in_map_iff. split; intros (d & H1 & H2); eauto.
  - unfold site_stats_section. rewrite Hsorted, ret_bind.
    rewrite (traverse_map_on _ VStr (site_row devices) sites); [reflexivity|].
    intros s Hs. destruct Hkeys as (_ & Htext & Hk).
    apply Hin, Hk in Hs. unfold kgetitem.
    destruct (kget m (VStr s)) as [v|] eqn:E;
      [|apply (kget_None_keys m s Htext) in E; contradiction].
    rewrite ret_bind. cbn [py_str]. rewrite ret_bind.
    assert (G : forall k, default 0 (kget v k)
                          = site_counter devices (VStr s) k).
    { intros k. rewrite <- Hcount. unfold counter. now rewrite E. }
    assert (Hpos : count_at (VStr s) devices <> 0).
    { intros H0. apply Hnone in H0. congruence. }
    pose proof (G (VStr "total")) as Gt. unfold site_counter in Gt.
    change (key_eqb (VStr "total") (VStr "total")) with true in Gt.
    destruct (kget v (VStr "total")) as [n|] eqn:En.
    + rewrite ret_bind. unfold site_row. rewrite <- !G, En. reflexivity.
    + cbn in Gt. unfold count_status, count_at in *. lia.
Qed.

Lemma site_stats_section_rows_witness :
  let a : dict := [("_site", VStr "Lab"); ("status", VStr "offline")] in
  let b : dict := [("_site", VStr "HQ")] in
  exists sites,
    StronglySorted text_lt sites /\
    (forall s, In s sites <-> exists d, In d [a; b; a] /\ site_of d = VStr s) /\
    site_stats_section
      [(VStr "Lab", [(VStr "total", 2); (VStr "online", 0);
                     (VStr "offline", 2); (VStr "warning", 0)]);
       (VStr "HQ", [(VStr "total", 1); (VStr "online", 1);
                    (VStr "offline", 0); (VStr "warning", 0)])]
    = Ok (["STATISTIK PER SITE"; rule "-" 80]
          ++ map (site_row [a; b; a]) sites ++ [""]).
Proof.
  intros a b.
  apply (site_stats_section_rows [a; b; a]); [reflexivity|].
  repeat constructor; now eexists.
Defined.

(** * Further properties of the port figures *)

Lemma high_port_switches_defined (sw : list dict) (high : list (dict * float)) :
  high_port_switches sw = Ok high ->
  Forall (fun d => exists p, utilization d = Ok p) sw.
Proof.
  unfold high_port_switches.
  apply (foldM_invariant _ (fun done _ =>
           Forall (fun d => exists p, utilization d = Ok p) done));
    [constructor|].
  intros done d acc acc' _ Hdone H. bind_inv H.
  apply Forall_app. split; [exact Hdone|]. constructor; [|constructor].
  exists a1. now apply (utilization_Ok d a a0).
Qed.

(** X21: a switch that reports no port at all ([total] zero or missing)
    has a utilization of exactly 0.0, however many ports it reports in
    use, and is never listed among the switches above 80 percent. *)
Theorem zero_total_not_flagged (sw : list dict) (high : list (dict * float))
    (d : dict) :
  high_port_switches sw = Ok high ->
  In d sw -> port_count "total" d = Ok 0 ->
  utilization d = Ok (S754_zero false) /\ ~ In d (map fst high).
Proof.
  intros H Hd Ht.
  pose proof (high_port_switches_defined sw high H) as Hall.
  rewrite List.Forall_forall in Hall. destruct (Hall d Hd) as (p & Hp).
  assert (Hu : utilization d = Ok (S754_zero false)).
  { unfold utilization in *. rewrite Ht in *.
    destruct (port_count "used" d) as [u|e|]; [|discriminate..].
    reflexivity. }
  split; [exact Hu|].
  destruct (high_port_switches_filter sw high H) as [-> _].
  rewrite filter_In. intros [_ He]. unfold exceeds in He. rewrite Hu in He.
  discriminate He.
Qed.

Lemma zero_total_not_flagged_witness :
  let d : dict := [("hostname", VStr "sw9");
                   ("ports", VDict [("used", VInt 12)])] in
  utilization d = Ok (S754_zero false) /\
  ~ In d (map fst ([] : list (dict * float))).
Proof.
  intros d. apply (zero_total_not_flagged [d] [] d); [|now left|reflexivity].
  now vm_compute.
Defined.

(** * Further properties of the report *)

(** X23: a report that is written for one time of the run is written for
    every other, and the two differ in their fourth line only, which is
    [Rapportdatum:] with the time; the report opens with a rule of 80
    [=] and closes with the banner [RAPPORT SLUT] between two such
    rules. *)
Theorem report_frame (t1 t2 : string) (data : value) (l1 : list string) :
  report t1 data = Ok l1 ->
  exists l2,
    report t2 data = Ok l2 /\
    nth_error l1 0 = Some (rule "=" 80) /\
    nth_error l1 3 = Some ("Rapportdatum: " ++ t1)%string /\
    nth_error l2 3 = Some ("Rapportdatum: " ++ t2)%string /\
    (forall i, i <> 3%nat -> nth_error l1 i = nth_error l2 i) /\
    exists body, l1 = body ++ [rule "=" 80; "RAPPORT SLUT"; rule "=" 80].
Proof.
  intros H. unfold report in *. cbv zeta in *.
  repeat match type of H with
         | (?m ≫= _) = Ok _ =>
             destruct m; [rewrite ret_bind in H; rewrite ret_bind
                         |discriminate H..]
         end.
  injection H as <-. eexists. split; [reflexivity|].
  cbn [app nth_error]. repeat split.
  - intros i Hi. do 4 (destruct i as [|i]; [reflexivity || contradiction|]).
    reflexivity.
  - eexists. rewrite !app_comm_cons, !app_assoc. reflexivity.
Qed.

Lemma report_frame_witness :
  exists l2,
    report "2024-05-02 08:00" document_missing_fields = Ok l2 /\
    nth_error l2 3 = Some "Rapportdatum: 2024-05-02 08:00".
Proof.
  assert (H : exists l1, report "2024-05-01 12:00" document_missing_fields
                         = Ok l1) by (eexists; now vm_compute).
  destruct H as (l1 & H1).
  destruct (report_frame "2024-05-01 12:00" "2024-05-02 08:00"
              document_missing_fields l1 H1) as (l2 & H2 & _ & _ & H3 & _).
  exists l2. split; [exact H2|exact H3].
Defined.

(** * Documents that render *)

(** ** Numbers within the limit *)

Lemma int_limit_above : 2 ^ 1000 <= int_limit.
Proof. now vm_compute. Qed.

Lemma in_range_small (z : Z) : Z.abs z < 2 ^ 1000 -> in_range z = true.
Proof.
  intros H. unfold in_range. apply Z.ltb_lt.
  eapply Z.lt_le_trans; [exact H|exact int_limit_above].
Qed.

Lemma in_range_b2z (b : bool) : in_range (Z.b2z b) = true.
Proof. apply in_range_small. destruct b; now vm_compute. Qed.








(** ** The records of a document *)
















(** ** The aggregates return *)














(** ** The sections are written *)










(** ** The report is written *)






(** The hypotheses on the site and on the ports are needed: a missing
    [site] is fatal once the location has a switch, whose line of the port
    summary formats the site in a column ([TypeError] on [None]), and so
    is a port count whose ratio no float holds ([OverflowError]). *)
Example missing_site_of_switch_raises :
  main "2024-05-01 12:00" document_missing_site = Raise TypeError.
Proof. now vm_compute. Qed.

Example port_overflow_raises :
  main "2024-05-01 12:00" document_port_overflow = Raise OverflowError.
Proof. now vm_compute. Qed.

(** The report of the document whose fields are loosely typed: the uptime
    ["12"] is listed as 12 days, the switch without [total] at 0.0% and
    the one that uses 30 ports of 24 at 125.0%. *)
Example loose_fields_report :
  exists lines,
    report "2024-05-01 12:00" document_loose_fields = Ok lines /\
    In "sw1                12 dagar  offline  HQ" lines /\
    In "Totalt: 42/24 portar används (175.0%)" lines /\
    In "               7 30/24  125.0%  HQ" lines.
Proof.
  eexists. split; [now vm_compute|]. cbn [In].
  repeat split; repeat (first [now left | right]).
Qed.

(** ** Literals are within the limit

    The limit on the digits of a literal bounds the number that [int]
    returns for it: whatever [int] accepts of a text can be converted back
    to text. *)

Lemma digit_of_range (c : ascii) (d : Z) : digit_of c = Some d -> 0 <= d <= 9.
Proof.
  unfold digit_of. cbv zeta.
  destruct ((48 <=? N_of_ascii c)%N && (N_of_ascii c <=? 57)%N) eqn:E;
    [|discriminate].
  intros [= <-]. apply andb_prop in E as [E1 E2].
  apply N.leb_le in E1, E2. lia.
Qed.

Lemma n_digits_nonneg (l : list ascii) : 0 <= n_digits l.
Proof. unfold n_digits. lia. Qed.

Lemma n_digits_cons (c : ascii) (l : list ascii) :
  n_digits (c :: l)
  = (match digit_of c with Some _ => 1 | None => 0 end) + n_digits l.
Proof.
  unfold n_digits. cbn [List.filter]. destruct (digit_of c); cbn [length]; lia.
Qed.

Lemma n_digits_app (l1 l2 : list ascii) :
  n_digits (l1 ++ l2) = n_digits l1 + n_digits l2.
Proof.
  induction l1 as [|c l1 IH]; [reflexivity|].
  cbn [app]. rewrite !n_digits_cons, IH. lia.
Qed.

Lemma n_digits_rev (l : list ascii) : n_digits (rev l) = n_digits l.
Proof.
  induction l as [|c l IH]; [reflexivity|].
  cbn [rev]. rewrite n_digits_app, IH, !n_digits_cons.
  change (n_digits []) with 0. lia.
Qed.

Lemma n_digits_lstrip (l : list ascii) : n_digits (lstrip l) <= n_digits l.
Proof.
  induction l as [|c l IH]; [reflexivity|].
  cbn [lstrip]. destruct (is_space c); [|lia].
  rewrite n_digits_cons. destruct (digit_of c); lia.
Qed.

Lemma n_digits_strip (l : list ascii) : n_digits (strip l) <= n_digits l.
Proof.
  unfold strip. rewrite n_digits_rev.
  pose proof (n_digits_lstrip (rev (lstrip l))) as H1.
  pose proof (n_digits_lstrip l) as H2.
  rewrite n_digits_rev in H1. lia.
Qed.

Lemma parse_digits_bound (l : list ascii) (acc z : Z) :
  0 <= acc -> parse_digits acc l = Some z ->
  0 <= z < (acc + 1) * 10 ^ n_digits l.
Proof.
  revert acc. induction l as [|c l IH]; intros acc Hacc.
  - cbn [parse_digits]. intros [= <-]. change (n_digits []) with 0. lia.
  - cbn [parse_digits]. rewrite n_digits_cons.
    pose proof (n_digits_nonneg l) as Hn.
    destruct (digit_of c) as [d|] eqn:Ec.
    + intros H. apply digit_of_range in Ec.
      apply IH in H; [|lia].
      rewrite Z.pow_add_r, Z.pow_1_r by lia.
      assert (G : 0 < 10 ^ n_digits l) by (apply Z.pow_pos_nonneg; lia).
      nia.
    + destruct (Ascii.eqb c "_"); [|discriminate].
      destruct l as [|c' l']; [discriminate|].
      destruct (digit_of c'); [|discriminate].
      intros H. apply IH in H; [|exact Hacc]. now rewrite Z.add_0_l.
Qed.

Lemma parse_int_bound (s : string) (z : Z) :
  parse_int s = Some z -> Z.abs z < 10 ^ count_digits s.
Proof.
  unfold parse_int. cbv zeta.
  change (count_digits s) with (n_digits (list_ascii_of_string s)).
  pose proof (n_digits_strip (list_ascii_of_string s)) as Hs.
  destruct (strip (list_ascii_of_string s)) as [|c l]; [discriminate|].
  assert (G : forall (neg : bool) (l' : list ascii),
            n_digits l' <= n_digits (c :: l) ->
            match l' with
            | c' :: _ =>
                match digit_of c' with
                | Some _ =>
                    (fun z : Z => if neg then - z else z) <$> parse_digits 0 l'
                | None => None
                end
            | [] => None
            end = Some z ->
            Z.abs z < 10 ^ n_digits (list_ascii_of_string s)).
  { intros neg l' Hl' H. destruct l' as [|c' l'']; [discriminate|].
    destruct (digit_of c'); [|discriminate].
    destruct (parse_digits 0 (c' :: l'')) as [n|] eqn:E; [|discriminate].
    apply parse_digits_bound in E; [|lia]. cbn in H. injection H as <-.
    assert (Hpow : 10 ^ n_digits (c' :: l'')
                   <= 10 ^ n_digits (list_ascii_of_string s))
      by (apply Z.pow_le_mono_r; lia).
    destruct neg; lia. }
  assert (Htail : n_digits l <= n_digits (c :: l))
    by (rewrite n_digits_cons; destruct (digit_of c); lia).
  destruct (Ascii.eqb c "-"); [now apply (G true l)|].
  destruct (Ascii.eqb c "+"); [now apply (G false l)|].
  apply (G false (c :: l)). lia.
Qed.

Lemma int_limit_pow : int_limit = 10 ^ MAX_STR_DIGITS.
Proof. now vm_compute. Qed.

Lemma py_int_text_in_range (s : string) (n : Z) :
  py_int (VStr s) = Ok n -> in_range n = true.
Proof.
  cbn [py_int]. destruct (is_ascii_text s); [|discriminate].
  destruct (parse_int s) as [z|] eqn:E; [|discriminate].
  destruct (count_digits s <=? MAX_STR_DIGITS) eqn:Hc; [|discriminate].
  intros [= <-]. apply Z.leb_le in Hc. apply parse_int_bound in E.
  unfold in_range. apply Z.ltb_lt. rewrite int_limit_pow.
  eapply Z.lt_le_trans; [exact E|]. apply Z.pow_le_mono_r; [lia|exact Hc].
Qed.

(** What [int] accepts is convertible: text and bools always, a number
    when it is one that the parser of the document accepts. *)
Lemma convertible_int (v : value) (n : Z) :
  py_int v = Ok n -> (forall z, v = VInt z -> in_range z = true) ->
  convertible v.
Proof.
  intros H Hz. exists n. split; [exact H|].
  destruct v as [|b|z|s|xs|kvs]; try discriminate.
  - injection H as <-. apply in_range_b2z.
  - injection H as <-. now apply Hz.
  - now apply (py_int_text_in_range s).
Qed.
